(** * Material nesting and cutting-stock optimisation

    A shallow embedding of the two nesting services of the takeoff backend,
    [backend/app/services/nesting_service_clean.py] (the comprehensive
    service) and [backend/app/services/nesting_service.py] (the simple
    service), and of the helpers of the nesting endpoints in
    [backend/app/api/v1/nesting.py] that grade a result and give advice,
    followed by the properties established about them.

    Conventions of the embedding.
    - Python [float] and [int] measurements are exact rationals ([Q]); the
      arithmetic of the services is carried out without rounding.  Integer
      quantities and counts are [Z].
    - A [dict] iterated in insertion order is an association list.
    - A method that returns [None] for "no result" returns [option].
    - [print] is a write to the console of the [World]; the service object
      is the other component of the [World]. *)

From Stdlib Require Import QArith Qround ZArith List String Ascii Bool.
From Stdlib Require Import Lia Lqa Permutation Sorted DecimalString.
Import ListNotations.

Local Open Scope Q_scope.

(** ** Python built-ins used by the services *)

Module Py.

(** [a < b], [a > b], [a >= b] and [a == b] on numbers. *)
Definition lt (a b : Q) : bool := negb (Qle_bool b a).
Definition gt (a b : Q) : bool := negb (Qle_bool a b).
Definition ge (a b : Q) : bool := Qle_bool b a.
Definition eq (a b : Q) : bool := Qeq_bool a b.

(** [sum(xs)]: left-to-right accumulation from [0]. *)
Definition sum (xs : list Q) : Q := fold_left Qplus xs 0.
Definition sumZ (xs : list Z) : Z := fold_left Z.add xs 0%Z.

(** [len(xs)] as a number. *)
Definition len {A} (xs : list A) : Z := Z.of_nat (List.length xs).

(** [d.get(k, default)] on an optional field. *)
Definition get {A} (o : option A) (default : A) : A :=
  match o with Some v => v | None => default end.

(** [a // b] followed by [int(...)], and [math.ceil(a / b)] on integers. *)
Definition floordiv (a b : Q) : Z := Qfloor (a / b).
Definition ceil_div (a b : Z) : Z := Qceiling (inject_Z a / inject_Z b).

Section StableSort.
Variable A : Type.
(** [before x y]: [x] may stay in front of [y]. *)
Variable before : A -> A -> bool.

Fixpoint insert (x : A) (l : list A) : list A :=
  match l with
  | [] => [x]
  | y :: t => if before x y then x :: l else y :: insert x t
  end.

(** A stable sort: an element is inserted in front of the elements
    that came after it in the input and are not strictly before it. *)
Fixpoint stable_sort (l : list A) : list A :=
  match l with
  | [] => []
  | x :: t => insert x (stable_sort t)
  end.
End StableSort.
Arguments insert {A} before x l.
Arguments stable_sort {A} before l.

(** [sorted(xs, reverse=True)] on numbers. *)
Definition sorted_reverse (xs : list Q) : list Q :=
  stable_sort (fun x y => Qle_bool y x) xs.

(** [xs.sort(key=k)] on records with a numeric key. *)
Definition sort_key {A} (k : A -> Q) (xs : list A) : list A :=
  stable_sort (fun x y => Qle_bool (k x) (k y)) xs.

(** Strings are sequences of ASCII characters. *)
Definition upper_char (c : ascii) : ascii :=
  let n := nat_of_ascii c in
  if (97 <=? n)%nat && (n <=? 122)%nat then ascii_of_nat (n - 32) else c.

Fixpoint upper (s : string) : string :=
  match s with
  | EmptyString => EmptyString
  | String c t => String (upper_char c) (upper t)
  end.

(** [str.isspace] on ASCII: tab, line feed, vertical tab, form feed,
    carriage return, the four separators 28..31 and the space. *)
Definition isspace (c : ascii) : bool :=
  let n := nat_of_ascii c in
  ((9 <=? n)%nat && (n <=? 13)%nat) || ((28 <=? n)%nat && (n <=? 32)%nat).

Fixpoint lstrip (s : string) : string :=
  match s with
  | EmptyString => EmptyString
  | String c t => if isspace c then lstrip t else s
  end.

Fixpoint rstrip (s : string) : string :=
  match s with
  | EmptyString => EmptyString
  | String c t =>
      match rstrip t with
      | EmptyString => if isspace c then EmptyString else String c EmptyString
      | t' => String c t'
      end
  end.

Definition strip (s : string) : string := rstrip (lstrip s).

(** [s.startswith(p)] and [p in s]. *)
Definition startswith (s p : string) : bool := String.prefix p s.

Fixpoint contains (p s : string) : bool :=
  String.prefix p s ||
  match s with
  | EmptyString => false
  | String _ t => contains p t
  end.

(** [any(p in s for p in ps)] and [s.startswith((p1, p2, ...))]. *)
Definition any_in (ps : list string) (s : string) : bool :=
  existsb (fun p => contains p s) ps.
Definition startswith_any (s : string) (ps : list string) : bool :=
  existsb (startswith s) ps.

(** [str(n)] on an integer. *)
Definition str_int (n : Z) : string := NilZero.string_of_int (Z.to_int n).

(** [f"{x:.0f}"] on a non-negative number: the nearest integer, halves to
    the even neighbour. *)
Definition round_half_even (x : Q) : Z :=
  let f := Qfloor x in
  let r := x - inject_Z f in
  if Qeq_bool r (1 # 2) then (if Z.even f then f else f + 1)%Z
  else if Qle_bool r (1 # 2) then f else (f + 1)%Z.
Definition format_0f (x : Q) : string := str_int (round_half_even x).

(** [sep.join(parts)]. *)
Fixpoint join (sep : string) (parts : list string) : string :=
  match parts with
  | [] => EmptyString
  | [p] => p
  | p :: rest => (p ++ sep ++ join sep rest)%string
  end.

(** Insertion-ordered dictionaries. *)
Section Dict.
Variables K V : Type.
Variable eqb : K -> K -> bool.

Fixpoint lookup (k : K) (d : list (K * V)) : option V :=
  match d with
  | [] => None
  | (k', v) :: t => if eqb k k' then Some v else lookup k t
  end.

(** [d[k] = v]: an existing key keeps its position. *)
Fixpoint store (k : K) (v : V) (d : list (K * V)) : list (K * V) :=
  match d with
  | [] => [(k, v)]
  | (k', v') :: t => if eqb k k' then (k', v) :: t else (k', v') :: store k v t
  end.
End Dict.
Arguments lookup {K V} eqb k d.
Arguments store {K V} eqb k v d.

(** The outcome of code that may raise: a value, or the message of the
    exception. *)
Inductive Outcome (A : Type) : Type :=
| Value (a : A)
| Raise (message : string).
Arguments Value {A} a.
Arguments Raise {A} message.

End Py.

(** ** The comprehensive service, [nesting_service_clean.py] *)

Module Clean.

(** The category names ['linear'], ['sheet'], ... used as dictionary keys. *)
Inductive Category : Type :=
  linear | sheet | grating | frp | hardware | structural | general.

Definition category_eqb (a b : Category) : bool :=
  match a, b with
  | linear, linear | sheet, sheet | grating, grating | frp, frp
  | hardware, hardware | structural, structural | general, general => true
  | _, _ => false
  end.

Definition category_name (c : Category) : string :=
  match c with
  | linear => "linear" | sheet => "sheet" | grating => "grating"
  | frp => "frp" | hardware => "hardware" | structural => "structural"
  | general => "general"
  end.

(** A takeoff entry after [entry.get(key, default)] and the conversions
    [int(...)] and [float(...)] of the fields the service reads. *)
Module Entry.
Record t : Type := mk {
  shape_key : string;
  qty : Z;
  length_ft : Q;
  length_in : Q;
  width_in : Q;
  thickness_in : Q;
  subcategory : string;
  unit_of_measure : string }.
End Entry.

Module MaterialSpec.
Record t : Type := mk {
  shape_key : string;
  category : Category;
  subcategory : string;
  length : Q;
  width : Q;
  thickness : Q;
  quantity : Z;
  unit_of_measure : string;
  priority : Z }.
End MaterialSpec.

Module MaterialPurchase.
Record t : Type := mk {
  shape_key : string;
  size_description : string;
  pieces_needed : Z;
  total_cost : Q;
  waste_percentage : Q;
  material_category : Category;
  waste_cost : Q;
  stock_length : Q;
  stock_width : Q;
  stock_thickness : Q;
  cuts_per_stick : list (list Q);
  cuts_from_this_size : list Q;
  bulk_discount_applied : bool;
  utilization_percentage : Q;
  supplier : string;
  optimization_notes : list string }.
End MaterialPurchase.

Module NestingResult.
Record t : Type := mk {
  material_purchases : list MaterialPurchase.t;
  total_waste_percentage : Q;
  total_cost : Q;
  cost_savings : Q;
  optimization_summary : string }.
End NestingResult.

(** The dictionary returned by [_bin_pack_linear]. *)
Module PackResult.
Record t : Type := mk {
  sticks_needed : Z;
  stock_length : Q;
  efficiency : Q;
  waste_percentage : Q;
  total_waste : Q;
  cuts_per_stick : list (list Q) }.
End PackResult.

(** The dictionaries returned by [_optimize_single_sheet_size]. *)
Module SheetDetail.
Record t : Type := mk {
  width : Q;
  length : Q;
  pieces_per_sheet : Z;
  quantity : Z }.
End SheetDetail.

Module SheetResult.
Record t : Type := mk {
  sheets_needed : Z;
  cost : Q;
  waste_percentage : Q;
  sheet_details : list SheetDetail.t }.
End SheetResult.

(** One entry of [optimization_params]; a key that a category does not
    define is [None]. *)
Module Params.
Record t : Type := mk {
  kerf : option Q;
  waste_target : option Q;
  edge_margin : option Q;
  piece_spacing : option Q;
  standard_sizes : option (list (Q * Q));
  bulk_thresholds : option (list Z);
  bulk_discounts : option (list Q) }.
Definition empty : t := mk None None None None None None None.
End Params.

(** The attributes set by [NestingService.__init__]; [db] is never read
    by the optimisation and is left out. *)
Record NestingService : Type := {
  standard_stock_lengths : list Q;
  standard_plate_sizes : list (Q * Q);
  material_categories : list (Category * list string);
  optimization_params : list (Category * Params.t) }.

(** [NestingService()], the module-level [nesting_service]. *)
Definition nesting_service : NestingService := {|
  standard_stock_lengths := [720; 600; 480; 360; 240; 120];
  standard_plate_sizes :=
    [(48, 96); (48, 120); (60, 120); (60, 96); (48, 144);
     (60, 144); (96, 96); (96, 240); (120, 480); (96, 480); (72, 144)];
  material_categories :=
    [(linear, ["PIPE"; "TUBE"; "ANGLE"; "CHANNEL"; "BEAM"; "ROD"; "BAR"]%string);
     (sheet, ["PLATE"; "SHEET"; "PL"]%string);
     (grating, ["GRATING"; "GRATE"]%string);
     (frp, ["FRP"]%string);
     (hardware, ["BOLT"; "NUT"; "WASHER"; "SCREW"; "ANCHOR"; "CLIP"]%string);
     (structural, ["W"; "S"; "C"; "L"; "WT"; "MC"; "HP"]%string)];
  optimization_params :=
    [(linear, Params.mk (Some 0.125) (Some 5) None None None None None);
     (sheet, Params.mk (Some 0.125) None (Some 0.5) (Some 0.25) None None None);
     (grating, Params.mk None (Some 8) None None
                 (Some [(24, 120); (36, 120); (48, 120)]) None None);
     (frp, Params.mk None (Some 10) None None
             (Some [(36, 120); (48, 96); (48, 120); (48, 144)]) None None);
     (hardware, Params.mk None None None None None
                  (Some [25; 50; 100; 250]%Z) (Some [0.02; 0.05; 0.10; 0.15]));
     (structural, Params.mk (Some 0.25) (Some 6) None None None None None)] |}.

(** [self.optimization_params.get(category, default)]. *)
Definition params_get (self : NestingService) (category : Category)
    (default : Params.t) : Params.t :=
  Py.get (Py.lookup category_eqb category (optimization_params self)) default.

(** [self.optimization_params['linear']]; every constructed service has it. *)
Definition params_linear (self : NestingService) : Params.t :=
  params_get self linear Params.empty.

(** *** Classification *)

(** The double loop over [self.material_categories.items()]. *)
Fixpoint first_pattern_category (table : list (Category * list string))
    (shape_upper : string) : option Category :=
  match table with
  | [] => None
  | (category, patterns) :: rest =>
      if Py.any_in patterns shape_upper then Some category
      else first_pattern_category rest shape_upper
  end.

(** The inch mark of pipe sizes. *)
Definition inch_mark : string := String "034"%char EmptyString.

Definition _determine_material_category (self : NestingService)
    (shape_key : string) : Category :=
  let shape_upper := Py.upper shape_key in
  match first_pattern_category (material_categories self) shape_upper with
  | Some category => category
  | None =>
      if Py.startswith shape_upper "PL" || Py.contains "DUCT" shape_upper
      then sheet
      else if Py.any_in ["19W4"; "15W4"; "11W4"]%string shape_upper
      then grating
      else if Py.contains "FRP-M-" shape_upper then frp
      else if Py.any_in ["ASSEMBLY"; "CLIP"; "ANCHOR"]%string shape_upper
      then hardware
      else if Py.startswith_any shape_upper
                ["W"; "S"; "C"; "L"; "WT"; "MC"; "HP"]%string
      then structural
      else if Py.any_in ["PIPE"; "TUBE"; inch_mark]%string shape_upper
      then linear
      else general
  end.

(** [material_groups]: category, then shape key, then the list of specs. *)
Definition Materials : Type := list (string * list MaterialSpec.t).
Definition MaterialGroups : Type := list (Category * Materials).

Definition empty_groups : MaterialGroups :=
  [(linear, []); (sheet, []); (grating, []); (frp, []); (hardware, []);
   (structural, []); (general, [])].

(** [if shape_key not in d: d[shape_key] = []] then
    [d[shape_key].append(spec)]. *)
Definition append_spec (shape_key : string) (spec : MaterialSpec.t)
    (d : Materials) : Materials :=
  match Py.lookup String.eqb shape_key d with
  | Some specs => Py.store String.eqb shape_key (specs ++ [spec]) d
  | None => Py.store String.eqb shape_key [spec] d
  end.

(** The update of [material_groups[category]] in place. *)
Definition update_group (category : Category) (f : Materials -> Materials)
    (material_groups : MaterialGroups) : MaterialGroups :=
  map (fun cg : Category * Materials =>
         if category_eqb category (fst cg) then (fst cg, f (snd cg)) else cg)
      material_groups.

Definition _categorize_and_process_entry (self : NestingService)
    (entry : Entry.t) (material_groups : MaterialGroups) : MaterialGroups :=
  let shape_key := Py.strip (Py.upper (Entry.shape_key entry)) in
  if String.eqb shape_key "" then material_groups
  else
    let qty := Entry.qty entry in
    if (qty <=? 0)%Z then material_groups
    else
      let category := _determine_material_category self shape_key in
      let spec := {|
        MaterialSpec.shape_key := shape_key;
        MaterialSpec.category := category;
        MaterialSpec.subcategory := Entry.subcategory entry;
        MaterialSpec.length := Entry.length_ft entry * 12 + Entry.length_in entry;
        MaterialSpec.width := Entry.width_in entry;
        MaterialSpec.thickness := Entry.thickness_in entry;
        MaterialSpec.quantity := qty;
        MaterialSpec.unit_of_measure := Entry.unit_of_measure entry;
        MaterialSpec.priority := 1 |} in
      update_group category (append_spec shape_key spec) material_groups.


(** *** Cost estimates *)

Definition _estimate_linear_cost (shape_key : string) (stock_length : Q) : Q :=
  let base_cost_per_foot := 10 in
  let base_cost_per_foot :=
    if Py.any_in ["PIPE"; "TUBE"]%string (Py.upper shape_key)
    then base_cost_per_foot * 1.2
    else if Py.any_in ["BEAM"; "W"; "S"]%string (Py.upper shape_key)
    then base_cost_per_foot * 1.5
    else base_cost_per_foot in
  (stock_length / 12) * base_cost_per_foot.

Definition _estimate_sheet_cost (width length thickness : Q) : Q :=
  let area_sqft := (width * length) / 144 in
  let cost_per_sqft := 5 + thickness * 2 in
  area_sqft * cost_per_sqft.

Definition _estimate_panel_cost (shape_key : string) (category : Category) : Q :=
  match category with
  | grating => 150
  | frp => 300
  | _ => 100
  end.

Definition _estimate_hardware_cost (shape_key : string) : Q :=
  let shape_upper := Py.upper shape_key in
  if Py.contains "BOLT" shape_upper || Py.contains "ASSEMBLY" shape_upper
  then 2.50
  else if Py.contains "CLIP" shape_upper then 1.50
  else if Py.contains "ANCHOR" shape_upper then 2.20
  else 1.00.

(** *** Linear stock: first-fit bin packing *)

(** The inner loop of [_bin_pack_linear]: the first stick whose remaining
    space takes [required_length] is charged and receives the cut; [None]
    when the loop ends with [placed] still false. *)
Fixpoint place_in_stick (sticks : list Q) (stick_cuts : list (list Q))
    (required_length cut_length : Q) : option (list Q * list (list Q)) :=
  match sticks, stick_cuts with
  | remaining_space :: sticks', cuts_on_stick :: stick_cuts' =>
      if Py.ge remaining_space required_length
      then Some ((remaining_space - required_length) :: sticks',
                 (cuts_on_stick ++ [cut_length]) :: stick_cuts')
      else
        match place_in_stick sticks' stick_cuts' required_length cut_length with
        | Some (s, c) => Some (remaining_space :: s, cuts_on_stick :: c)
        | None => None
        end
  | _, _ => None
  end.

(** The outer loop; [None] is the early [return None]. *)
Fixpoint pack_cuts (cuts : list Q) (stock_length kerf : Q)
    (sticks : list Q) (stick_cuts : list (list Q))
    : option (list Q * list (list Q)) :=
  match cuts with
  | [] => Some (sticks, stick_cuts)
  | cut_length :: rest =>
      let required_length := cut_length + kerf in
      match place_in_stick sticks stick_cuts required_length cut_length with
      | Some (s, c) => pack_cuts rest stock_length kerf s c
      | None =>
          if Py.lt stock_length required_length then None
          else pack_cuts rest stock_length kerf
                 (sticks ++ [stock_length - required_length])
                 (stick_cuts ++ [[cut_length]])
      end
  end.

Definition _bin_pack_linear (cuts : list Q) (stock_length kerf : Q)
    : option PackResult.t :=
  match pack_cuts cuts stock_length kerf [] [] with
  | None => None
  | Some (sticks, stick_cuts) =>
      let num_sticks := Py.len sticks in
      let total_used := Py.sum (map Py.sum stick_cuts) in
      let total_kerf :=
        Py.sum (map (fun cuts_on_stick => inject_Z (Py.len cuts_on_stick) * kerf)
                    stick_cuts) in
      let total_available := inject_Z num_sticks * stock_length in
      let total_waste := total_available - total_used - total_kerf in
      let efficiency :=
        if Py.gt total_available 0
        then ((total_used + total_kerf) / total_available) * 100 else 0 in
      let waste_percentage :=
        if Py.gt total_available 0
        then (total_waste / total_available) * 100 else 0 in
      Some {| PackResult.sticks_needed := num_sticks;
              PackResult.stock_length := stock_length;
              PackResult.efficiency := efficiency;
              PackResult.waste_percentage := waste_percentage;
              PackResult.total_waste := total_waste;
              PackResult.cuts_per_stick := stick_cuts |}
  end.

(** The loop over [self.standard_stock_lengths] that keeps the result of
    strictly greater efficiency. *)
Fixpoint best_stock (sorted_cuts : list Q) (kerf : Q) (stock_lengths : list Q)
    (best_result : option PackResult.t) (best_efficiency : Q)
    : option PackResult.t :=
  match stock_lengths with
  | [] => best_result
  | stock_length :: rest =>
      match _bin_pack_linear sorted_cuts stock_length kerf with
      | Some result =>
          if Py.gt (PackResult.efficiency result) best_efficiency
          then best_stock sorted_cuts kerf rest (Some result)
                 (PackResult.efficiency result)
          else best_stock sorted_cuts kerf rest best_result best_efficiency
      | None => best_stock sorted_cuts kerf rest best_result best_efficiency
      end
  end.

(** The kerf that [_optimize_linear_cuts] reads for a category. *)
Definition kerf_of (self : NestingService) (category : Category) : Q :=
  Py.get (Params.kerf (params_get self category (params_linear self))) 0.125.

Definition _optimize_linear_cuts (self : NestingService) (shape_key : string)
    (cuts : list Q) (category : Category) : option MaterialPurchase.t :=
  match cuts with
  | [] => None
  | _ =>
      let kerf := kerf_of self category in
      let sorted_cuts := Py.sorted_reverse cuts in
      match best_stock sorted_cuts kerf (standard_stock_lengths self) None 0 with
      | None => None
      | Some best_result =>
          let cost_per_stick :=
            _estimate_linear_cost shape_key (PackResult.stock_length best_result) in
          let total_cost :=
            inject_Z (PackResult.sticks_needed best_result) * cost_per_stick in
          let waste_cost :=
            (PackResult.total_waste best_result
             / PackResult.stock_length best_result) * cost_per_stick in
          let feet := Py.format_0f (PackResult.stock_length best_result / 12) in
          Some {|
            MaterialPurchase.shape_key := shape_key;
            MaterialPurchase.size_description := (feet ++ "' sticks")%string;
            MaterialPurchase.pieces_needed := PackResult.sticks_needed best_result;
            MaterialPurchase.total_cost := total_cost;
            MaterialPurchase.waste_percentage :=
              PackResult.waste_percentage best_result;
            MaterialPurchase.material_category := category;
            MaterialPurchase.waste_cost := waste_cost;
            MaterialPurchase.stock_length := PackResult.stock_length best_result;
            MaterialPurchase.stock_width := 0;
            MaterialPurchase.stock_thickness := 0;
            MaterialPurchase.cuts_per_stick :=
              PackResult.cuts_per_stick best_result;
            MaterialPurchase.cuts_from_this_size := cuts;
            MaterialPurchase.bulk_discount_applied := false;
            MaterialPurchase.utilization_percentage :=
              PackResult.efficiency best_result;
            MaterialPurchase.supplier := "Standard";
            MaterialPurchase.optimization_notes :=
              [("Optimized using " ++ feet ++ "' stock lengths")%string] |}
      end
  end.

(** [for spec in specs: for _ in range(spec.quantity): cuts.append(spec.length)]. *)
Definition cuts_of_specs (specs : list MaterialSpec.t) : list Q :=
  flat_map (fun spec =>
              repeat (MaterialSpec.length spec)
                     (Z.to_nat (MaterialSpec.quantity spec)))
           specs.

(** [if purchase: purchases.append(purchase)] over the items of a group. *)
Definition collect_purchases
    (optimize : string -> list MaterialSpec.t -> option MaterialPurchase.t)
    (materials : Materials) : list MaterialPurchase.t :=
  flat_map (fun item : string * list MaterialSpec.t =>
              match optimize (fst item) (snd item) with
              | Some purchase => [purchase]
              | None => []
              end)
           materials.

Definition _optimize_linear_materials (self : NestingService)
    (materials : Materials) : list MaterialPurchase.t :=
  collect_purchases
    (fun shape_key specs =>
       _optimize_linear_cuts self shape_key (cuts_of_specs specs) linear)
    materials.

Definition _optimize_structural_materials (self : NestingService)
    (materials : Materials) : list MaterialPurchase.t :=
  collect_purchases
    (fun shape_key specs =>
       _optimize_linear_cuts self shape_key (cuts_of_specs specs) structural)
    materials.

(** *** Sheet and plate nesting *)

(** The test of [_find_best_sheet_fit]: the piece fits as given or turned. *)
Definition piece_fits (piece_width piece_length sheet_width sheet_length : Q)
    : bool :=
  (Qle_bool piece_width sheet_width && Qle_bool piece_length sheet_length)
  || (Qle_bool piece_width sheet_length && Qle_bool piece_length sheet_width).

Definition suitable_sizes (self : NestingService) (piece_width piece_length : Q)
    : list (Q * (Q * Q)) :=
  flat_map (fun size : Q * Q =>
              let (sheet_width, sheet_length) := size in
              if piece_fits piece_width piece_length sheet_width sheet_length
              then
                let sheet_area := sheet_width * sheet_length in
                let piece_area := piece_width * piece_length in
                let waste := sheet_area - piece_area in
                [(waste, (sheet_width, sheet_length))]
              else [])
           (standard_plate_sizes self).

Definition _find_best_sheet_fit (self : NestingService)
    (piece_width piece_length : Q) (category : Category) : option (Q * Q) :=
  match Py.sort_key fst (suitable_sizes self piece_width piece_length) with
  | [] => None
  | best :: _ => Some (snd best)
  end.

Definition total_quantity (specs : list MaterialSpec.t) : Z :=
  Py.sumZ (map MaterialSpec.quantity specs).

Definition _optimize_single_sheet_size (self : NestingService)
    (specs : list MaterialSpec.t) (category : Category) : option SheetResult.t :=
  match specs with
  | [] => None
  | piece_spec :: _ =>
      let piece_width := MaterialSpec.width piece_spec in
      let piece_length := MaterialSpec.length piece_spec in
      let total_qty := total_quantity specs in
      if Py.eq piece_width 0 || Py.eq piece_length 0 then None
      else
        let piece_area := piece_width * piece_length in
        match _find_best_sheet_fit self piece_width piece_length category with
        | None => None
        | Some (sheet_width, sheet_length) =>
            let sheet_area := sheet_width * sheet_length in
            let pieces_per_sheet_width := Py.floordiv sheet_width piece_width in
            let pieces_per_sheet_length := Py.floordiv sheet_length piece_length in
            let pieces_per_sheet :=
              (pieces_per_sheet_width * pieces_per_sheet_length)%Z in
            let pieces_per_sheet :=
              if (pieces_per_sheet =? 0)%Z
              then (Py.floordiv sheet_width piece_length
                    * Py.floordiv sheet_length piece_width)%Z
              else pieces_per_sheet in
            if (pieces_per_sheet =? 0)%Z then None
            else
              let sheets_needed := Py.ceil_div total_qty pieces_per_sheet in
              let used_area := inject_Z total_qty * piece_area in
              let total_sheet_area := inject_Z sheets_needed * sheet_area in
              let waste_area := total_sheet_area - used_area in
              let waste_percentage :=
                if Py.gt total_sheet_area 0
                then (waste_area / total_sheet_area) * 100 else 0 in
              let cost_per_sheet :=
                _estimate_sheet_cost sheet_width sheet_length
                  (MaterialSpec.thickness piece_spec) in
              let total_cost := inject_Z sheets_needed * cost_per_sheet in
              Some {|
                SheetResult.sheets_needed := sheets_needed;
                SheetResult.cost := total_cost;
                SheetResult.waste_percentage := waste_percentage;
                SheetResult.sheet_details :=
                  [{| SheetDetail.width := sheet_width;
                      SheetDetail.length := sheet_length;
                      SheetDetail.pieces_per_sheet := pieces_per_sheet;
                      SheetDetail.quantity := sheets_needed |}] |}
        end
  end.

(** The key [f"{spec.width}x{spec.length}x{spec.thickness}"]: two specs
    share it exactly when the three numbers are equal. *)
Definition SizeKey : Type := (Q * Q * Q)%type.

Definition size_key (spec : MaterialSpec.t) : SizeKey :=
  (MaterialSpec.width spec, MaterialSpec.length spec, MaterialSpec.thickness spec).

Definition size_key_eqb (a b : SizeKey) : bool :=
  let '(w1, l1, t1) := a in
  let '(w2, l2, t2) := b in
  Qeq_bool w1 w2 && Qeq_bool l1 l2 && Qeq_bool t1 t2.

Definition add_to_size_group (spec : MaterialSpec.t)
    (size_groups : list (SizeKey * list MaterialSpec.t))
    : list (SizeKey * list MaterialSpec.t) :=
  match Py.lookup size_key_eqb (size_key spec) size_groups with
  | Some specs => Py.store size_key_eqb (size_key spec) (specs ++ [spec]) size_groups
  | None => Py.store size_key_eqb (size_key spec) [spec] size_groups
  end.

Definition group_by_size (specs : list MaterialSpec.t)
    : list (SizeKey * list MaterialSpec.t) :=
  fold_left (fun size_groups spec => add_to_size_group spec size_groups) specs [].

(** The accumulators of [_optimize_sheet_nesting]. *)
Record SheetTotals : Type := {
  acc_total_cost : Q;
  acc_total_pieces : Z;
  acc_all_sheets : list SheetDetail.t;
  acc_weighted_waste : Q }.

Definition accumulate_sheet (self : NestingService) (category : Category)
    (acc : SheetTotals) (group : SizeKey * list MaterialSpec.t) : SheetTotals :=
  match _optimize_single_sheet_size self (snd group) category with
  | Some sheet_result => {|
      acc_total_cost := acc_total_cost acc + SheetResult.cost sheet_result;
      acc_total_pieces :=
        (acc_total_pieces acc + SheetResult.sheets_needed sheet_result)%Z;
      acc_all_sheets :=
        acc_all_sheets acc ++ SheetResult.sheet_details sheet_result;
      acc_weighted_waste :=
        acc_weighted_waste acc
        + SheetResult.waste_percentage sheet_result * SheetResult.cost sheet_result |}
  | None => acc
  end.

Definition _optimize_sheet_nesting (self : NestingService) (shape_key : string)
    (specs : list MaterialSpec.t) (category : Category)
    : option MaterialPurchase.t :=
  match specs with
  | [] => None
  | _ =>
      let size_groups := group_by_size specs in
      let acc :=
        fold_left (accumulate_sheet self category) size_groups
          {| acc_total_cost := 0; acc_total_pieces := 0;
             acc_all_sheets := []; acc_weighted_waste := 0 |} in
      let total_cost := acc_total_cost acc in
      if Py.eq total_cost 0 then None
      else
        let avg_waste_percentage := acc_weighted_waste acc / total_cost in
        Some {|
          MaterialPurchase.shape_key := shape_key;
          MaterialPurchase.size_description := "Various sheet sizes";
          MaterialPurchase.pieces_needed := acc_total_pieces acc;
          MaterialPurchase.total_cost := total_cost;
          MaterialPurchase.waste_percentage := avg_waste_percentage;
          MaterialPurchase.material_category := category;
          MaterialPurchase.waste_cost := total_cost * (avg_waste_percentage / 100);
          MaterialPurchase.stock_length := 0;
          MaterialPurchase.stock_width := 0;
          MaterialPurchase.stock_thickness := 0;
          MaterialPurchase.cuts_per_stick := [];
          MaterialPurchase.cuts_from_this_size := [];
          MaterialPurchase.bulk_discount_applied := false;
          MaterialPurchase.utilization_percentage := 0;
          MaterialPurchase.supplier := "Standard";
          MaterialPurchase.optimization_notes :=
            [("Optimized " ++ Py.str_int (Py.len size_groups)
              ++ " different piece sizes")%string] |}
  end.

Definition _optimize_sheet_materials (self : NestingService)
    (materials : Materials) : list MaterialPurchase.t :=
  collect_purchases
    (fun shape_key specs => _optimize_sheet_nesting self shape_key specs sheet)
    materials.

(** *** Panels *)

Definition _optimize_panel_nesting (self : NestingService) (shape_key : string)
    (specs : list MaterialSpec.t) (category : Category)
    : option MaterialPurchase.t :=
  match specs with
  | [] => None
  | _ =>
      let total_qty := total_quantity specs in
      let params := params_get self category Params.empty in
      let avg_unit_cost := _estimate_panel_cost shape_key category in
      let total_cost := inject_Z total_qty * avg_unit_cost in
      let waste_percentage := Py.get (Params.waste_target params) 5 in
      let waste_cost := total_cost * (waste_percentage / 100) in
      Some {|
        MaterialPurchase.shape_key := shape_key;
        MaterialPurchase.size_description := "Standard panel sizes";
        MaterialPurchase.pieces_needed := total_qty;
        MaterialPurchase.total_cost := total_cost;
        MaterialPurchase.waste_percentage := waste_percentage;
        MaterialPurchase.material_category := category;
        MaterialPurchase.waste_cost := waste_cost;
        MaterialPurchase.stock_length := 0;
        MaterialPurchase.stock_width := 0;
        MaterialPurchase.stock_thickness := 0;
        MaterialPurchase.cuts_per_stick := [];
        MaterialPurchase.cuts_from_this_size := [];
        MaterialPurchase.bulk_discount_applied := false;
        MaterialPurchase.utilization_percentage := 0;
        MaterialPurchase.supplier := "Standard";
        MaterialPurchase.optimization_notes :=
          [(Py.upper (category_name category)
            ++ " panels - standard sizes used")%string] |}
  end.

Definition _optimize_grating_materials (self : NestingService)
    (materials : Materials) : list MaterialPurchase.t :=
  collect_purchases
    (fun shape_key specs => _optimize_panel_nesting self shape_key specs grating)
    materials.

(** [purchase.optimization_notes.append(note)]. *)
Definition add_note (note : string) (p : MaterialPurchase.t)
    : MaterialPurchase.t := {|
  MaterialPurchase.shape_key := MaterialPurchase.shape_key p;
  MaterialPurchase.size_description := MaterialPurchase.size_description p;
  MaterialPurchase.pieces_needed := MaterialPurchase.pieces_needed p;
  MaterialPurchase.total_cost := MaterialPurchase.total_cost p;
  MaterialPurchase.waste_percentage := MaterialPurchase.waste_percentage p;
  MaterialPurchase.material_category := MaterialPurchase.material_category p;
  MaterialPurchase.waste_cost := MaterialPurchase.waste_cost p;
  MaterialPurchase.stock_length := MaterialPurchase.stock_length p;
  MaterialPurchase.stock_width := MaterialPurchase.stock_width p;
  MaterialPurchase.stock_thickness := MaterialPurchase.stock_thickness p;
  MaterialPurchase.cuts_per_stick := MaterialPurchase.cuts_per_stick p;
  MaterialPurchase.cuts_from_this_size := MaterialPurchase.cuts_from_this_size p;
  MaterialPurchase.bulk_discount_applied :=
    MaterialPurchase.bulk_discount_applied p;
  MaterialPurchase.utilization_percentage :=
    MaterialPurchase.utilization_percentage p;
  MaterialPurchase.supplier := MaterialPurchase.supplier p;
  MaterialPurchase.optimization_notes :=
    MaterialPurchase.optimization_notes p ++ [note] |}.

Definition _optimize_frp_materials (self : NestingService)
    (materials : Materials) : list MaterialPurchase.t :=
  collect_purchases
    (fun shape_key specs =>
       option_map (add_note "FRP: Fiber direction constraints applied")
         (_optimize_panel_nesting self shape_key specs frp))
    materials.

(** *** Hardware *)

(** The loop over [enumerate(thresholds)]: every threshold that is met
    overwrites [discount_rate] with [discounts[i]]; reading past the end of
    [discounts] raises [IndexError]. *)
Fixpoint bulk_discount (thresholds : list Z) (discounts : list Q) (i : nat)
    (total_qty : Z) (discount_rate : Q) (bulk_applied : bool)
    : Py.Outcome (Q * bool) :=
  match thresholds with
  | [] => Py.Value (discount_rate, bulk_applied)
  | threshold :: rest =>
      if (total_qty >=? threshold)%Z
      then
        match nth_error discounts i with
        | Some d => bulk_discount rest discounts (S i) total_qty d true
        | None => Py.Raise "list index out of range"
        end
      else bulk_discount rest discounts (S i) total_qty discount_rate bulk_applied
  end.

Definition hardware_thresholds (self : NestingService) : list Z :=
  Py.get (Params.bulk_thresholds (params_get self hardware Params.empty))
         [25; 50; 100; 250]%Z.

Definition hardware_discounts (self : NestingService) : list Q :=
  Py.get (Params.bulk_discounts (params_get self hardware Params.empty))
         [0.02; 0.05; 0.10; 0.15].

Definition _optimize_hardware_batching (self : NestingService)
    (shape_key : string) (specs : list MaterialSpec.t)
    : Py.Outcome (option MaterialPurchase.t) :=
  match specs with
  | [] => Py.Value None
  | _ =>
      let total_qty := total_quantity specs in
      let thresholds := hardware_thresholds self in
      let discounts := hardware_discounts self in
      let base_unit_cost := _estimate_hardware_cost shape_key in
      match bulk_discount thresholds discounts 0 total_qty 0 false with
      | Py.Raise e => Py.Raise e
      | Py.Value (discount_rate, bulk_applied) =>
          let unit_cost := base_unit_cost * (1 - discount_rate) in
          let total_cost := inject_Z total_qty * unit_cost in
          let notes :=
            if bulk_applied
            then [("Bulk discount applied: " ++ Py.format_0f (discount_rate * 100)
                   ++ "% off for " ++ Py.str_int total_qty ++ " pieces")%string]
            else [] in
          Py.Value (Some {|
            MaterialPurchase.shape_key := shape_key;
            MaterialPurchase.size_description :=
              (Py.str_int total_qty ++ " pieces")%string;
            MaterialPurchase.pieces_needed := total_qty;
            MaterialPurchase.total_cost := total_cost;
            MaterialPurchase.waste_percentage := 0;
            MaterialPurchase.material_category := hardware;
            MaterialPurchase.waste_cost := 0;
            MaterialPurchase.stock_length := 0;
            MaterialPurchase.stock_width := 0;
            MaterialPurchase.stock_thickness := 0;
            MaterialPurchase.cuts_per_stick := [];
            MaterialPurchase.cuts_from_this_size := [];
            MaterialPurchase.bulk_discount_applied := bulk_applied;
            MaterialPurchase.utilization_percentage := 0;
            MaterialPurchase.supplier := "Standard";
            MaterialPurchase.optimization_notes := notes |})
      end
  end.

Fixpoint _optimize_hardware_materials (self : NestingService)
    (materials : Materials) : Py.Outcome (list MaterialPurchase.t) :=
  match materials with
  | [] => Py.Value []
  | (shape_key, specs) :: rest =>
      match _optimize_hardware_batching self shape_key specs with
      | Py.Raise e => Py.Raise e
      | Py.Value purchase =>
          match _optimize_hardware_materials self rest with
          | Py.Raise e => Py.Raise e
          | Py.Value purchases =>
              Py.Value (match purchase with
                        | Some p => p :: purchases
                        | None => purchases
                        end)
          end
      end
  end.

(** *** Uncategorised materials *)

Definition _optimize_general_materials (self : NestingService)
    (materials : Materials) : list MaterialPurchase.t :=
  map (fun item : string * list MaterialSpec.t =>
         let total_qty := total_quantity (snd item) in
         let avg_unit_cost := 50 in
         {| MaterialPurchase.shape_key := fst item;
            MaterialPurchase.size_description := "As specified";
            MaterialPurchase.pieces_needed := total_qty;
            MaterialPurchase.total_cost := inject_Z total_qty * avg_unit_cost;
            MaterialPurchase.waste_percentage := 0;
            MaterialPurchase.material_category := general;
            MaterialPurchase.waste_cost := 0;
            MaterialPurchase.stock_length := 0;
            MaterialPurchase.stock_width := 0;
            MaterialPurchase.stock_thickness := 0;
            MaterialPurchase.cuts_per_stick := [];
            MaterialPurchase.cuts_from_this_size := [];
            MaterialPurchase.bulk_discount_applied := false;
            MaterialPurchase.utilization_percentage := 0;
            MaterialPurchase.supplier := "Standard";
            MaterialPurchase.optimization_notes :=
              ["Basic quantity aggregation - consider manual review"%string] |})
      materials.

(** *** The run *)

(** The dispatch on [category] inside the loop of the run. *)
Definition optimize_category (self : NestingService) (category : Category)
    (materials : Materials) : Py.Outcome (list MaterialPurchase.t) :=
  match category with
  | linear => Py.Value (_optimize_linear_materials self materials)
  | sheet => Py.Value (_optimize_sheet_materials self materials)
  | grating => Py.Value (_optimize_grating_materials self materials)
  | frp => Py.Value (_optimize_frp_materials self materials)
  | hardware => _optimize_hardware_materials self materials
  | structural => Py.Value (_optimize_structural_materials self materials)
  | general => Py.Value (_optimize_general_materials self materials)
  end.

(** The service object and the console are what a run can touch. *)
Record World : Type := {
  service : NestingService;
  console : list string }.

Definition M (A : Type) : Type := World -> A * World.

Definition ret {A} (a : A) : M A := fun w => (a, w).

Definition bind {A B} (m : M A) (k : A -> M B) : M B :=
  fun w => let (a, w') := m w in k a w'.

Notation "x <- m ;; k" := (bind m (fun x => k))
  (at level 61, m at next level, right associativity).
Notation "m ;;; k" := (bind m (fun _ => k))
  (at level 61, right associativity).

Definition print (line : string) : M unit :=
  fun w => (tt, {| service := service w; console := console w ++ [line] |}).

Definition get_self : M NestingService := fun w => (service w, w).

(** [for category, materials in material_groups.items()]. *)
Fixpoint optimize_groups (self : NestingService) (material_groups : MaterialGroups)
    (all_purchases : list MaterialPurchase.t)
    : M (Py.Outcome (list MaterialPurchase.t)) :=
  match material_groups with
  | [] => ret (Py.Value all_purchases)
  | (category, materials) :: rest =>
      match materials with
      | [] => optimize_groups self rest all_purchases
      | _ =>
          print ("Optimizing " ++ Py.str_int (Py.len materials) ++ " "
                 ++ category_name category ++ " materials...")%string ;;;
          match optimize_category self category materials with
          | Py.Raise e => ret (Py.Raise e)
          | Py.Value purchases =>
              optimize_groups self rest (all_purchases ++ purchases)
          end
      end
  end.

(** [category_counts[cat] = category_counts.get(cat, 0) + 1]. *)
Definition count_category (category_counts : list (Category * Z))
    (purchase : MaterialPurchase.t) : list (Category * Z) :=
  let cat := MaterialPurchase.material_category purchase in
  Py.store category_eqb cat
    (Py.get (Py.lookup category_eqb cat category_counts) 0 + 1)%Z
    category_counts.

Definition summarize (all_purchases : list MaterialPurchase.t) : NestingResult.t :=
  match all_purchases with
  | [] => NestingResult.mk [] 0 0 0 "No materials found for optimization"
  | _ =>
      let total_cost := Py.sum (map MaterialPurchase.total_cost all_purchases) in
      let weighted_waste :=
        if Py.gt total_cost 0
        then Py.sum (map (fun p => MaterialPurchase.waste_percentage p
                                   * MaterialPurchase.total_cost p)
                         all_purchases) / total_cost
        else 0 in
      let baseline_cost := total_cost / 0.85 in
      let cost_savings := baseline_cost - total_cost in
      let category_counts := fold_left count_category all_purchases [] in
      let summary_parts :=
        map (fun cc : Category * Z =>
               (Py.str_int (snd cc) ++ " " ++ category_name (fst cc))%string)
            category_counts in
      let summary :=
        ("Optimized " ++ Py.str_int (Py.len all_purchases)
         ++ " total materials: " ++ Py.join ", " summary_parts)%string in
      {| NestingResult.material_purchases := all_purchases;
         NestingResult.total_waste_percentage := weighted_waste;
         NestingResult.total_cost := total_cost;
         NestingResult.cost_savings := cost_savings;
         NestingResult.optimization_summary := summary |}
  end.

(** [for entry in takeoff_entries: self._categorize_and_process_entry(...)]. *)
Definition categorize_entries (self : NestingService)
    (takeoff_entries : list Entry.t) : MaterialGroups :=
  fold_left (fun material_groups entry =>
               _categorize_and_process_entry self entry material_groups)
            takeoff_entries empty_groups.

(** The method of the service; an exception inside the [try] is printed
    and raised again as [ValueError]. *)
Definition optimize_project_materials (takeoff_entries : list Entry.t)
    (project_id : string) : M (Py.Outcome NestingResult.t) :=
  print ("Starting comprehensive nesting optimization for project "
         ++ project_id)%string ;;;
  self <- get_self ;;
  let material_groups := categorize_entries self takeoff_entries in
  r <- optimize_groups self material_groups [] ;;
  match r with
  | Py.Value all_purchases => ret (Py.Value (summarize all_purchases))
  | Py.Raise e =>
      print ("Comprehensive nesting optimization error: " ++ e)%string ;;;
      ret (Py.Raise ("Nesting optimization failed: " ++ e)%string)
  end.

End Clean.

(** ** The simple service, [nesting_service.py] *)

Module Simple.

(** A takeoff entry after [entry.get(key, default)] and the conversions. *)
Module Entry.
Record t : Type := mk {
  shape_key : string;
  qty : Z;
  length_ft : Q;
  length_in : Q;
  width_in : Q }.
End Entry.

Module MaterialPurchase.
Record t : Type := mk {
  shape_key : string;
  size_description : string;
  pieces_needed : Z;
  total_cost : Q;
  waste_percentage : Q;
  waste_cost : Q;
  stock_length : Q;
  cuts_per_stick : list (list Q);
  cuts_from_this_size : list Q }.
End MaterialPurchase.

Module NestingResult.
Record t : Type := mk {
  material_purchases : list MaterialPurchase.t;
  total_waste_percentage : Q;
  total_cost : Q;
  cost_savings : Q;
  optimization_summary : string }.
End NestingResult.

(** The value stored under a plate key. *)
Module PlateData.
Record t : Type := mk {
  material : string;
  width : Q;
  length : Q;
  qty : Z }.
End PlateData.

Record NestingService : Type := {
  standard_stock_lengths : list Z;
  standard_plate_sizes : list (Z * Z) }.

(** [NestingService()], the module-level [nesting_service]. *)
Definition nesting_service : NestingService := {|
  standard_stock_lengths := [720; 600; 480; 360; 240; 120]%Z;
  standard_plate_sizes :=
    [(48, 96); (48, 120); (60, 120); (60, 96); (48, 144);
     (60, 144); (96, 96); (96, 240); (120, 480); (96, 480); (72, 144)]%Z |}.

Definition LinearMaterials : Type := list (string * list Q).

(** The key [f"{shape_key}|{width}|{length}"]. *)
Definition PlateKey : Type := (string * Q * Q)%type.

Definition plate_key_eqb (a b : PlateKey) : bool :=
  let '(s1, w1, l1) := a in
  let '(s2, w2, l2) := b in
  String.eqb s1 s2 && Qeq_bool w1 w2 && Qeq_bool l1 l2.

Definition PlateMaterials : Type := list (PlateKey * PlateData.t).

Definition _process_linear_entry (entry : Entry.t)
    (linear_materials : LinearMaterials) : LinearMaterials :=
  let shape_key := Py.strip (Py.upper (Entry.shape_key entry)) in
  let qty := Entry.qty entry in
  let ft := Entry.length_ft entry in
  let inches := Entry.length_in entry in
  if (qty <=? 0)%Z || (Py.eq ft 0 && Py.eq inches 0) then linear_materials
  else
    let cut_length := ft * 12 + inches in
    let cuts := Py.get (Py.lookup String.eqb shape_key linear_materials) [] in
    Py.store String.eqb shape_key (cuts ++ repeat cut_length (Z.to_nat qty))
      linear_materials.

Definition _process_plate_entry (entry : Entry.t)
    (plate_materials : PlateMaterials) : PlateMaterials :=
  let shape_key := Py.strip (Py.upper (Entry.shape_key entry)) in
  let qty := Entry.qty entry in
  let width := Entry.width_in entry in
  let ft := Entry.length_ft entry in
  let inches := Entry.length_in entry in
  if (qty <=? 0)%Z || Py.eq width 0 then plate_materials
  else
    let length := ft * 12 + inches in
    if Py.eq length 0 then plate_materials
    else
      let plate_key := (shape_key, width, length) in
      match Py.lookup plate_key_eqb plate_key plate_materials with
      | Some data =>
          Py.store plate_key_eqb plate_key
            (PlateData.mk (PlateData.material data) (PlateData.width data)
               (PlateData.length data) (PlateData.qty data + qty)%Z)
            plate_materials
      | None =>
          Py.store plate_key_eqb plate_key
            (PlateData.mk shape_key width length qty) plate_materials
      end.

(** The inner loop of [_optimize_linear_material]. *)
Fixpoint place_in_stick (sticks : list Q) (stick_cuts : list (list Q))
    (cut_length : Q) : option (list Q * list (list Q)) :=
  match sticks, stick_cuts with
  | remaining_space :: sticks', cuts_on_stick :: stick_cuts' =>
      if Py.ge remaining_space cut_length
      then Some ((remaining_space - cut_length) :: sticks',
                 (cuts_on_stick ++ [cut_length]) :: stick_cuts')
      else
        match place_in_stick sticks' stick_cuts' cut_length with
        | Some (s, c) => Some (remaining_space :: s, cuts_on_stick :: c)
        | None => None
        end
  | _, _ => None
  end.

(** The outer loop: a cut that no stick takes opens a new stick. *)
Fixpoint pack_cuts (sorted_cuts : list Q) (stock_length : Q)
    (sticks : list Q) (stick_cuts : list (list Q))
    : list Q * list (list Q) :=
  match sorted_cuts with
  | [] => (sticks, stick_cuts)
  | cut_length :: rest =>
      match place_in_stick sticks stick_cuts cut_length with
      | Some (s, c) => pack_cuts rest stock_length s c
      | None =>
          pack_cuts rest stock_length
            (sticks ++ [stock_length - cut_length])
            (stick_cuts ++ [[cut_length]])
      end
  end.

Definition _optimize_linear_material (self : NestingService)
    (material : string) (cuts : list Q)
    : Py.Outcome (option MaterialPurchase.t) :=
  match cuts with
  | [] => Py.Value None
  | _ =>
      let sorted_cuts := Py.sorted_reverse cuts in
      match standard_stock_lengths self with
      | [] => Py.Raise "list index out of range"
      | stock :: _ =>
          let stock_length := inject_Z stock in
          let (sticks, stick_cuts) := pack_cuts sorted_cuts stock_length [] [] in
          let num_sticks := Py.len sticks in
          let total_used := Py.sum (map Py.sum stick_cuts) in
          let total_available := inject_Z num_sticks * stock_length in
          let total_waste := total_available - total_used in
          let waste_percentage :=
            if Py.gt total_available 0
            then (total_waste / total_available) * 100 else 0 in
          let cost_per_stick := 100 in
          let total_cost := inject_Z num_sticks * cost_per_stick in
          let waste_cost :=
            if Py.gt stock_length 0
            then (total_waste / stock_length) * cost_per_stick else 0 in
          let all_cuts := List.concat stick_cuts in
          Py.Value (Some {|
            MaterialPurchase.shape_key := material;
            MaterialPurchase.size_description :=
              (Py.format_0f (stock_length / 12) ++ "' sticks")%string;
            MaterialPurchase.pieces_needed := num_sticks;
            MaterialPurchase.total_cost := total_cost;
            MaterialPurchase.waste_percentage := waste_percentage;
            MaterialPurchase.waste_cost := waste_cost;
            MaterialPurchase.stock_length := stock_length;
            MaterialPurchase.cuts_per_stick := stick_cuts;
            MaterialPurchase.cuts_from_this_size := all_cuts |})
      end
  end.

(** The search for the fitting sheet of least waste; [best_waste] starts
    at infinity, which is [None] here. *)
Fixpoint best_plate_fit (sizes : list (Z * Z)) (width length piece_area : Q)
    (best_fit : option (Z * Z)) (best_waste : option Q)
    : option (Z * Z) * option Q :=
  match sizes with
  | [] => (best_fit, best_waste)
  | (stock_width, stock_length) :: rest =>
      let stock_area := inject_Z (stock_width * stock_length) in
      if (Qle_bool width (inject_Z stock_width)
          && Qle_bool length (inject_Z stock_length))
         || (Qle_bool width (inject_Z stock_length)
             && Qle_bool length (inject_Z stock_width))
      then
        let waste := stock_area - piece_area in
        if match best_waste with
           | None => true
           | Some w => Py.lt waste w
           end
        then best_plate_fit rest width length piece_area
               (Some (stock_width, stock_length)) (Some waste)
        else best_plate_fit rest width length piece_area best_fit best_waste
      else best_plate_fit rest width length piece_area best_fit best_waste
  end.

Definition _optimize_plate_material (self : NestingService)
    (plate_data : PlateData.t) : option MaterialPurchase.t :=
  let material := PlateData.material plate_data in
  let width := PlateData.width plate_data in
  let length := PlateData.length plate_data in
  let qty := PlateData.qty plate_data in
  let piece_area := width * length in
  let (best_fit, best_waste) :=
    match best_plate_fit (standard_plate_sizes self) width length piece_area
            None None with
    | (Some fit, Some waste) => (fit, waste)
    | _ => ((96, 240)%Z, inject_Z (96 * 240) - piece_area)
    end in
  let stock_area := inject_Z (fst best_fit * snd best_fit) in
  let waste_percentage := (best_waste / stock_area) * 100 in
  let total_sqft_both_sides := (piece_area / 144) * 2 * inject_Z qty in
  let cost_per_sqft := 5 in
  let total_cost := total_sqft_both_sides * cost_per_sqft in
  let waste_cost :=
    if Py.gt stock_area 0 then (best_waste / stock_area) * total_cost else 0 in
  Some {|
    MaterialPurchase.shape_key := material;
    MaterialPurchase.size_description :=
      (Py.str_int (fst best_fit) ++ "x" ++ Py.str_int (snd best_fit)
       ++ " sheets")%string;
    MaterialPurchase.pieces_needed := qty;
    MaterialPurchase.total_cost := total_cost;
    MaterialPurchase.waste_percentage := waste_percentage;
    MaterialPurchase.waste_cost := waste_cost;
    MaterialPurchase.stock_length := 0;
    MaterialPurchase.cuts_per_stick := [];
    MaterialPurchase.cuts_from_this_size := repeat piece_area (Z.to_nat qty) |}.

(** The first loop of the run: plates are keys that start with [PL] or
    contain [DUCT]; everything else is linear. *)
Definition process_entry (entry : Entry.t)
    (groups : LinearMaterials * PlateMaterials) : LinearMaterials * PlateMaterials :=
  let shape_key := Py.strip (Py.upper (Entry.shape_key entry)) in
  if String.eqb shape_key "" then groups
  else if (Entry.qty entry <=? 0)%Z then groups
  else if Py.startswith shape_key "PL" || Py.contains "DUCT" shape_key
  then (fst groups, _process_plate_entry entry (snd groups))
  else (_process_linear_entry entry (fst groups), snd groups).

Fixpoint linear_purchases_of (self : NestingService)
    (linear_materials : LinearMaterials)
    : Py.Outcome (list MaterialPurchase.t) :=
  match linear_materials with
  | [] => Py.Value []
  | (material, cuts) :: rest =>
      match _optimize_linear_material self material cuts with
      | Py.Raise e => Py.Raise e
      | Py.Value purchase =>
          match linear_purchases_of self rest with
          | Py.Raise e => Py.Raise e
          | Py.Value purchases =>
              Py.Value (match purchase with
                        | Some p => p :: purchases
                        | None => purchases
                        end)
          end
      end
  end.

Definition plate_purchases_of (self : NestingService)
    (plate_materials : PlateMaterials) : list MaterialPurchase.t :=
  flat_map (fun item : PlateKey * PlateData.t =>
              match _optimize_plate_material self (snd item) with
              | Some purchase => [purchase]
              | None => []
              end)
           plate_materials.

Definition aggregate (linear_purchases plate_purchases : list MaterialPurchase.t)
    : NestingResult.t :=
  let all_purchases := linear_purchases ++ plate_purchases in
  match all_purchases with
  | [] => NestingResult.mk [] 0 0 0 "No materials to optimize"
  | _ =>
      let total_cost := Py.sum (map MaterialPurchase.total_cost all_purchases) in
      let total_waste :=
        if Py.gt total_cost 0
        then Py.sum (map (fun p => MaterialPurchase.waste_percentage p
                                   * MaterialPurchase.total_cost p)
                         all_purchases) / total_cost
        else 0 in
      let summary :=
        ("Optimized " ++ Py.str_int (Py.len linear_purchases)
         ++ " linear materials and " ++ Py.str_int (Py.len plate_purchases)
         ++ " plate materials")%string in
      {| NestingResult.material_purchases := all_purchases;
         NestingResult.total_waste_percentage := total_waste;
         NestingResult.total_cost := total_cost;
         NestingResult.cost_savings := 0;
         NestingResult.optimization_summary := summary |}
  end.

Record World : Type := {
  service : NestingService;
  console : list string }.

Definition M (A : Type) : Type := World -> A * World.

Definition ret {A} (a : A) : M A := fun w => (a, w).

Definition bind {A B} (m : M A) (k : A -> M B) : M B :=
  fun w => let (a, w') := m w in k a w'.

Definition print (line : string) : M unit :=
  fun w => (tt, {| service := service w; console := console w ++ [line] |}).

Definition get_self : M NestingService := fun w => (service w, w).

Definition optimize_project_materials (takeoff_entries : list Entry.t)
    (project_id : string) : M (Py.Outcome NestingResult.t) :=
  bind (print ("Starting nesting optimization for project " ++ project_id)%string)
    (fun _ =>
  bind get_self (fun self =>
    let groups := fold_left (fun g entry => process_entry entry g)
                            takeoff_entries ([], []) in
    match linear_purchases_of self (fst groups) with
    | Py.Value linear_purchases =>
        ret (Py.Value (aggregate linear_purchases
                         (plate_purchases_of self (snd groups))))
    | Py.Raise e =>
        bind (print ("Nesting optimization error: " ++ e)%string) (fun _ =>
        ret (Py.Raise ("Nesting optimization failed: " ++ e)%string))
    end)).

End Simple.

(** ** The helpers of the nesting endpoints, [api/v1/nesting.py]

    The endpoints import the simple service; the three module-level helpers
    below turn its result into grades and advice. *)

Module Api.

(** [f"{x:.1f}"] on a non-negative number: one decimal, halves to the even
    neighbour. *)
Definition format_1f (x : Q) : string :=
  let tenths := Py.round_half_even (x * 10) in
  (Py.str_int (tenths / 10) ++ "." ++ Py.str_int (tenths mod 10))%string.

Definition _calculate_efficiency_grade (waste_percentage : Q) : string :=
  if Qle_bool waste_percentage 10 then "A"
  else if Qle_bool waste_percentage 20 then "B"
  else if Qle_bool waste_percentage 35 then "C"
  else "D".

(** [entry] is the request's dictionary; only its shape key is read. *)
Definition _generate_alternatives (entry : Simple.Entry.t)
    (current_purchase : Simple.MaterialPurchase.t) : list string :=
  let waste_percentage := Simple.MaterialPurchase.waste_percentage current_purchase in
  let alternatives := [] in
  let alternatives :=
    if Py.gt waste_percentage 30
    then alternatives ++ ["Consider custom length to reduce waste";
                          "Combine with similar cuts from other entries"]%string
    else alternatives in
  let alternatives :=
    if Py.lt waste_percentage 5
    then alternatives ++ ["Excellent efficiency - consider as standard size"%string]
    else alternatives in
  let shape_key := Py.upper (Simple.Entry.shape_key entry) in
  let alternatives :=
    if Py.contains "PL" shape_key || Py.contains "PLATE" shape_key
    then alternatives ++ ["Consider nesting with other plate cuts"%string]
    else alternatives ++ ["Check for drop utilization opportunities"%string] in
  firstn 3 alternatives.

(** [shape_counts[shape] += 1], or [= 1] for a new shape. *)
Definition count_shape (shape_counts : list (string * Z))
    (purchase : Simple.MaterialPurchase.t) : list (string * Z) :=
  let shape := Simple.MaterialPurchase.shape_key purchase in
  match Py.lookup String.eqb shape shape_counts with
  | Some count => Py.store String.eqb shape (count + 1)%Z shape_counts
  | None => Py.store String.eqb shape 1%Z shape_counts
  end.

Definition bulk_message (item : string * Z) : string :=
  ("Consider bulk purchasing for " ++ fst item ++ " (" ++ Py.str_int (snd item)
   ++ " different sizes needed)")%string.

Definition high_waste_message (purchase : Simple.MaterialPurchase.t) : string :=
  ("High waste on " ++ Simple.MaterialPurchase.size_description purchase ++ " ("
   ++ format_1f (Simple.MaterialPurchase.waste_percentage purchase)
   ++ "%) - consider custom sizes or alternative cutting patterns")%string.

Definition default_recommendation : string :=
  "Material optimization looks good - no specific recommendations".

Definition _generate_recommendations (optimization_result : Simple.NestingResult.t)
    : list string :=
  let total_waste := Simple.NestingResult.total_waste_percentage optimization_result in
  let purchases := Simple.NestingResult.material_purchases optimization_result in
  let recommendations := [] in
  let recommendations :=
    if Py.gt total_waste 25
    then recommendations
         ++ ["Consider alternative material sizes to reduce waste above 25%"%string]
    else recommendations in
  let recommendations :=
    if Py.lt total_waste 10
    then recommendations
         ++ ["Excellent material utilization - consider using this as a standard approach"%string]
    else recommendations in
  let shape_counts := fold_left count_shape purchases [] in
  let recommendations :=
    recommendations
    ++ map bulk_message (filter (fun item : string * Z => (3 <? snd item)%Z) shape_counts) in
  let recommendations :=
    recommendations
    ++ map high_waste_message
         (filter (fun p => Py.gt (Simple.MaterialPurchase.waste_percentage p) 40)
                 purchases) in
  match recommendations with
  | [] => [default_recommendation]
  | _ => recommendations
  end.

End Api.

(** * Specification vocabulary *)

(** ** Linear stock *)

(** The state of one stick during the packing: its remaining space is the
    stock length less the cuts on it and a kerf for each, and it is not
    negative. *)
Definition stick_ok (stock_length kerf remaining_space : Q)
    (cuts_on_stick : list Q) : Prop :=
  remaining_space ==
    stock_length - Py.sum cuts_on_stick - inject_Z (Py.len cuts_on_stick) * kerf
  /\ 0 <= remaining_space.

Definition sticks_ok (stock_length kerf : Q) (sticks : list Q)
    (stick_cuts : list (list Q)) : Prop :=
  Forall2 (stick_ok stock_length kerf) sticks stick_cuts.

(** [total_kerf] of [_bin_pack_linear]. *)
Definition kerf_total (kerf : Q) (stick_cuts : list (list Q)) : Q :=
  Py.sum (map (fun cuts_on_stick => inject_Z (Py.len cuts_on_stick) * kerf)
              stick_cuts).

(** The cut lengths and a kerf for each cut. *)
Definition total_required (kerf : Q) (cuts : list Q) : Q :=
  Py.sum cuts + inject_Z (Py.len cuts) * kerf.

(** Every cut fits the stock length together with its kerf. *)
Definition fits_stock (kerf stock_length : Q) (cuts : list Q) : Prop :=
  Forall (fun cut_length => cut_length + kerf <= stock_length) cuts.

(** [r] is at least as good as [r']: of greater efficiency, or of equal
    efficiency on a stock that is not shorter. *)
Definition preferred (r r' : Clean.PackResult.t) : Prop :=
  Clean.PackResult.efficiency r' < Clean.PackResult.efficiency r
  \/ (Clean.PackResult.efficiency r' == Clean.PackResult.efficiency r
      /\ Clean.PackResult.stock_length r' <= Clean.PackResult.stock_length r).

(** ** Sheets *)

(** The grid count floor(sheetW/pieceW) * floor(sheetL/pieceL). *)
Definition grid_count (sheet_width sheet_length piece_width piece_length : Q) : Z :=
  (Qfloor (sheet_width / piece_width) * Qfloor (sheet_length / piece_length))%Z.

(** The piece fits no catalog sheet, as given or turned. *)
Definition no_sheet_fits (self : Clean.NestingService)
    (piece_width piece_length : Q) : Prop :=
  Forall (fun size : Q * Q =>
            Clean.piece_fits piece_width piece_length (fst size) (snd size) = false)
         (Clean.standard_plate_sizes self).

(** A spec as the grouping makes it from an entry of dimensions that are
    not negative. *)
Definition spec_ok (spec : Clean.MaterialSpec.t) : Prop :=
  (0 < Clean.MaterialSpec.quantity spec)%Z
  /\ 0 <= Clean.MaterialSpec.length spec
  /\ 0 <= Clean.MaterialSpec.width spec
  /\ 0 <= Clean.MaterialSpec.thickness spec.

(** The count of the piece as given when it is not zero, else the count of
    the piece turned by 90 degrees. *)
Definition pieces_per_sheet_of
    (sheet_width sheet_length piece_width piece_length : Q) : Z :=
  if (grid_count sheet_width sheet_length piece_width piece_length =? 0)%Z
  then grid_count sheet_width sheet_length piece_length piece_width
  else grid_count sheet_width sheet_length piece_width piece_length.

(** ** Purchases and runs *)

Definition waste_in_range (p : Clean.MaterialPurchase.t) : Prop :=
  0 <= Clean.MaterialPurchase.waste_percentage p <= 100.

Definition entry_nonneg (entry : Clean.Entry.t) : Prop :=
  0 <= Clean.Entry.length_ft entry * 12 + Clean.Entry.length_in entry
  /\ 0 <= Clean.Entry.width_in entry
  /\ 0 <= Clean.Entry.thickness_in entry.

Definition materials_ok (materials : Clean.Materials) : Prop :=
  Forall (fun item : string * list Clean.MaterialSpec.t => Forall spec_ok (snd item))
    materials.

Definition groups_ok (material_groups : Clean.MaterialGroups) : Prop :=
  Forall (fun cg : Clean.Category * Clean.Materials => materials_ok (snd cg))
    material_groups.

(** [rate] is the discount paired with a threshold that the quantity meets
    and that no other met threshold exceeds; [first] is the index in
    [discounts] of the discount of the first threshold. *)
Definition discount_of_highest_threshold (thresholds : list Z) (discounts : list Q)
    (first : nat) (total_qty : Z) (rate : Q) (applied : bool) : Prop :=
  exists k t,
    nth_error thresholds k = Some t
    /\ (t <= total_qty)%Z
    /\ nth_error discounts (first + k) = Some rate
    /\ applied = true
    /\ forall t', In t' thresholds -> (t' <= total_qty)%Z -> (t' <= t)%Z.

(** The fit test of the simple service on a catalog size. *)
Definition plate_fits (width length : Q) (size : Z * Z) : bool :=
  (Qle_bool width (inject_Z (fst size)) && Qle_bool length (inject_Z (snd size)))
  || (Qle_bool width (inject_Z (snd size)) && Qle_bool length (inject_Z (fst size))).

(** What the search of the simple service holds between two iterations:
    nothing yet, or a fitting size together with its waste. *)
Definition plate_search_ok (width length piece_area : Q)
    (best_fit : option (Z * Z)) (best_waste : option Q) : Prop :=
  match best_fit, best_waste with
  | None, None => True
  | Some fit, Some waste =>
      plate_fits width length fit = true
      /\ waste = inject_Z (fst fit * snd fit) - piece_area
  | _, _ => False
  end.

(** Every text a result carries: the summary, and the shape key, size
    description and notes of each purchase. *)
Definition result_texts (r : Clean.NestingResult.t) : list string :=
  Clean.NestingResult.optimization_summary r
  :: flat_map (fun p => Clean.MaterialPurchase.shape_key p
                        :: Clean.MaterialPurchase.size_description p
                        :: Clean.MaterialPurchase.optimization_notes p)
       (Clean.NestingResult.material_purchases r).

Definition mentions (word : string) (r : Clean.NestingResult.t) : bool :=
  existsb (fun text => Py.contains word (Py.upper text)) (result_texts r).

(** A cut that with its kerf is longer than every stock length. *)
Definition infeasible_cuts (self : Clean.NestingService) (category : Clean.Category)
    (cuts : list Q) : Prop :=
  exists cut, In cut cuts
    /\ Forall (fun L => L < cut + Clean.kerf_of self category)
         (Clean.standard_stock_lengths self).

(** ** Sample takeoff data *)

Definition clean_entry (shape_key : string) (qty : Z)
    (length_in width_in thickness_in : Q) : Clean.Entry.t :=
  Clean.Entry.mk shape_key qty 0 length_in width_in thickness_in "" "each".

Definition clean_world : Clean.World :=
  {| Clean.service := Clean.nesting_service; Clean.console := [] |}.

Definition simple_world : Simple.World :=
  {| Simple.service := Simple.nesting_service; Simple.console := [] |}.

Definition sheet_spec (width length : Q) (quantity : Z) : Clean.MaterialSpec.t :=
  Clean.MaterialSpec.mk "PL1/2" Clean.sheet "" length width 0.5 quantity "each" 1.

Definition hardware_spec (shape_key : string) (quantity : Z) : Clean.MaterialSpec.t :=
  Clean.MaterialSpec.mk shape_key Clean.hardware "" 0 0 0 quantity "each" 1.

(** ** Further vocabulary *)

(** The first cut of a stick, with its kerf, is longer than [space]. *)
Definition opener_blocked (kerf space : Q) (cuts_on_stick : list Q) : Prop :=
  match cuts_on_stick with
  | [] => True
  | opener :: _ => space < opener + kerf
  end.

(** During the packing: the remaining space of a stick takes the first
    cut of no later stick. *)
Fixpoint openers_blocked (kerf : Q) (sticks : list Q) (stick_cuts : list (list Q))
    : Prop :=
  match sticks, stick_cuts with
  | remaining_space :: sticks', _ :: stick_cuts' =>
      Forall (opener_blocked kerf remaining_space) stick_cuts'
      /\ openers_blocked kerf sticks' stick_cuts'
  | _, _ => True
  end.

(** First fit, read off the result: what is left of a stick after its cuts
    and kerfs takes the first cut of no later stick. *)
Fixpoint first_fit_ok (stock_length kerf : Q) (stick_cuts : list (list Q)) : Prop :=
  match stick_cuts with
  | [] => True
  | cuts_on_stick :: later =>
      Forall (opener_blocked kerf (stock_length - total_required kerf cuts_on_stick))
        later
      /\ first_fit_ok stock_length kerf later
  end.

(** The shape key under which an entry is grouped. *)
Definition normalized_key (entry : Clean.Entry.t) : string :=
  Py.strip (Py.upper (Clean.Entry.shape_key entry)).

(** The entries that the grouping keeps: a shape key that is not blank and
    a positive quantity. *)
Definition entry_counts (entry : Clean.Entry.t) : bool :=
  negb (String.eqb (normalized_key entry) "") && (0 <? Clean.Entry.qty entry)%Z.

(** The spec that the grouping makes of an entry. *)
Definition spec_of_entry (self : Clean.NestingService) (entry : Clean.Entry.t)
    : Clean.MaterialSpec.t :=
  {| Clean.MaterialSpec.shape_key := normalized_key entry;
     Clean.MaterialSpec.category :=
       Clean._determine_material_category self (normalized_key entry);
     Clean.MaterialSpec.subcategory := Clean.Entry.subcategory entry;
     Clean.MaterialSpec.length :=
       Clean.Entry.length_ft entry * 12 + Clean.Entry.length_in entry;
     Clean.MaterialSpec.width := Clean.Entry.width_in entry;
     Clean.MaterialSpec.thickness := Clean.Entry.thickness_in entry;
     Clean.MaterialSpec.quantity := Clean.Entry.qty entry;
     Clean.MaterialSpec.unit_of_measure := Clean.Entry.unit_of_measure entry;
     Clean.MaterialSpec.priority := 1 |}.

(** All the specs of the groups, category by category and key by key. *)
Definition specs_of_materials (materials : Clean.Materials) : list Clean.MaterialSpec.t :=
  flat_map snd materials.

Definition all_specs (material_groups : Clean.MaterialGroups)
    : list Clean.MaterialSpec.t :=
  flat_map (fun cg : Clean.Category * Clean.Materials => specs_of_materials (snd cg))
    material_groups.

(** The keys of [material_groups], in the order of the dictionary. *)
Definition all_categories : list Clean.Category :=
  [Clean.linear; Clean.sheet; Clean.grating; Clean.frp; Clean.hardware;
   Clean.structural; Clean.general].

(** One category of the groups is well formed: its shape keys are
    distinct, no key has an empty list, and every spec stands under its own
    shape key, in the category that the classifier gives to that key. *)
Definition item_wf (self : Clean.NestingService) (category : Clean.Category)
    (item : string * list Clean.MaterialSpec.t) : Prop :=
  snd item <> []
  /\ Clean._determine_material_category self (fst item) = category
  /\ Forall (fun spec => Clean.MaterialSpec.shape_key spec = fst item
                         /\ Clean.MaterialSpec.category spec = category
                         /\ (0 < Clean.MaterialSpec.quantity spec)%Z)
       (snd item).

Definition group_wf (self : Clean.NestingService)
    (cg : Clean.Category * Clean.Materials) : Prop :=
  NoDup (map fst (snd cg)) /\ Forall (item_wf self (fst cg)) (snd cg).

Definition groups_wf (self : Clean.NestingService)
    (material_groups : Clean.MaterialGroups) : Prop :=
  map fst material_groups = all_categories /\ Forall (group_wf self) material_groups.

(** The place of a category in the order of the run. *)
Definition category_rank (category : Clean.Category) : nat :=
  match category with
  | Clean.linear => 0 | Clean.sheet => 1 | Clean.grating => 2 | Clean.frp => 3
  | Clean.hardware => 4 | Clean.structural => 5 | Clean.general => 6
  end.

(** ** The advice of the endpoints *)

(** How many of the purchases bear the shape key [shape]. *)
Definition shape_occurrences (purchases : list Simple.MaterialPurchase.t)
    (shape : string) : nat :=
  count_occ string_dec (map Simple.MaterialPurchase.shape_key purchases) shape.

(** A result on which no test of [_generate_recommendations] fires. *)
Definition nothing_to_recommend (optimization_result : Simple.NestingResult.t) : Prop :=
  10 <= Simple.NestingResult.total_waste_percentage optimization_result <= 25
  /\ Forall (fun p => Simple.MaterialPurchase.waste_percentage p <= 40)
       (Simple.NestingResult.material_purchases optimization_result)
  /\ forall shape,
       (shape_occurrences
          (Simple.NestingResult.material_purchases optimization_result) shape
        <= 3)%nat.

(** The suggestion of [_generate_alternatives] that depends on the
    material. *)
Definition material_suggestion (entry : Simple.Entry.t) : string :=
  if Py.contains "PL" (Py.upper (Simple.Entry.shape_key entry))
  then "Consider nesting with other plate cuts"
  else "Check for drop utilization opportunities".

(** ** The purchases of a run *)

(** [purchases] were made for [category] from shape keys of [materials]:
    each bears the category and one of the keys, and distinct keys give
    distinct purchases. *)
Definition made_for (category : Clean.Category) (materials : Clean.Materials)
    (purchases : list Clean.MaterialPurchase.t) : Prop :=
  Forall (fun p => Clean.MaterialPurchase.material_category p = category
                   /\ In (Clean.MaterialPurchase.shape_key p) (map fst materials))
    purchases
  /\ (NoDup (map fst materials) ->
      NoDup (map Clean.MaterialPurchase.shape_key purchases)).

(** The purchase stands in the category that the classifier gives to its
    shape key. *)
Definition in_own_category (self : Clean.NestingService)
    (p : Clean.MaterialPurchase.t) : Prop :=
  Clean._determine_material_category self (Clean.MaterialPurchase.shape_key p)
  = Clean.MaterialPurchase.material_category p.

(** The dictionary of the counting loop of [_generate_recommendations]
    after the purchases [seen]. *)
Definition counted (shape_counts : list (string * Z))
    (seen : list Simple.MaterialPurchase.t) : Prop :=
  NoDup (map fst shape_counts)
  /\ forall shape,
       Py.lookup String.eqb shape shape_counts
       = match shape_occurrences seen shape with
         | O => None
         | S n => Some (Z.of_nat (S n))
         end.

(** ** From the entries to the purchases *)

(** The entries that are grouped under [shape_key]. *)
Definition entries_for (shape_key : string) (takeoff_entries : list Clean.Entry.t)
    : list Clean.Entry.t :=
  filter (fun entry => entry_counts entry
                       && String.eqb (normalized_key entry) shape_key)
    takeoff_entries.

(** [material_groups[category].get(shape_key, [])]. *)
Definition group_specs (material_groups : Clean.MaterialGroups)
    (category : Clean.Category) (shape_key : string) : list Clean.MaterialSpec.t :=
  Py.get (Py.lookup String.eqb shape_key
            (Py.get (Py.lookup Clean.category_eqb category material_groups) []))
         [].

(** The pieces that the entries ask for: the length of each entry, once
    for each piece of its quantity. *)
Definition entry_cuts (takeoff_entries : list Clean.Entry.t) : list Q :=
  flat_map (fun entry =>
              repeat (Clean.Entry.length_ft entry * 12 + Clean.Entry.length_in entry)
                     (Z.to_nat (Clean.Entry.qty entry)))
    takeoff_entries.

(** The number of pieces that the entries ask for. *)
Definition entry_quantity (takeoff_entries : list Clean.Entry.t) : Z :=
  Py.sumZ (map Clean.Entry.qty takeoff_entries).

(** ** From the entries to the purchases of the simple service *)

Definition simple_key (entry : Simple.Entry.t) : string :=
  Py.strip (Py.upper (Simple.Entry.shape_key entry)).

(** The test of the simple run for a plate. *)
Definition is_plate_key (shape_key : string) : bool :=
  Py.startswith shape_key "PL" || Py.contains "DUCT" shape_key.

(** The entries that the simple run keeps as linear material: a shape key
    that is not blank and not a plate, a positive quantity, and feet and
    inches that are not both zero. *)
Definition simple_linear_counts (entry : Simple.Entry.t) : bool :=
  negb (String.eqb (simple_key entry) "")
  && (0 <? Simple.Entry.qty entry)%Z
  && negb (is_plate_key (simple_key entry))
  && negb (Py.eq (Simple.Entry.length_ft entry) 0
           && Py.eq (Simple.Entry.length_in entry) 0).

Definition simple_entries_for (shape_key : string)
    (takeoff_entries : list Simple.Entry.t) : list Simple.Entry.t :=
  filter (fun entry => simple_linear_counts entry
                       && String.eqb (simple_key entry) shape_key)
    takeoff_entries.

Definition simple_entry_cuts (takeoff_entries : list Simple.Entry.t) : list Q :=
  flat_map (fun entry =>
              repeat (Simple.Entry.length_ft entry * 12 + Simple.Entry.length_in entry)
                     (Z.to_nat (Simple.Entry.qty entry)))
    takeoff_entries.

(** [linear_materials.get(shape_key, [])]. *)
Definition simple_cuts_of (linear_materials : Simple.LinearMaterials)
    (shape_key : string) : list Q :=
  Py.get (Py.lookup String.eqb shape_key linear_materials) [].

(** The two dictionaries of the simple run hold what they should: the
    keys of the linear materials are distinct and are not plate keys, and
    every plate bears a plate key as its material. *)
Definition simple_groups_wf
    (groups : Simple.LinearMaterials * Simple.PlateMaterials) : Prop :=
  NoDup (map fst (fst groups))
  /\ Forall (fun item : string * list Q => is_plate_key (fst item) = false)
       (fst groups)
  /\ Forall (fun item : Simple.PlateKey * Simple.PlateData.t =>
               is_plate_key (Simple.PlateData.material (snd item)) = true)
       (snd groups).

(** ** Sample results of the simple service *)

Definition wasteful_purchase : Simple.MaterialPurchase.t :=
  {| Simple.MaterialPurchase.shape_key := "W12X26";
     Simple.MaterialPurchase.size_description := "60' sticks";
     Simple.MaterialPurchase.pieces_needed := 1;
     Simple.MaterialPurchase.total_cost := 100;
     Simple.MaterialPurchase.waste_percentage := 50;
     Simple.MaterialPurchase.waste_cost := 50;
     Simple.MaterialPurchase.stock_length := 720;
     Simple.MaterialPurchase.cuts_per_stick := [[360]];
     Simple.MaterialPurchase.cuts_from_this_size := [360] |}.

Definition wasteful_result : Simple.NestingResult.t :=
  {| Simple.NestingResult.material_purchases := [wasteful_purchase];
     Simple.NestingResult.total_waste_percentage := 50;
     Simple.NestingResult.total_cost := 100;
     Simple.NestingResult.cost_savings := 0;
     Simple.NestingResult.optimization_summary :=
       "Optimized 1 linear materials and 0 plate materials" |}.

(** * Proofs *)

(** ** Sums and lengths *)

Section PySum.

Lemma fold_plus_shift (xs : list Q) (a : Q) : fold_left Qplus xs a == a + fold_left Qplus xs 0.
Proof.
  revert a; induction xs as [|x xs IH]; intro a; simpl.
  - lra.
  - rewrite (IH (a + x)), (IH (0 + x)). lra.
Qed.

Lemma sum_nil : Py.sum [] == 0.
Proof. reflexivity. Qed.

Lemma sum_cons (x : Q) (xs : list Q) : Py.sum (x :: xs) == x + Py.sum xs.
Proof. unfold Py.sum; simpl. rewrite fold_plus_shift. lra. Qed.

Lemma sum_app (xs ys : list Q) : Py.sum (xs ++ ys) == Py.sum xs + Py.sum ys.
Proof.
  induction xs as [|x xs IH]; simpl.
  - rewrite sum_nil. lra.
  - rewrite !sum_cons, IH. lra.
Qed.

Lemma sum_perm (xs ys : list Q) : Permutation xs ys -> Py.sum xs == Py.sum ys.
Proof.
  induction 1.
  - reflexivity.
  - rewrite !sum_cons, IHPermutation. reflexivity.
  - rewrite !sum_cons. lra.
  - etransitivity; eassumption.
Qed.

Lemma sum_concat (xss : list (list Q)) : Py.sum (map Py.sum xss) == Py.sum (List.concat xss).
Proof.
  induction xss as [|xs xss IH]; simpl.
  - reflexivity.
  - rewrite sum_cons, sum_app, IH. reflexivity.
Qed.

Lemma sum_nonneg (xs : list Q) : Forall (fun x => 0 <= x) xs -> 0 <= Py.sum xs.
Proof.
  induction 1 as [|x xs Hx _ IH].
  - rewrite sum_nil. lra.
  - rewrite sum_cons. lra.
Qed.

Lemma len_cons {A} (x : A) (xs : list A) : Py.len (x :: xs) = (Py.len xs + 1)%Z.
Proof. unfold Py.len; simpl List.length. lia. Qed.

Lemma len_app {A} (xs ys : list A) : Py.len (xs ++ ys) = (Py.len xs + Py.len ys)%Z.
Proof. unfold Py.len. rewrite length_app. lia. Qed.

Lemma len_nonneg {A} (xs : list A) : (0 <= Py.len xs)%Z.
Proof. unfold Py.len. lia. Qed.

End PySum.

Lemma kerf_total_concat (kerf : Q) (stick_cuts : list (list Q)) :
  kerf_total kerf stick_cuts == inject_Z (Py.len (List.concat stick_cuts)) * kerf.
Proof.
  unfold kerf_total.
  induction stick_cuts as [|cs css IH]; simpl.
  - rewrite sum_nil. unfold Py.len; simpl. unfold inject_Z. ring.
  - rewrite sum_cons, IH, len_app, inject_Z_plus. ring.
Qed.

(** ** First-fit packing in the comprehensive service

    Every stick keeps a remaining space that is not negative and equals
    the stock length less the cuts on it and their kerfs; no cut is lost. *)

Section CleanPacking.
Variables stock_length kerf : Q.

Lemma place_in_stick_ok sticks stick_cuts required cut s c :
  required == cut + kerf ->
  sticks_ok stock_length kerf sticks stick_cuts ->
  Clean.place_in_stick sticks stick_cuts required cut = Some (s, c) ->
  sticks_ok stock_length kerf s c
  /\ Permutation (List.concat c) (cut :: List.concat stick_cuts).
Proof.
  intros Hreq Hok. revert s c.
  induction Hok as [|rem cs sticks' stick_cuts' Hhd Htl IH]; intros s c; simpl.
  - discriminate.
  - destruct (Py.ge rem required) eqn:Hge.
    + intros [= <- <-]. split.
      * constructor; [|exact Htl].
        destruct Hhd as [Hrem Hpos]. unfold Py.ge in Hge.
        apply Qle_bool_iff in Hge.
        split; [|lra].
        rewrite sum_app, len_app, inject_Z_plus, sum_cons, sum_nil.
        unfold Py.len at 2; simpl. rewrite Hrem, Hreq. ring.
      * simpl. rewrite <- app_assoc. simpl.
        symmetry. apply Permutation_middle.
    + destruct (Clean.place_in_stick sticks' stick_cuts' required cut) as [[s' c']|] eqn:Hrec;
        [|discriminate].
      intros [= <- <-]. destruct (IH _ _ eq_refl) as [Hok' Hperm]. split.
      * constructor; assumption.
      * simpl. rewrite Hperm. rewrite Permutation_middle. reflexivity.
Qed.

Lemma sticks_ok_snoc sticks stick_cuts cut :
  sticks_ok stock_length kerf sticks stick_cuts ->
  Py.lt stock_length (cut + kerf) = false ->
  sticks_ok stock_length kerf (sticks ++ [stock_length - (cut + kerf)])
    (stick_cuts ++ [[cut]]).
Proof.
  intros Hok Hlt. apply Forall2_app; [exact Hok|].
  constructor; [|constructor].
  unfold Py.lt in Hlt. apply negb_false_iff, Qle_bool_iff in Hlt.
  split; [|lra].
  rewrite sum_cons, sum_nil. unfold Py.len; simpl. ring.
Qed.

Lemma pack_cuts_ok cuts : forall sticks stick_cuts s c,
  sticks_ok stock_length kerf sticks stick_cuts ->
  Clean.pack_cuts cuts stock_length kerf sticks stick_cuts = Some (s, c) ->
  sticks_ok stock_length kerf s c
  /\ Permutation (List.concat c) (List.concat stick_cuts ++ cuts).
Proof.
  induction cuts as [|cut rest IH]; intros sticks stick_cuts s c Hok; simpl.
  - intros [= <- <-]. rewrite app_nil_r. auto.
  - destruct (Clean.place_in_stick sticks stick_cuts (cut + kerf) cut) as [[s1 c1]|] eqn:Hplace.
    + intro Hpack.
      destruct (place_in_stick_ok _ _ _ _ _ _ (Qeq_refl _) Hok Hplace) as [Hok1 Hperm1].
      destruct (IH _ _ _ _ Hok1 Hpack) as [Hok2 Hperm2].
      split; [exact Hok2|].
      rewrite Hperm2, Hperm1. simpl. apply Permutation_middle.
    + destruct (Py.lt stock_length (cut + kerf)) eqn:Hlt; [discriminate|].
      intro Hpack.
      destruct (IH _ _ _ _ (sticks_ok_snoc _ _ _ Hok Hlt) Hpack) as [Hok2 Hperm2].
      split; [exact Hok2|].
      rewrite Hperm2, concat_app. simpl. rewrite <- app_assoc. reflexivity.
Qed.

Lemma sticks_ok_total sticks stick_cuts :
  sticks_ok stock_length kerf sticks stick_cuts ->
  Py.sum sticks ==
    inject_Z (Py.len sticks) * stock_length
    - Py.sum (map Py.sum stick_cuts) - kerf_total kerf stick_cuts
  /\ 0 <= Py.sum sticks.
Proof.
  unfold kerf_total.
  induction 1 as [|rem cs sticks' stick_cuts' [Hrem Hpos] _ [IHeq IHpos]]; simpl.
  - unfold Py.sum, Py.len, inject_Z; simpl. split; [ring|lra].
  - rewrite !sum_cons, len_cons, inject_Z_plus. split; [|lra].
    rewrite IHeq, Hrem. ring.
Qed.

End CleanPacking.


(** ** Comparisons and the stable sort *)

Section PyCompare.
Lemma gt_true (a b : Q) : Py.gt a b = true <-> b < a.
Proof.
  unfold Py.gt. rewrite negb_true_iff. split; intro H.
  - apply Qnot_le_lt. intro Hle. apply Qle_bool_iff in Hle. congruence.
  - destruct (Qle_bool a b) eqn:E; [|reflexivity].
    apply Qle_bool_iff in E. lra.
Qed.

Lemma gt_false (a b : Q) : Py.gt a b = false <-> a <= b.
Proof. unfold Py.gt. rewrite negb_false_iff. apply Qle_bool_iff. Qed.

Lemma lt_true (a b : Q) : Py.lt a b = true <-> a < b.
Proof. apply (gt_true b a). Qed.

Lemma lt_false (a b : Q) : Py.lt a b = false <-> b <= a.
Proof. apply (gt_false b a). Qed.

Lemma ge_true (a b : Q) : Py.ge a b = true <-> b <= a.
Proof. apply Qle_bool_iff. Qed.

Lemma ge_false (a b : Q) : Py.ge a b = false <-> a < b.
Proof.
  unfold Py.ge. split; intro H.
  - apply Qnot_le_lt. intro Hle. apply Qle_bool_iff in Hle. congruence.
  - destruct (Qle_bool b a) eqn:E; [|reflexivity].
    apply Qle_bool_iff in E. lra.
Qed.
End PyCompare.

Section StableSortFacts.
Context {A : Type} (before : A -> A -> bool).

Lemma insert_perm (x : A) (l : list A) : Permutation (Py.insert before x l) (x :: l).
Proof.
  induction l as [|y t IH]; simpl.
  - reflexivity.
  - destruct (before x y).
    + reflexivity.
    + rewrite IH. apply perm_swap.
Qed.

Lemma stable_sort_perm (l : list A) : Permutation (Py.stable_sort before l) l.
Proof.
  induction l as [|x t IH]; simpl.
  - reflexivity.
  - rewrite insert_perm, IH. reflexivity.
Qed.

Lemma stable_sort_nil_inv (l : list A) : Py.stable_sort before l = [] -> l = [].
Proof.
  intro H. apply Permutation_nil. rewrite <- H. apply stable_sort_perm.
Qed.
End StableSortFacts.

Lemma sorted_reverse_perm (cuts : list Q) : Permutation (Py.sorted_reverse cuts) cuts.
Proof. apply stable_sort_perm. Qed.

Lemma insert_desc_head (x : Q) (l : list Q) (m : Q) :
  x <= m -> Forall (fun c => c <= m) l ->
  Forall (fun c => c <= m) (Py.insert (fun a b => Qle_bool b a) x l).
Proof.
  intros Hx Hl. eapply Permutation_Forall.
  - symmetry. apply insert_perm.
  - constructor; assumption.
Qed.

(** The head of a reverse-sorted list is a greatest element. *)
Lemma sorted_reverse_head (cuts : list Q) (h : Q) (t : list Q) :
  Py.sorted_reverse cuts = h :: t -> Forall (fun c => c <= h) cuts.
Proof.
  unfold Py.sorted_reverse. revert h t.
  induction cuts as [|x rest IH]; intros h t; simpl.
  - constructor.
  - destruct (Py.stable_sort (fun a b => Qle_bool b a) rest) as [|y t'] eqn:Hs; simpl.
    + intros [= <- <-]. apply stable_sort_nil_inv in Hs. subst rest.
      constructor; [lra|constructor].
    + specialize (IH _ _ eq_refl).
      destruct (Qle_bool y x) eqn:Hyx.
      * intros [= <- <-]. apply Qle_bool_iff in Hyx.
        constructor; [lra|].
        eapply Forall_impl; [|exact IH]. simpl. intros; lra.
      * intros [= <- <-].
        assert (x <= y).
        { apply Qlt_le_weak, Qnot_le_lt. intro Hle. apply Qle_bool_iff in Hle. congruence. }
        constructor; assumption.
Qed.

(** ** What [_bin_pack_linear] returns *)

Section CleanBinPack.
Variables (cuts : list Q) (stock_length kerf : Q) (r : Clean.PackResult.t).
Hypothesis Hpack : Clean._bin_pack_linear cuts stock_length kerf = Some r.

Lemma bin_pack_shape :
  exists sticks stick_cuts,
    Clean.pack_cuts cuts stock_length kerf [] [] = Some (sticks, stick_cuts)
    /\ sticks_ok stock_length kerf sticks stick_cuts
    /\ Permutation (List.concat stick_cuts) cuts
    /\ Clean.PackResult.cuts_per_stick r = stick_cuts
    /\ Clean.PackResult.sticks_needed r = Py.len sticks
    /\ Clean.PackResult.stock_length r = stock_length.
Proof.
  unfold Clean._bin_pack_linear in Hpack.
  destruct (Clean.pack_cuts cuts stock_length kerf [] []) as [[sticks stick_cuts]|] eqn:E;
    [|discriminate].
  injection Hpack as <-.
  destruct (pack_cuts_ok stock_length kerf cuts [] [] sticks stick_cuts) as [Hok Hperm];
    [constructor|exact E|].
  exists sticks, stick_cuts. simpl. repeat split; auto.
Qed.

Lemma bin_pack_perm : Permutation (List.concat (Clean.PackResult.cuts_per_stick r)) cuts.
Proof. destruct bin_pack_shape as (s & c & _ & _ & Hp & -> & _). exact Hp. Qed.

Lemma bin_pack_stock : Clean.PackResult.stock_length r = stock_length.
Proof. destruct bin_pack_shape as (s & c & _ & _ & _ & _ & _ & H). exact H. Qed.

Lemma bin_pack_sticks_nonneg : (0 <= Clean.PackResult.sticks_needed r)%Z.
Proof. destruct bin_pack_shape as (s & c & _ & _ & _ & _ & -> & _). apply len_nonneg. Qed.

Lemma bin_pack_waste :
  Clean.PackResult.total_waste r ==
    inject_Z (Clean.PackResult.sticks_needed r) * stock_length - total_required kerf cuts
  /\ 0 <= Clean.PackResult.total_waste r.
Proof.
  unfold Clean._bin_pack_linear in Hpack.
  destruct (Clean.pack_cuts cuts stock_length kerf [] []) as [[sticks stick_cuts]|] eqn:E;
    [|discriminate].
  injection Hpack as <-. simpl.
  destruct (pack_cuts_ok stock_length kerf cuts [] [] sticks stick_cuts) as [Hok Hperm];
    [constructor|exact E|].
  simpl in Hperm.
  destruct (sticks_ok_total _ _ _ _ Hok) as [Heq Hpos].
  fold (kerf_total kerf stick_cuts).
  assert (Hreq : total_required kerf cuts ==
                 Py.sum (map Py.sum stick_cuts) + kerf_total kerf stick_cuts).
  { unfold total_required. rewrite sum_concat, kerf_total_concat.
    rewrite (sum_perm _ _ Hperm).
    unfold Py.len. rewrite (Permutation_length Hperm). reflexivity. }
  split.
  - rewrite Hreq. ring.
  - rewrite <- Heq in *. lra.
Qed.

(** The sticks bought hold every assigned cut and its kerf. *)
Lemma bin_pack_capacity :
  total_required kerf cuts <= inject_Z (Clean.PackResult.sticks_needed r) * stock_length.
Proof. destruct bin_pack_waste as [Heq Hpos]. lra. Qed.

Lemma bin_pack_efficiency :
  let available := inject_Z (Clean.PackResult.sticks_needed r) * stock_length in
  Clean.PackResult.efficiency r ==
    (if Py.gt available 0 then (total_required kerf cuts / available) * 100 else 0)
  /\ Clean.PackResult.waste_percentage r ==
    (if Py.gt available 0 then (Clean.PackResult.total_waste r / available) * 100 else 0).
Proof.
  unfold Clean._bin_pack_linear in Hpack.
  destruct (Clean.pack_cuts cuts stock_length kerf [] []) as [[sticks stick_cuts]|] eqn:E;
    [|discriminate].
  injection Hpack as <-. simpl.
  destruct (pack_cuts_ok stock_length kerf cuts [] [] sticks stick_cuts) as [Hok Hperm];
    [constructor|exact E|].
  simpl in Hperm.
  fold (kerf_total kerf stick_cuts).
  assert (Hreq : total_required kerf cuts ==
                 Py.sum (map Py.sum stick_cuts) + kerf_total kerf stick_cuts).
  { unfold total_required. rewrite sum_concat, kerf_total_concat.
    rewrite (sum_perm _ _ Hperm).
    unfold Py.len. rewrite (Permutation_length Hperm). reflexivity. }
  destruct (Py.gt (inject_Z (Py.len sticks) * stock_length) 0).
  - rewrite Hreq. split; reflexivity.
  - split; reflexivity.
Qed.

End CleanBinPack.



(** ** When the packing succeeds *)

Section Feasibility.
Variables stock_length kerf : Q.

Lemma pack_cuts_total cuts : forall sticks stick_cuts,
  fits_stock kerf stock_length cuts ->
  exists s c, Clean.pack_cuts cuts stock_length kerf sticks stick_cuts = Some (s, c).
Proof.
  induction cuts as [|cut rest IH]; intros sticks stick_cuts Hfit; simpl.
  - eauto.
  - inversion Hfit as [|? ? Hcut Hrest]; subst.
    destruct (Clean.place_in_stick sticks stick_cuts (cut + kerf) cut) as [[s1 c1]|].
    + apply IH; assumption.
    + apply (lt_false stock_length (cut + kerf)) in Hcut. rewrite Hcut.
      apply IH; assumption.
Qed.

Lemma bin_pack_total cuts :
  fits_stock kerf stock_length cuts ->
  exists r, Clean._bin_pack_linear cuts stock_length kerf = Some r.
Proof.
  intro Hfit. unfold Clean._bin_pack_linear.
  destruct (pack_cuts_total cuts [] [] Hfit) as (s & c & ->). eauto.
Qed.

Lemma bin_pack_head_fits cut rest r :
  Clean._bin_pack_linear (cut :: rest) stock_length kerf = Some r ->
  cut + kerf <= stock_length.
Proof.
  unfold Clean._bin_pack_linear. simpl.
  destruct (Py.lt stock_length (cut + kerf)) eqn:Hlt; [discriminate|].
  intros _. apply lt_false. exact Hlt.
Qed.

(** On the reverse-sorted cuts the packing succeeds exactly when every cut
    and its kerf fit the stock length. *)
Lemma bin_pack_sorted_feasible cuts :
  (exists r, Clean._bin_pack_linear (Py.sorted_reverse cuts) stock_length kerf = Some r)
  <-> fits_stock kerf stock_length cuts.
Proof.
  split.
  - intros [r Hr].
    destruct (Py.sorted_reverse cuts) as [|h t] eqn:Hs.
    + apply stable_sort_nil_inv in Hs. subst. constructor.
    + apply bin_pack_head_fits in Hr.
      eapply Forall_impl; [|exact (sorted_reverse_head _ _ _ Hs)].
      simpl. intros; lra.
  - intro Hfit. apply bin_pack_total.
    eapply Permutation_Forall; [|exact Hfit].
    symmetry. apply sorted_reverse_perm.
Qed.

End Feasibility.

(** ** The choice of the stock length

    The loop keeps the first result of greatest efficiency; on a descending
    list of stock lengths this is, among equals, the longest stock. *)

Section BestStock.
Variables (sorted_cuts : list Q) (kerf : Q).

Lemma best_stock_spec stock_lengths : forall best_result best_efficiency,
  StronglySorted (fun a b => b < a) stock_lengths ->
  match best_result with
  | Some rb => best_efficiency = Clean.PackResult.efficiency rb
               /\ Forall (fun L => L < Clean.PackResult.stock_length rb) stock_lengths
  | None => True
  end ->
  match Clean.best_stock sorted_cuts kerf stock_lengths best_result best_efficiency with
  | Some r =>
      (best_result = Some r
       \/ ((exists L, In L stock_lengths
                      /\ Clean._bin_pack_linear sorted_cuts L kerf = Some r)
           /\ best_efficiency < Clean.PackResult.efficiency r))
      /\ (forall rb, best_result = Some rb -> preferred r rb)
      /\ (forall L' r', In L' stock_lengths ->
            Clean._bin_pack_linear sorted_cuts L' kerf = Some r' -> preferred r r')
  | None =>
      best_result = None
      /\ (forall L' r', In L' stock_lengths ->
            Clean._bin_pack_linear sorted_cuts L' kerf = Some r' ->
            Clean.PackResult.efficiency r' <= best_efficiency)
  end.
Proof.
  induction stock_lengths as [|L rest IH]; intros best_result best_efficiency Hsorted Hacc.
  - simpl. destruct best_result as [rb|].
    + split; [left; reflexivity|]. split.
      * intros rb' [= <-]. right. split; [reflexivity|lra].
      * intros ? ? [].
    + split; [reflexivity|]. intros ? ? [].
  - apply StronglySorted_inv in Hsorted. destruct Hsorted as [Hsorted Hall].
    assert (Hacc' : match best_result with
                    | Some rb => best_efficiency = Clean.PackResult.efficiency rb
                                 /\ Forall (fun L => L < Clean.PackResult.stock_length rb) rest
                    | None => True
                    end).
    { destruct best_result as [rb|]; [|exact I].
      destruct Hacc as [He Hf]. split; [exact He|]. inversion Hf; assumption. }
    simpl.
    destruct (Clean._bin_pack_linear sorted_cuts L kerf) as [res|] eqn:Hres.
    + destruct (Py.gt (Clean.PackResult.efficiency res) best_efficiency) eqn:Hgt.
      * apply gt_true in Hgt.
        assert (Hstock : Clean.PackResult.stock_length res = L)
          by (eapply bin_pack_stock; eassumption).
        rewrite <- Hstock in Hall.
        specialize (IH (Some res) (Clean.PackResult.efficiency res) Hsorted
                      (conj eq_refl Hall)).
        destruct (Clean.best_stock sorted_cuts kerf rest (Some res) (Clean.PackResult.efficiency res))
          as [r|]; [|destruct IH; discriminate].
        destruct IH as (Hfrom & Hpref & Hrest).
        assert (Hle : Clean.PackResult.efficiency res <= Clean.PackResult.efficiency r).
        { destruct (Hpref res eq_refl) as [Hlt|[Heq _]]; lra. }
        split; [|split].
        -- right. split; [|lra].
           destruct Hfrom as [[= <-]|[(L0 & Hin & HL0) _]].
           ++ exists L. split; [left; reflexivity|exact Hres].
           ++ exists L0. split; [right; exact Hin|exact HL0].
        -- intros rb ->. destruct Hacc as [-> _]. left. lra.
        -- intros L' r' [<-|Hin] Hr'.
           ++ rewrite Hres in Hr'. injection Hr' as <-. apply Hpref. reflexivity.
           ++ eapply Hrest; eassumption.
      * apply gt_false in Hgt.
        specialize (IH best_result best_efficiency Hsorted Hacc').
        destruct (Clean.best_stock sorted_cuts kerf rest best_result best_efficiency) as [r|].
        -- destruct IH as (Hfrom & Hpref & Hrest).
           split; [|split].
           ++ destruct Hfrom as [Heq|[(L0 & Hin & HL0) Hlt]]; [left; exact Heq|].
              right. split; [|exact Hlt]. exists L0. split; [right; exact Hin|exact HL0].
           ++ exact Hpref.
           ++ intros L' r' [<-|Hin] Hr'; [|eapply Hrest; eassumption].
              rewrite Hres in Hr'. injection Hr' as <-.
              assert (Hstock : Clean.PackResult.stock_length res = L)
                by (eapply bin_pack_stock; eassumption).
              destruct best_result as [rb|].
              ** destruct Hacc as [-> Hf]. inversion Hf as [|? ? HL _]; subst.
                 destruct (Hpref rb eq_refl) as [Hlt|[Heq Hst]].
                 --- left. lra.
                 --- destruct (Qlt_le_dec (Clean.PackResult.efficiency res)
                                 (Clean.PackResult.efficiency r)) as [Hlt|Hge].
                     +++ left. exact Hlt.
                     +++ right. split; [lra|]. lra.
              ** destruct Hfrom as [Heq|[_ Hlt]]; [discriminate|]. left. lra.
        -- destruct IH as [-> Hrest]. split; [reflexivity|].
           intros L' r' [<-|Hin] Hr'; [|eapply Hrest; eassumption].
           rewrite Hres in Hr'. injection Hr' as <-. exact Hgt.
    + specialize (IH best_result best_efficiency Hsorted Hacc').
      destruct (Clean.best_stock sorted_cuts kerf rest best_result best_efficiency) as [r|].
      * destruct IH as (Hfrom & Hpref & Hrest).
        split; [|split].
        -- destruct Hfrom as [Heq|[(L0 & Hin & HL0) Hlt]]; [left; exact Heq|].
           right. split; [|exact Hlt]. exists L0. split; [right; exact Hin|exact HL0].
        -- exact Hpref.
        -- intros L' r' [<-|Hin] Hr'; [congruence|eapply Hrest; eassumption].
      * destruct IH as [-> Hrest]. split; [reflexivity|].
        intros L' r' [<-|Hin] Hr'; [congruence|eapply Hrest; eassumption].
Qed.

End BestStock.

Section Ties.
Variables (sorted_cuts : list Q) (kerf : Q).

Lemma efficiency_positive L r :
  Clean._bin_pack_linear sorted_cuts L kerf = Some r ->
  0 < Clean.PackResult.efficiency r ->
  0 < inject_Z (Clean.PackResult.sticks_needed r) * L
  /\ Clean.PackResult.efficiency r ==
       (total_required kerf sorted_cuts / (inject_Z (Clean.PackResult.sticks_needed r) * L)) * 100.
Proof.
  intros Hr Hpos.
  destruct (bin_pack_efficiency _ _ _ _ Hr) as [Heff _]. cbv zeta in Heff.
  destruct (Py.gt (inject_Z (Clean.PackResult.sticks_needed r) * L) 0) eqn:Hgt.
  - apply gt_true in Hgt. split; assumption.
  - rewrite Heff in Hpos. lra.
Qed.

(** Of two packings of the same cuts with equal positive utilization, the
    one on the longer stock uses no more sticks. *)
Lemma tie_fewest_sticks L L' r r' :
  Clean._bin_pack_linear sorted_cuts L kerf = Some r ->
  Clean._bin_pack_linear sorted_cuts L' kerf = Some r' ->
  0 < Clean.PackResult.efficiency r ->
  Clean.PackResult.efficiency r' == Clean.PackResult.efficiency r ->
  0 < L' -> L' <= L ->
  (Clean.PackResult.sticks_needed r <= Clean.PackResult.sticks_needed r')%Z.
Proof.
  intros Hr Hr' Hpos Heq HL' HLL.
  destruct (efficiency_positive _ _ Hr Hpos) as [Ha He].
  assert (Hpos' : 0 < Clean.PackResult.efficiency r') by (rewrite Heq; exact Hpos).
  destruct (efficiency_positive _ _ Hr' Hpos') as [Ha' He'].
  pose proof (bin_pack_sticks_nonneg _ _ _ _ Hr') as Hn'.
  set (n := Clean.PackResult.sticks_needed r) in *.
  set (n' := Clean.PackResult.sticks_needed r') in *.
  set (T := total_required kerf sorted_cuts) in *.
  set (a := inject_Z n * L) in *. set (a' := inject_Z n' * L') in *.
  assert (Hq : T / a == T / a') by lra.
  assert (HT : T == a * (T / a)) by (symmetry; apply Qmult_div_r; lra).
  assert (HT' : T == a' * (T / a')) by (symmetry; apply Qmult_div_r; lra).
  assert (Hqpos : 0 < T / a) by lra.
  assert (Haa : a == a').
  { apply (Qmult_inj_r a a' (T / a)); [lra|]. rewrite <- HT. rewrite Hq, <- HT'. reflexivity. }
  destruct (Z_le_gt_dec n n') as [Hle|Hgt]; [exact Hle|exfalso].
  assert (Hq1 : inject_Z n' + 1 <= inject_Z n).
  { assert (H : inject_Z (n' + 1) <= inject_Z n) by (rewrite <- Zle_Qle; lia).
    rewrite inject_Z_plus in H. exact H. }
  assert (Hq0 : 0 <= inject_Z n') by (rewrite <- (Zle_Qle 0); exact Hn').
  assert (H1 : inject_Z n' * L' <= inject_Z n' * L) by nra.
  assert (H2 : (inject_Z n' + 1) * L <= inject_Z n * L) by nra.
  unfold a, a' in Haa. nra.
Qed.

End Ties.

(** ** The purchase of [_optimize_linear_cuts] *)

Section LinearCuts.
Variable self : Clean.NestingService.

Lemma best_stock_origin sorted_cuts kerf stocks r :
  Clean.best_stock sorted_cuts kerf stocks None 0 = Some r ->
  exists L, In L stocks /\ Clean._bin_pack_linear sorted_cuts L kerf = Some r.
Proof.
  assert (G : forall acc e, Clean.best_stock sorted_cuts kerf stocks acc e = Some r ->
              acc = Some r \/ exists L, In L stocks /\ Clean._bin_pack_linear sorted_cuts L kerf = Some r).
  { induction stocks as [|L rest IH]; intros acc e; simpl.
    - auto.
    - destruct (Clean._bin_pack_linear sorted_cuts L kerf) as [res|] eqn:Hres.
      + destruct (Py.gt (Clean.PackResult.efficiency res) e).
        * intro H. destruct (IH _ _ H) as [[= <-]|(L0 & Hin & HL0)]; right; eauto.
        * intro H. destruct (IH _ _ H) as [Heq|(L0 & Hin & HL0)]; [left; exact Heq|right; eauto].
      + intro H. destruct (IH _ _ H) as [Heq|(L0 & Hin & HL0)]; [left; exact Heq|right; eauto]. }
  intro H. destruct (G _ _ H) as [?|?]; [discriminate|assumption].
Qed.

Lemma optimize_linear_cuts_inv shape_key cuts category p :
  Clean._optimize_linear_cuts self shape_key cuts category = Some p ->
  cuts <> []
  /\ exists r,
       Clean.best_stock (Py.sorted_reverse cuts) (Clean.kerf_of self category)
         (Clean.standard_stock_lengths self) None 0 = Some r
       /\ Clean.MaterialPurchase.shape_key p = shape_key
       /\ Clean.MaterialPurchase.pieces_needed p = Clean.PackResult.sticks_needed r
       /\ Clean.MaterialPurchase.stock_length p = Clean.PackResult.stock_length r
       /\ Clean.MaterialPurchase.cuts_per_stick p = Clean.PackResult.cuts_per_stick r
       /\ Clean.MaterialPurchase.waste_percentage p = Clean.PackResult.waste_percentage r
       /\ Clean.MaterialPurchase.utilization_percentage p = Clean.PackResult.efficiency r
       /\ Clean.MaterialPurchase.material_category p = category.
Proof.
  unfold Clean._optimize_linear_cuts.
  destruct cuts as [|c cs] eqn:Hc; [discriminate|]. rewrite <- Hc.
  destruct (Clean.best_stock (Py.sorted_reverse cuts) (Clean.kerf_of self category)
              (Clean.standard_stock_lengths self) None 0) as [r|]; [|discriminate].
  intros [= <-]. split; [subst; discriminate|].
  exists r. simpl. repeat split; reflexivity.
Qed.

Lemma optimize_linear_cuts_none shape_key cuts category :
  Clean._optimize_linear_cuts self shape_key cuts category = None ->
  cuts = []
  \/ Clean.best_stock (Py.sorted_reverse cuts) (Clean.kerf_of self category)
       (Clean.standard_stock_lengths self) None 0 = None.
Proof.
  unfold Clean._optimize_linear_cuts.
  destruct cuts as [|c cs] eqn:Hc; [auto|]. rewrite <- Hc.
  destruct (Clean.best_stock (Py.sorted_reverse cuts) (Clean.kerf_of self category)
              (Clean.standard_stock_lengths self) None 0) as [r|]; [discriminate|].
  auto.
Qed.

(** A purchase of sticks holds the cuts recorded on them and their kerf. *)
Lemma linear_purchase_capacity shape_key cuts category p :
  Clean._optimize_linear_cuts self shape_key cuts category = Some p ->
  total_required (Clean.kerf_of self category)
    (List.concat (Clean.MaterialPurchase.cuts_per_stick p))
  <= inject_Z (Clean.MaterialPurchase.pieces_needed p) * Clean.MaterialPurchase.stock_length p.
Proof.
  intro Hp. apply optimize_linear_cuts_inv in Hp.
  destruct Hp as (_ & r & Hbest & _ & -> & -> & -> & _).
  apply best_stock_origin in Hbest. destruct Hbest as (L & _ & HL).
  rewrite (bin_pack_stock _ _ _ _ HL).
  pose proof (bin_pack_capacity _ _ _ _ HL) as Hcap.
  pose proof (bin_pack_perm _ _ _ _ HL) as Hperm.
  unfold total_required in *.
  rewrite (sum_perm _ _ Hperm). unfold Py.len. rewrite (Permutation_length Hperm).
  exact Hcap.
Qed.

Hypothesis stocks_descending :
  StronglySorted (fun a b => b < a) (Clean.standard_stock_lengths self).
Hypothesis stocks_positive :
  Forall (fun L => 0 < L) (Clean.standard_stock_lengths self).

Lemma linear_selection shape_key cuts category :
  let kerf := Clean.kerf_of self category in
  let sorted_cuts := Py.sorted_reverse cuts in
  let candidates := Clean.standard_stock_lengths self in
  match Clean._optimize_linear_cuts self shape_key cuts category with
  | Some p =>
      exists r,
        In (Clean.MaterialPurchase.stock_length p) candidates
        /\ Clean._bin_pack_linear sorted_cuts (Clean.MaterialPurchase.stock_length p) kerf = Some r
        /\ fits_stock kerf (Clean.MaterialPurchase.stock_length p) cuts
        /\ Clean.MaterialPurchase.pieces_needed p = Clean.PackResult.sticks_needed r
        /\ Clean.MaterialPurchase.utilization_percentage p = Clean.PackResult.efficiency r
        /\ 0 < Clean.PackResult.efficiency r
        /\ forall L', In L' candidates -> fits_stock kerf L' cuts ->
             exists r',
               Clean._bin_pack_linear sorted_cuts L' kerf = Some r'
               /\ Clean.PackResult.efficiency r' <= Clean.PackResult.efficiency r
               /\ (Clean.PackResult.efficiency r' == Clean.PackResult.efficiency r ->
                   (Clean.PackResult.sticks_needed r <= Clean.PackResult.sticks_needed r')%Z)
  | None =>
      cuts = []
      \/ forall L', In L' candidates -> fits_stock kerf L' cuts ->
           total_required kerf cuts <= 0
  end.
Proof.
  intros kerf sorted_cuts candidates.
  pose proof (best_stock_spec sorted_cuts kerf candidates None 0 stocks_descending I) as Hspec.
  destruct (Clean._optimize_linear_cuts self shape_key cuts category) as [p|] eqn:Hp.
  - apply optimize_linear_cuts_inv in Hp.
    destruct Hp as (_ & r & Hbest & _ & Hn & Hs & _ & _ & Hu & _).
    fold kerf sorted_cuts candidates in Hbest. rewrite Hbest in Hspec.
    destruct Hspec as (Hfrom & _ & Hall).
    destruct Hfrom as [?|[(L & Hin & HL) Hpos]]; [discriminate|].
    pose proof (bin_pack_stock _ _ _ _ HL) as HsL.
    exists r. rewrite Hs, HsL.
    split; [exact Hin|]. split; [exact HL|].
    split; [apply bin_pack_sorted_feasible; eauto|].
    split; [exact Hn|]. split; [exact Hu|]. split; [exact Hpos|].
    intros L' Hin' Hfit.
    apply bin_pack_sorted_feasible in Hfit. destruct Hfit as [r' Hr'].
    exists r'. split; [exact Hr'|].
    destruct (Hall _ _ Hin' Hr') as [Hlt|[Heq Hst]].
    + split; [lra|]. intro. exfalso. lra.
    + split; [lra|]. intros _.
      rewrite HsL, (bin_pack_stock _ _ _ _ Hr') in Hst.
      eapply tie_fewest_sticks; try eassumption.
      exact (proj1 (Forall_forall _ _) stocks_positive _ Hin').
  - apply optimize_linear_cuts_none in Hp. destruct Hp as [?|Hbest]; [left; assumption|].
    right. intros L' Hin' Hfit.
    fold kerf sorted_cuts candidates in Hbest. rewrite Hbest in Hspec.
    destruct Hspec as [_ Hall].
    pose proof Hfit as Hfit'.
    apply bin_pack_sorted_feasible in Hfit. destruct Hfit as [r' Hr'].
    specialize (Hall _ _ Hin' Hr').
    destruct (bin_pack_efficiency _ _ _ _ Hr') as [Heff _]. cbv zeta in Heff.
    pose proof (bin_pack_capacity _ _ _ _ Hr') as Hcap.
    assert (Hreq : total_required kerf sorted_cuts == total_required kerf cuts).
    { unfold total_required, sorted_cuts.
      rewrite (sum_perm _ _ (sorted_reverse_perm cuts)).
      unfold Py.len. rewrite (Permutation_length (sorted_reverse_perm cuts)). reflexivity. }
    rewrite <- Hreq.
    destruct (Qlt_le_dec 0 (total_required kerf sorted_cuts)) as [Hpos|Hle]; [exfalso|exact Hle].
    subst kerf sorted_cuts.
    set (T := total_required _ (Py.sorted_reverse cuts)) in *.
    set (a := inject_Z (Clean.PackResult.sticks_needed r') * L') in *.
    assert (Ha : 0 < a) by lra.
    apply gt_true in Ha. rewrite Ha in Heff. apply gt_true in Ha.
    assert (0 < T / a) by (apply Qlt_shift_div_l; lra).
    lra.
Qed.

End LinearCuts.

(** ** Floors and ceilings *)

Section Rounding.

Lemma floordiv_bound (a b : Q) :
  0 <= a -> 0 < b ->
  (0 <= Py.floordiv a b)%Z /\ inject_Z (Py.floordiv a b) * b <= a.
Proof.
  intros Ha Hb. unfold Py.floordiv.
  assert (Hx : 0 <= a / b) by (apply Qle_shift_div_l; lra).
  split.
  - change 0%Z with (Qfloor 0). apply Qfloor_resp_le. exact Hx.
  - pose proof (Qfloor_le (a / b)) as Hfl.
    assert (Hab : a == (a / b) * b) by (field; lra).
    rewrite Hab at 2. apply Qmult_le_compat_r; lra.
Qed.

Lemma grid_area (sw sl pw pl : Q) :
  0 <= sw -> 0 <= sl -> 0 < pw -> 0 < pl ->
  (0 <= grid_count sw sl pw pl)%Z
  /\ inject_Z (grid_count sw sl pw pl) * (pw * pl) <= sw * sl.
Proof.
  intros Hsw Hsl Hpw Hpl. unfold grid_count.
  destruct (floordiv_bound sw pw Hsw Hpw) as [Hw0 Hw].
  destruct (floordiv_bound sl pl Hsl Hpl) as [Hl0 Hl].
  unfold Py.floordiv in *.
  set (fw := Qfloor (sw / pw)) in *. set (fl := Qfloor (sl / pl)) in *.
  split; [lia|].
  rewrite inject_Z_mult.
  assert (0 <= inject_Z fw) by (rewrite <- (Zle_Qle 0); exact Hw0).
  assert (0 <= inject_Z fl) by (rewrite <- (Zle_Qle 0); exact Hl0).
  assert (H1 : (inject_Z fw * pw) * (inject_Z fl * pl) <= sw * (inject_Z fl * pl)).
  { apply Qmult_le_compat_r; [exact Hw|]. apply Qmult_le_0_compat; lra. }
  assert (H2 : sw * (inject_Z fl * pl) <= sw * sl).
  { rewrite (Qmult_comm sw), (Qmult_comm sw sl). apply Qmult_le_compat_r; lra. }
  assert (E : inject_Z fw * inject_Z fl * (pw * pl)
              == (inject_Z fw * pw) * (inject_Z fl * pl)) by ring.
  rewrite E. lra.
Qed.

Lemma ceil_div_bound (a b : Z) :
  (0 < b)%Z ->
  inject_Z a <= inject_Z (Py.ceil_div a b) * inject_Z b
  /\ ((0 <= a)%Z -> (0 <= Py.ceil_div a b)%Z)
  /\ ((0 < Py.ceil_div a b)%Z -> (0 < a)%Z).
Proof.
  intro Hb. unfold Py.ceil_div.
  assert (Hbq : 0 < inject_Z b) by (rewrite <- (Zlt_Qlt 0); exact Hb).
  set (x := inject_Z a / inject_Z b).
  assert (Hax : inject_Z a == x * inject_Z b) by (unfold x; field; lra).
  pose proof (Qle_ceiling x) as Hc.
  split; [|split].
  - rewrite Hax. apply Qmult_le_compat_r; lra.
  - intro Ha. assert (0 <= x).
    { unfold x. apply Qle_shift_div_l; [lra|]. rewrite Qmult_0_l.
      rewrite <- (Zle_Qle 0). exact Ha. }
    rewrite (Zle_Qle 0). change (inject_Z 0) with 0. lra.
  - intro Hpos. pose proof (Qceiling_lt x) as Hlt.
    assert (0 <= inject_Z (Qceiling x - 1)).
    { rewrite <- (Zle_Qle 0). lia. }
    assert (Hx : 0 < x) by lra.
    rewrite (Zlt_Qlt 0). change (inject_Z 0) with 0.
    rewrite Hax. apply Qmult_lt_0_compat; lra.
Qed.

End Rounding.


(** ** The sheet that fits best, and the result for one piece size *)

Section SheetFit.
Variable self : Clean.NestingService.

Lemma suitable_sizes_in pw pl waste size :
  In (waste, size) (Clean.suitable_sizes self pw pl) ->
  In size (Clean.standard_plate_sizes self)
  /\ Clean.piece_fits pw pl (fst size) (snd size) = true.
Proof.
  unfold Clean.suitable_sizes. rewrite in_flat_map.
  intros ([sw sl] & Hin & Hx).
  destruct (Clean.piece_fits pw pl sw sl) eqn:Hfit; [|destruct Hx].
  destruct Hx as [[= _ <-]|[]]. auto.
Qed.

Lemma find_best_sheet_fit_some pw pl category size :
  Clean._find_best_sheet_fit self pw pl category = Some size ->
  In size (Clean.standard_plate_sizes self)
  /\ Clean.piece_fits pw pl (fst size) (snd size) = true.
Proof.
  unfold Clean._find_best_sheet_fit, Py.sort_key.
  destruct (Py.stable_sort _ (Clean.suitable_sizes self pw pl)) as [|[waste best] t] eqn:Hs;
    [discriminate|].
  intros [= <-]. apply (suitable_sizes_in pw pl waste).
  eapply Permutation_in; [apply stable_sort_perm|].
  rewrite Hs. left. reflexivity.
Qed.

Lemma find_best_sheet_fit_none pw pl category :
  Clean._find_best_sheet_fit self pw pl category = None <-> no_sheet_fits self pw pl.
Proof.
  unfold Clean._find_best_sheet_fit, Py.sort_key, no_sheet_fits. split.
  - destruct (Py.stable_sort _ (Clean.suitable_sizes self pw pl)) as [|best t] eqn:Hs;
      [|discriminate].
    intros _. apply stable_sort_nil_inv in Hs. unfold Clean.suitable_sizes in Hs.
    apply Forall_forall. intros [sw sl] Hin. simpl.
    destruct (Clean.piece_fits pw pl sw sl) eqn:Hfit; [|reflexivity].
    assert (Hx : In (sw * sl - pw * pl, (sw, sl))
                   (flat_map (fun size : Q * Q =>
                      let (sheet_width, sheet_length) := size in
                      if Clean.piece_fits pw pl sheet_width sheet_length
                      then [(sheet_width * sheet_length - pw * pl, (sheet_width, sheet_length))]
                      else []) (Clean.standard_plate_sizes self))).
    { apply in_flat_map. exists (sw, sl). split; [exact Hin|]. rewrite Hfit. left. reflexivity. }
    rewrite Hs in Hx. destruct Hx.
  - intro Hno.
    assert (Hs : Clean.suitable_sizes self pw pl = []).
    { unfold Clean.suitable_sizes.
      induction Hno as [|[sw sl] rest Hh _ IH]; simpl; [reflexivity|].
      simpl in Hh. rewrite Hh. exact IH. }
    rewrite Hs. reflexivity.
Qed.

Lemma single_sheet_inv specs category r :
  Clean._optimize_single_sheet_size self specs category = Some r ->
  exists piece rest sw sl,
    specs = piece :: rest
    /\ Clean._find_best_sheet_fit self (Clean.MaterialSpec.width piece)
         (Clean.MaterialSpec.length piece) category = Some (sw, sl)
    /\ ~ Clean.MaterialSpec.width piece == 0
    /\ ~ Clean.MaterialSpec.length piece == 0
    /\ let pps := pieces_per_sheet_of sw sl (Clean.MaterialSpec.width piece)
                    (Clean.MaterialSpec.length piece) in
       let sheets := Py.ceil_div (Clean.total_quantity specs) pps in
       let area := inject_Z sheets * (sw * sl) in
       pps <> 0%Z
       /\ Clean.SheetResult.sheets_needed r = sheets
       /\ Clean.SheetResult.cost r =
            inject_Z sheets
            * Clean._estimate_sheet_cost sw sl (Clean.MaterialSpec.thickness piece)
       /\ Clean.SheetResult.waste_percentage r =
            (if Py.gt area 0
             then ((area - inject_Z (Clean.total_quantity specs)
                           * (Clean.MaterialSpec.width piece * Clean.MaterialSpec.length piece))
                   / area) * 100
             else 0)
       /\ Clean.SheetResult.sheet_details r =
            [{| Clean.SheetDetail.width := sw; Clean.SheetDetail.length := sl;
                Clean.SheetDetail.pieces_per_sheet := pps;
                Clean.SheetDetail.quantity := sheets |}].
Proof.
  unfold Clean._optimize_single_sheet_size.
  destruct specs as [|piece rest] eqn:Hspecs; [discriminate|]. rewrite <- Hspecs.
  destruct (Py.eq (Clean.MaterialSpec.width piece) 0) eqn:Hw; [discriminate|].
  destruct (Py.eq (Clean.MaterialSpec.length piece) 0) eqn:Hl; [discriminate|].
  simpl orb. cbv iota.
  destruct (Clean._find_best_sheet_fit self (Clean.MaterialSpec.width piece)
              (Clean.MaterialSpec.length piece) category) as [[sw sl]|] eqn:Hfit;
    [|discriminate].
  fold (grid_count sw sl (Clean.MaterialSpec.width piece) (Clean.MaterialSpec.length piece)).
  unfold Py.floordiv.
  fold (grid_count sw sl (Clean.MaterialSpec.length piece) (Clean.MaterialSpec.width piece)).
  fold (grid_count sw sl (Clean.MaterialSpec.width piece) (Clean.MaterialSpec.length piece)).
  fold (pieces_per_sheet_of sw sl (Clean.MaterialSpec.width piece) (Clean.MaterialSpec.length piece)).
  destruct (pieces_per_sheet_of sw sl (Clean.MaterialSpec.width piece)
              (Clean.MaterialSpec.length piece) =? 0)%Z eqn:Hpps; [discriminate|].
  intros [= <-].
  exists piece, rest, sw, sl.
  split; [exact Hspecs|]. split; [exact Hfit|].
  split; [apply Qeq_bool_neq; exact Hw|].
  split; [apply Qeq_bool_neq; exact Hl|].
  cbv zeta. simpl. apply Z.eqb_neq in Hpps.
  repeat split; auto.
Qed.

Lemma single_sheet_no_fit piece rest category :
  no_sheet_fits self (Clean.MaterialSpec.width piece) (Clean.MaterialSpec.length piece) ->
  Clean._optimize_single_sheet_size self (piece :: rest) category = None.
Proof.
  intro Hno. unfold Clean._optimize_single_sheet_size.
  destruct (Py.eq (Clean.MaterialSpec.width piece) 0 || Py.eq (Clean.MaterialSpec.length piece) 0);
    [reflexivity|].
  apply (find_best_sheet_fit_none _ _ category) in Hno. rewrite Hno. reflexivity.
Qed.

End SheetFit.

(** ** Dictionaries and quantities *)

Section DictFacts.
Context {K V : Type} (eqb : K -> K -> bool) (P : V -> Prop).

Lemma lookup_value k d v :
  Forall (fun kv : K * V => P (snd kv)) d -> Py.lookup eqb k d = Some v -> P v.
Proof.
  induction 1 as [|[k' v'] t Hh _ IH]; simpl; [discriminate|].
  destruct (eqb k k'); [intros [= <-]; exact Hh|exact IH].
Qed.

Lemma store_values k v d :
  P v -> Forall (fun kv : K * V => P (snd kv)) d ->
  Forall (fun kv : K * V => P (snd kv)) (Py.store eqb k v d).
Proof.
  intros Hv. induction 1 as [|[k' v'] t Hh Ht IH]; simpl.
  - constructor; [exact Hv|constructor].
  - destruct (eqb k k'); constructor; auto.
Qed.
End DictFacts.

Lemma sumZ_shift (xs : list Z) (a : Z) : fold_left Z.add xs a = (a + Py.sumZ xs)%Z.
Proof.
  unfold Py.sumZ. revert a. induction xs as [|x xs IH]; intro a; simpl.
  - lia.
  - rewrite (IH (a + x)%Z), (IH x). lia.
Qed.

Lemma sumZ_cons (x : Z) (xs : list Z) : Py.sumZ (x :: xs) = (x + Py.sumZ xs)%Z.
Proof. unfold Py.sumZ at 1. simpl. rewrite sumZ_shift. lia. Qed.

Lemma total_quantity_nonneg (specs : list Clean.MaterialSpec.t) :
  Forall spec_ok specs -> (0 <= Clean.total_quantity specs)%Z.
Proof.
  unfold Clean.total_quantity.
  induction 1 as [|spec rest [Hq _] _ IH]; simpl.
  - reflexivity.
  - rewrite sumZ_cons. lia.
Qed.

(** ** Waste of sheet purchases *)

Section SheetBounds.
Variable self : Clean.NestingService.
Hypothesis plates_positive :
  Forall (fun size : Q * Q => 0 < fst size /\ 0 < snd size) (Clean.standard_plate_sizes self).

Lemma pieces_per_sheet_area sw sl pw pl :
  0 < sw -> 0 < sl -> 0 < pw -> 0 < pl ->
  pieces_per_sheet_of sw sl pw pl <> 0%Z ->
  (0 < pieces_per_sheet_of sw sl pw pl)%Z
  /\ inject_Z (pieces_per_sheet_of sw sl pw pl) * (pw * pl) <= sw * sl.
Proof.
  intros Hsw Hsl Hpw Hpl. unfold pieces_per_sheet_of.
  destruct (grid_area sw sl pw pl) as [Hn0 Hn]; try lra.
  destruct (grid_area sw sl pl pw) as [Hr0 Hr]; try lra.
  destruct (grid_count sw sl pw pl =? 0)%Z eqn:E; intro Hne.
  - split; [lia|]. rewrite (Qmult_comm pw pl). exact Hr.
  - split; [lia|exact Hn].
Qed.

Lemma single_sheet_bounds specs category r :
  Forall spec_ok specs ->
  Clean._optimize_single_sheet_size self specs category = Some r ->
  0 <= Clean.SheetResult.waste_percentage r <= 100 /\ 0 <= Clean.SheetResult.cost r.
Proof.
  intros Hok Hr.
  pose proof (total_quantity_nonneg _ Hok) as Hqty.
  apply single_sheet_inv in Hr.
  destruct Hr as (piece & rest & sw & sl & Hspecs & Hfit & Hw & Hl & Hrest).
  cbv zeta in Hrest. destruct Hrest as (Hpps & _ & Hcost & Hwaste & _).
  assert (Hpiece : spec_ok piece).
  { rewrite Hspecs in Hok. inversion Hok; assumption. }
  destruct Hpiece as (_ & Hpl & Hpw & Hth).
  apply find_best_sheet_fit_some in Hfit. destruct Hfit as [Hin _].
  pose proof (proj1 (Forall_forall _ _) plates_positive _ Hin) as [Hsw Hsl].
  simpl in Hsw, Hsl.
  set (pw := Clean.MaterialSpec.width piece) in *.
  set (pl := Clean.MaterialSpec.length piece) in *.
  assert (Hpw' : 0 < pw) by (destruct (Qlt_le_dec 0 pw); [assumption|exfalso; apply Hw; lra]).
  assert (Hpl' : 0 < pl) by (destruct (Qlt_le_dec 0 pl); [assumption|exfalso; apply Hl; lra]).
  destruct (pieces_per_sheet_area sw sl pw pl Hsw Hsl Hpw' Hpl' Hpps) as [Hpos Harea].
  set (pps := pieces_per_sheet_of sw sl pw pl) in *.
  destruct (ceil_div_bound (Clean.total_quantity specs) pps Hpos) as (Hceil & Hnn & _).
  specialize (Hnn Hqty).
  set (sheets := Py.ceil_div (Clean.total_quantity specs) pps) in *.
  set (qty := Clean.total_quantity specs) in *.
  assert (Hs0 : 0 <= inject_Z sheets) by (rewrite <- (Zle_Qle 0); exact Hnn).
  assert (Hq0 : 0 <= inject_Z qty) by (rewrite <- (Zle_Qle 0); exact Hqty).
  assert (Hpa : 0 < pw * pl) by (apply Qmult_lt_0_compat; assumption).
  split.
  - rewrite Hwaste.
    destruct (Py.gt (inject_Z sheets * (sw * sl)) 0) eqn:Hgt; [|lra].
    apply gt_true in Hgt.
    set (area := inject_Z sheets * (sw * sl)) in *.
    set (used := inject_Z qty * (pw * pl)).
    assert (Hu0 : 0 <= used) by (apply Qmult_le_0_compat; lra).
    assert (Hu1 : used <= area).
    { unfold used, area.
      apply Qle_trans with (inject_Z sheets * inject_Z pps * (pw * pl)).
      - apply Qmult_le_compat_r; lra.
      - rewrite <- Qmult_assoc. rewrite (Qmult_comm (inject_Z sheets)),
          (Qmult_comm (inject_Z sheets)).
        apply Qmult_le_compat_r; lra. }
    assert (H0 : 0 <= (area - used) / area) by (apply Qle_shift_div_l; lra).
    assert (H1 : (area - used) / area <= 1) by (apply Qle_shift_div_r; lra).
    lra.
  - rewrite Hcost. unfold Clean._estimate_sheet_cost.
    apply Qmult_le_0_compat; [exact Hs0|].
    apply Qmult_le_0_compat; [|lra].
    apply Qle_shift_div_l; [lra|]. rewrite Qmult_0_l.
    apply Qmult_le_0_compat; lra.
Qed.

Lemma group_by_size_ok specs :
  Forall spec_ok specs ->
  Forall (fun g : Clean.SizeKey * list Clean.MaterialSpec.t => Forall spec_ok (snd g))
    (Clean.group_by_size specs).
Proof.
  unfold Clean.group_by_size.
  assert (G : forall acc,
            Forall (fun g : Clean.SizeKey * list Clean.MaterialSpec.t => Forall spec_ok (snd g)) acc ->
            Forall spec_ok specs ->
            Forall (fun g : Clean.SizeKey * list Clean.MaterialSpec.t => Forall spec_ok (snd g))
              (fold_left (fun size_groups spec => Clean.add_to_size_group spec size_groups)
                 specs acc)).
  { induction specs as [|spec rest IH]; intros acc Hacc Hspecs; simpl; [exact Hacc|].
    inversion Hspecs as [|? ? Hspec Hrest]; subst.
    apply IH; [|exact Hrest].
    unfold Clean.add_to_size_group.
    destruct (Py.lookup Clean.size_key_eqb (Clean.size_key spec) acc) as [old|] eqn:Hl.
    - apply (store_values Clean.size_key_eqb (Forall spec_ok)); [|exact Hacc].
      apply Forall_app. split; [|constructor; [exact Hspec|constructor]].
      exact (lookup_value Clean.size_key_eqb (Forall spec_ok) _ _ _ Hacc Hl).
    - apply (store_values Clean.size_key_eqb (Forall spec_ok)); [|exact Hacc].
      constructor; [exact Hspec|constructor]. }
  intro H. apply G; [constructor|exact H].
Qed.

Lemma sheet_nesting_bounds shape_key specs category p :
  Forall spec_ok specs ->
  Clean._optimize_sheet_nesting self shape_key specs category = Some p ->
  0 <= Clean.MaterialPurchase.waste_percentage p <= 100.
Proof.
  intros Hok. unfold Clean._optimize_sheet_nesting.
  destruct specs as [|s0 rest0] eqn:Hspecs; [discriminate|]. rewrite <- Hspecs in *.
  pose proof (group_by_size_ok _ Hok) as Hgroups.
  set (init := {| Clean.acc_total_cost := 0; Clean.acc_total_pieces := 0;
                  Clean.acc_all_sheets := []; Clean.acc_weighted_waste := 0 |}).
  assert (Hinv : forall groups acc,
            Forall (fun g : Clean.SizeKey * list Clean.MaterialSpec.t => Forall spec_ok (snd g)) groups ->
            0 <= Clean.acc_total_cost acc ->
            0 <= Clean.acc_weighted_waste acc <= 100 * Clean.acc_total_cost acc ->
            let acc' := fold_left (Clean.accumulate_sheet self category) groups acc in
            0 <= Clean.acc_total_cost acc'
            /\ 0 <= Clean.acc_weighted_waste acc' <= 100 * Clean.acc_total_cost acc').
  { induction groups as [|g groups IH]; intros acc Hg Hc Hw; simpl; [auto|].
    inversion Hg as [|? ? Hgh Hgt]; subst.
    apply IH; [exact Hgt| |]; unfold Clean.accumulate_sheet;
      destruct (Clean._optimize_single_sheet_size self (snd g) category) as [r|] eqn:Hr;
      simpl; try assumption;
      destruct (single_sheet_bounds _ _ _ Hgh Hr) as [[Hw0 Hw1] Hc0].
    - lra.
    - assert (0 <= Clean.SheetResult.waste_percentage r * Clean.SheetResult.cost r)
        by (apply Qmult_le_0_compat; assumption).
      assert (Clean.SheetResult.waste_percentage r * Clean.SheetResult.cost r
              <= 100 * Clean.SheetResult.cost r)
        by (apply Qmult_le_compat_r; assumption).
      lra. }
  specialize (Hinv (Clean.group_by_size specs) init Hgroups).
  cbv zeta in Hinv.
  destruct Hinv as (Hc & Hw0 & Hw1); [simpl; lra|simpl; lra|].
  set (acc := fold_left (Clean.accumulate_sheet self category) (Clean.group_by_size specs) init) in *.
  destruct (Py.eq (Clean.acc_total_cost acc) 0) eqn:Hz; [discriminate|].
  intros [= <-]. simpl.
  apply Qeq_bool_neq in Hz.
  assert (Hpos : 0 < Clean.acc_total_cost acc)
    by (destruct (Qlt_le_dec 0 (Clean.acc_total_cost acc)); [assumption|exfalso; apply Hz; lra]).
  split.
  - apply Qle_shift_div_l; lra.
  - apply Qle_shift_div_r; lra.
Qed.

End SheetBounds.

(** ** Waste of linear purchases *)

Section LinearWaste.
Variable self : Clean.NestingService.

Lemma cuts_of_specs_nonneg specs :
  Forall spec_ok specs -> Forall (fun c => 0 <= c) (Clean.cuts_of_specs specs).
Proof.
  unfold Clean.cuts_of_specs. induction 1 as [|spec rest (_ & Hl & _) _ IH]; simpl.
  - constructor.
  - apply Forall_app. split; [|exact IH].
    apply Forall_forall. intros c Hc. apply repeat_spec in Hc. subst. exact Hl.
Qed.

Lemma total_required_nonneg kerf cuts :
  0 <= kerf -> Forall (fun c => 0 <= c) cuts -> 0 <= total_required kerf cuts.
Proof.
  intros Hk Hc. unfold total_required.
  pose proof (sum_nonneg _ Hc).
  assert (0 <= inject_Z (Py.len cuts)) by (rewrite <- (Zle_Qle 0); apply len_nonneg).
  assert (0 <= inject_Z (Py.len cuts) * kerf) by (apply Qmult_le_0_compat; assumption).
  lra.
Qed.

Lemma bin_pack_waste_range cuts stock_length kerf r :
  0 <= kerf -> Forall (fun c => 0 <= c) cuts ->
  Clean._bin_pack_linear cuts stock_length kerf = Some r ->
  0 <= Clean.PackResult.waste_percentage r <= 100.
Proof.
  intros Hk Hc Hr.
  destruct (bin_pack_efficiency _ _ _ _ Hr) as [_ Hw]. cbv zeta in Hw.
  destruct (bin_pack_waste _ _ _ _ Hr) as [Heq Hpos].
  pose proof (total_required_nonneg _ _ Hk Hc) as HT.
  rewrite Hw.
  destruct (Py.gt (inject_Z (Clean.PackResult.sticks_needed r) * stock_length) 0) eqn:Hgt; [|lra].
  apply gt_true in Hgt.
  set (a := inject_Z (Clean.PackResult.sticks_needed r) * stock_length) in *.
  set (tw := Clean.PackResult.total_waste r) in *.
  assert (0 <= tw / a) by (apply Qle_shift_div_l; lra).
  assert (tw / a <= 1) by (apply Qle_shift_div_r; lra).
  lra.
Qed.

Lemma linear_cuts_waste_range shape_key cuts category p :
  0 <= Clean.kerf_of self category -> Forall (fun c => 0 <= c) cuts ->
  Clean._optimize_linear_cuts self shape_key cuts category = Some p ->
  waste_in_range p.
Proof.
  intros Hk Hc Hp. unfold waste_in_range.
  apply optimize_linear_cuts_inv in Hp.
  destruct Hp as (_ & r & Hbest & _ & _ & _ & _ & -> & _).
  apply best_stock_origin in Hbest. destruct Hbest as (L & _ & HL).
  eapply bin_pack_waste_range; [exact Hk| |exact HL].
  eapply Permutation_Forall; [|exact Hc]. symmetry. apply sorted_reverse_perm.
Qed.

End LinearWaste.

(** ** The bulk discount *)

Section Hardware.
Variables (discounts : list Q) (total_qty : Z).

Lemma bulk_discount_spec thresholds : forall i rate0 applied0,
  StronglySorted Z.le thresholds ->
  (i + List.length thresholds <= List.length discounts)%nat ->
  exists rate applied,
    Clean.bulk_discount thresholds discounts i total_qty rate0 applied0
      = Py.Value (rate, applied)
    /\ ((Forall (fun t => (total_qty < t)%Z) thresholds
         /\ rate = rate0 /\ applied = applied0)
        \/ discount_of_highest_threshold thresholds discounts i total_qty rate applied).
Proof.
  induction thresholds as [|t0 rest IH]; intros i rate0 applied0 Hsorted Hlen; simpl.
  - exists rate0, applied0. split; [reflexivity|]. left. auto.
  - apply StronglySorted_inv in Hsorted. destruct Hsorted as [Hsorted Hall].
    simpl in Hlen.
    destruct (total_qty >=? t0)%Z eqn:Hge.
    + apply Z.geb_le in Hge.
      destruct (nth_error discounts i) as [d|] eqn:Hd.
      2:{ apply nth_error_None in Hd. exfalso. lia. }
      destruct (IH (S i) d true Hsorted) as (rate & applied & Hrun & Hcase); [lia|].
      exists rate, applied. split; [exact Hrun|]. right.
      destruct Hcase as [(Hnone & -> & ->)|(k & t & Hk & Ht & Hdk & Ha & Hmax)].
      * exists 0%nat, t0. simpl. rewrite Nat.add_0_r.
        repeat split; auto.
        intros t' [<-|Hin] Hmet; [lia|].
        pose proof (proj1 (Forall_forall _ _) Hnone _ Hin) as Hn. simpl in Hn. lia.
      * exists (S k), t. simpl. rewrite Nat.add_succ_r.
        repeat split; auto.
        intros t' [<-|Hin] Hmet; [|auto].
        apply nth_error_In in Hk.
        exact (proj1 (Forall_forall _ _) Hall _ Hk).
    + assert (Hlt : (total_qty < t0)%Z).
      { destruct (Z_lt_ge_dec total_qty t0) as [H|H]; [exact H|].
        apply Z.ge_le, Z.geb_le in H. congruence. }
      destruct (IH (S i) rate0 applied0 Hsorted) as (rate & applied & Hrun & Hcase); [lia|].
      exists rate, applied. split; [exact Hrun|].
      destruct Hcase as [(Hnone & -> & ->)|(k & t & Hk & Ht & Hdk & Ha & Hmax)].
      * left. repeat split; auto.
      * right. exists (S k), t. simpl. rewrite Nat.add_succ_r.
        repeat split; auto.
        intros t' [<-|Hin] Hmet; [lia|auto].
Qed.

End Hardware.

Section HardwareBatching.
Variable self : Clean.NestingService.
Hypothesis thresholds_ascending : StronglySorted Z.le (Clean.hardware_thresholds self).
Hypothesis discounts_cover :
  List.length (Clean.hardware_discounts self) = List.length (Clean.hardware_thresholds self).

Lemma hardware_batching_spec shape_key specs :
  specs <> [] ->
  exists p rate applied,
    Clean._optimize_hardware_batching self shape_key specs = Py.Value (Some p)
    /\ ((Forall (fun t => (Clean.total_quantity specs < t)%Z) (Clean.hardware_thresholds self)
         /\ rate = 0 /\ applied = false)
        \/ discount_of_highest_threshold (Clean.hardware_thresholds self)
             (Clean.hardware_discounts self) 0 (Clean.total_quantity specs) rate applied)
    /\ Clean.MaterialPurchase.total_cost p =
         inject_Z (Clean.total_quantity specs)
         * (Clean._estimate_hardware_cost shape_key * (1 - rate))
    /\ Clean.MaterialPurchase.pieces_needed p = Clean.total_quantity specs
    /\ Clean.MaterialPurchase.bulk_discount_applied p = applied
    /\ Clean.MaterialPurchase.waste_percentage p = 0
    /\ Clean.MaterialPurchase.shape_key p = shape_key.
Proof.
  intro Hne. unfold Clean._optimize_hardware_batching.
  destruct specs as [|s0 rest] eqn:Hspecs; [congruence|]. rewrite <- Hspecs.
  destruct (bulk_discount_spec (Clean.hardware_discounts self) (Clean.total_quantity specs)
              (Clean.hardware_thresholds self) 0 0 false thresholds_ascending)
    as (rate & applied & Hrun & Hcase); [simpl; lia|].
  rewrite Hrun.
  eexists _, rate, applied. split; [reflexivity|]. simpl.
  repeat split; auto.
Qed.

Lemma hardware_batching_total shape_key specs :
  exists result, Clean._optimize_hardware_batching self shape_key specs = Py.Value result
    /\ forall p, result = Some p -> waste_in_range p.
Proof.
  destruct specs as [|s0 rest] eqn:Hspecs.
  - exists None. split; [reflexivity|discriminate].
  - destruct (hardware_batching_spec shape_key (s0 :: rest)) as (p & rate & applied & Hrun & _ & _ & _ & _ & Hw & _);
      [discriminate|].
    exists (Some p). split; [exact Hrun|].
    intros p' [= <-]. unfold waste_in_range. rewrite Hw. lra.
Qed.

Lemma hardware_materials_total materials :
  exists purchases,
    Clean._optimize_hardware_materials self materials = Py.Value purchases
    /\ Forall waste_in_range purchases.
Proof.
  induction materials as [|[shape_key specs] rest (purchases & Hrest & Hall)]; simpl.
  - exists []. split; [reflexivity|constructor].
  - destruct (hardware_batching_total shape_key specs) as (result & -> & Hres).
    rewrite Hrest. destruct result as [p|].
    + exists (p :: purchases). split; [reflexivity|]. constructor; auto.
    + exists purchases. auto.
Qed.

End HardwareBatching.

(** ** Grouping of the entries *)

Section Grouping.
Variable self : Clean.NestingService.

Lemma append_spec_ok shape_key spec materials :
  spec_ok spec -> materials_ok materials ->
  materials_ok (Clean.append_spec shape_key spec materials).
Proof.
  intros Hspec Hm. unfold Clean.append_spec, materials_ok in *.
  destruct (Py.lookup String.eqb shape_key materials) as [specs|] eqn:Hl.
  - apply (store_values String.eqb (Forall spec_ok)); [|exact Hm].
    apply Forall_app. split; [|constructor; [exact Hspec|constructor]].
    exact (lookup_value String.eqb (Forall spec_ok) _ _ _ Hm Hl).
  - apply (store_values String.eqb (Forall spec_ok)); [|exact Hm].
    constructor; [exact Hspec|constructor].
Qed.

Lemma update_group_ok category f material_groups :
  (forall materials, materials_ok materials -> materials_ok (f materials)) ->
  groups_ok material_groups -> groups_ok (Clean.update_group category f material_groups).
Proof.
  intros Hf Hg. unfold Clean.update_group, groups_ok in *.
  apply Forall_map. eapply Forall_impl; [|exact Hg].
  intros [c m] Hm. simpl in *. destruct (Clean.category_eqb category c); simpl; auto.
Qed.

Lemma categorize_entry_ok entry material_groups :
  entry_nonneg entry -> groups_ok material_groups ->
  groups_ok (Clean._categorize_and_process_entry self entry material_groups).
Proof.
  intros (Hl & Hw & Ht) Hg. unfold Clean._categorize_and_process_entry.
  destruct (Py.strip (Py.upper (Clean.Entry.shape_key entry)) =? "")%string; [exact Hg|].
  destruct (Clean.Entry.qty entry <=? 0)%Z eqn:Hq; [exact Hg|].
  apply Z.leb_gt in Hq.
  apply update_group_ok; [|exact Hg].
  intros materials Hm. apply append_spec_ok; [|exact Hm].
  unfold spec_ok. simpl. auto.
Qed.

Lemma categorize_entries_ok takeoff_entries :
  Forall entry_nonneg takeoff_entries ->
  groups_ok (Clean.categorize_entries self takeoff_entries).
Proof.
  unfold Clean.categorize_entries.
  assert (G : forall groups, groups_ok groups -> Forall entry_nonneg takeoff_entries ->
              groups_ok (fold_left (fun material_groups entry =>
                           Clean._categorize_and_process_entry self entry material_groups)
                         takeoff_entries groups)).
  { induction takeoff_entries as [|e rest IH]; intros groups Hg He; simpl; [exact Hg|].
    inversion He; subst. apply IH; [|assumption]. apply categorize_entry_ok; assumption. }
  intro H. apply G; [|exact H].
  unfold Clean.empty_groups, groups_ok, materials_ok. repeat constructor.
Qed.

Lemma collect_purchases_forall (P : Clean.MaterialPurchase.t -> Prop) optimize materials :
  (forall shape_key specs p, In (shape_key, specs) materials ->
     optimize shape_key specs = Some p -> P p) ->
  Forall P (Clean.collect_purchases optimize materials).
Proof.
  intro H. unfold Clean.collect_purchases. apply Forall_flat_map.
  apply Forall_forall. intros [shape_key specs] Hin. simpl.
  destruct (optimize shape_key specs) as [p|] eqn:Hp; [|constructor].
  constructor; [|constructor]. eapply H; eassumption.
Qed.

Lemma collect_purchases_app optimize m1 m2 :
  Clean.collect_purchases optimize (m1 ++ m2)
  = Clean.collect_purchases optimize m1 ++ Clean.collect_purchases optimize m2.
Proof. unfold Clean.collect_purchases. apply flat_map_app. Qed.

End Grouping.

(** ** The constructed comprehensive service *)

Section DefaultService.

Lemma default_stocks_descending :
  StronglySorted (fun a b => b < a) (Clean.standard_stock_lengths Clean.nesting_service).
Proof. simpl. repeat constructor. Qed.

Lemma default_stocks_positive :
  Forall (fun L => 0 < L) (Clean.standard_stock_lengths Clean.nesting_service).
Proof. simpl. repeat constructor. Qed.

Lemma default_plates_positive :
  Forall (fun size : Q * Q => 0 < fst size /\ 0 < snd size)
    (Clean.standard_plate_sizes Clean.nesting_service).
Proof. simpl. repeat constructor. Qed.

Lemma default_kerf_positive category : 0 < Clean.kerf_of Clean.nesting_service category.
Proof. destruct category; reflexivity. Qed.

Lemma default_thresholds_ascending :
  StronglySorted Z.le (Clean.hardware_thresholds Clean.nesting_service).
Proof. cbv [Clean.hardware_thresholds]. simpl. repeat constructor; lia. Qed.

Lemma default_discounts_cover :
  List.length (Clean.hardware_discounts Clean.nesting_service)
  = List.length (Clean.hardware_thresholds Clean.nesting_service).
Proof. reflexivity. Qed.

Lemma panel_nesting_range shape_key specs category p :
  category = Clean.grating \/ category = Clean.frp ->
  Clean._optimize_panel_nesting Clean.nesting_service shape_key specs category = Some p ->
  waste_in_range p.
Proof.
  intros Hcat. unfold Clean._optimize_panel_nesting.
  destruct specs; [discriminate|]. intros [= <-]. unfold waste_in_range. simpl.
  destruct Hcat as [-> | ->]; vm_compute; split; discriminate.
Qed.

Lemma add_note_range note p : waste_in_range p -> waste_in_range (Clean.add_note note p).
Proof. exact (fun H => H). Qed.

Lemma optimize_category_range category materials :
  materials_ok materials ->
  exists purchases,
    Clean.optimize_category Clean.nesting_service category materials = Py.Value purchases
    /\ Forall waste_in_range purchases.
Proof.
  intro Hm. destruct category; simpl.
  - eexists. split; [reflexivity|]. apply collect_purchases_forall.
    intros k specs p Hin Hp.
    eapply linear_cuts_waste_range; [| |exact Hp].
    + apply Qlt_le_weak, default_kerf_positive.
    + apply cuts_of_specs_nonneg.
      exact (proj1 (Forall_forall _ _) Hm _ Hin).
  - eexists. split; [reflexivity|]. apply collect_purchases_forall.
    intros k specs p Hin Hp.
    eapply sheet_nesting_bounds; [exact default_plates_positive| |exact Hp].
    exact (proj1 (Forall_forall _ _) Hm _ Hin).
  - eexists. split; [reflexivity|]. apply collect_purchases_forall.
    intros k specs p Hin Hp. eapply panel_nesting_range; [|exact Hp]. auto.
  - eexists. split; [reflexivity|]. apply collect_purchases_forall.
    intros k specs p Hin Hp.
    destruct (Clean._optimize_panel_nesting Clean.nesting_service k specs Clean.frp) as [q|] eqn:Hq;
      [|discriminate].
    injection Hp as <-. apply add_note_range.
    eapply panel_nesting_range; [|exact Hq]. auto.
  - apply hardware_materials_total.
    + exact default_thresholds_ascending.
    + exact default_discounts_cover.
  - eexists. split; [reflexivity|]. apply collect_purchases_forall.
    intros k specs p Hin Hp.
    eapply linear_cuts_waste_range; [| |exact Hp].
    + apply Qlt_le_weak, default_kerf_positive.
    + apply cuts_of_specs_nonneg.
      exact (proj1 (Forall_forall _ _) Hm _ Hin).
  - eexists. split; [reflexivity|]. unfold Clean._optimize_general_materials.
    apply Forall_map. apply Forall_forall. intros item _.
    unfold waste_in_range. simpl. lra.
Qed.

End DefaultService.

(** ** The loop of the run *)

Section Run.
Variable self : Clean.NestingService.

Lemma optimize_groups_total (P : Clean.MaterialPurchase.t -> Prop) material_groups :
  (forall category materials, In (category, materials) material_groups ->
     exists purchases,
       Clean.optimize_category self category materials = Py.Value purchases
       /\ Forall P purchases) ->
  forall all_purchases w, Forall P all_purchases ->
  exists purchases w',
    Clean.optimize_groups self material_groups all_purchases w = (Py.Value purchases, w')
    /\ Forall P purchases
    /\ Clean.service w' = Clean.service w.
Proof.
  induction material_groups as [|[category materials] rest IH]; intros Hcat acc w Hacc.
  - exists acc, w. simpl. auto.
  - assert (Hrest : forall c m, In (c, m) rest ->
              exists ps, Clean.optimize_category self c m = Py.Value ps /\ Forall P ps)
      by (intros; apply Hcat; right; assumption).
    simpl. destruct materials as [|item items] eqn:Hmat.
    + apply IH; assumption.
    + rewrite <- Hmat in *.
      destruct (Hcat category materials (or_introl eq_refl)) as (ps & Hps & HP).
      unfold Clean.bind, Clean.print. rewrite Hps.
      edestruct (IH Hrest (acc ++ ps)) as (purchases & w' & Hrun & Hall & Hsvc).
      * apply Forall_app. split; eassumption.
      * exists purchases, w'. split; [exact Hrun|]. split; [exact Hall|].
        rewrite Hsvc. reflexivity.
Qed.

(** The purchases of a run do not depend on what the console holds, and
    the run leaves the service object as it was. *)
Lemma optimize_groups_console material_groups : forall all_purchases w w',
  fst (Clean.optimize_groups self material_groups all_purchases w)
  = fst (Clean.optimize_groups self material_groups all_purchases w')
  /\ Clean.service (snd (Clean.optimize_groups self material_groups all_purchases w))
     = Clean.service w.
Proof.
  induction material_groups as [|[category materials] rest IH]; intros acc w w'.
  - simpl. auto.
  - simpl. destruct materials as [|item items] eqn:Hmat.
    + apply IH.
    + rewrite <- Hmat. unfold Clean.bind, Clean.print.
      destruct (Clean.optimize_category self category materials) as [ps|e].
      * split; [apply IH|]. rewrite (proj2 (IH _ _ w)). reflexivity.
      * simpl. auto.
Qed.

End Run.

Lemma summarize_purchases all_purchases :
  Clean.NestingResult.material_purchases (Clean.summarize all_purchases) = all_purchases.
Proof. destruct all_purchases; reflexivity. Qed.

Lemma run_unfold takeoff_entries project_id w :
  let w1 := {| Clean.service := Clean.service w;
               Clean.console := Clean.console w ++
                 [("Starting comprehensive nesting optimization for project "
                   ++ project_id)%string] |} in
  let groups := Clean.categorize_entries (Clean.service w) takeoff_entries in
  Clean.optimize_project_materials takeoff_entries project_id w
  = match Clean.optimize_groups (Clean.service w) groups [] w1 with
    | (Py.Value all_purchases, w2) => (Py.Value (Clean.summarize all_purchases), w2)
    | (Py.Raise e, w2) =>
        (Py.Raise ("Nesting optimization failed: " ++ e)%string,
         {| Clean.service := Clean.service w2;
            Clean.console := Clean.console w2 ++
              [("Comprehensive nesting optimization error: " ++ e)%string] |})
    end.
Proof.
  unfold Clean.optimize_project_materials, Clean.bind, Clean.print, Clean.get_self, Clean.ret. simpl.
  destruct (Clean.optimize_groups _ _ _ _) as [[ps|e] w2]; reflexivity.
Qed.

(** ** The simple service *)

Section SimplePacking.

Lemma simple_place_perm sticks : forall stick_cuts cut s c,
  Simple.place_in_stick sticks stick_cuts cut = Some (s, c) ->
  Permutation (List.concat c) (cut :: List.concat stick_cuts).
Proof.
  induction sticks as [|rem sticks' IH]; intros stick_cuts cut s c; simpl.
  - discriminate.
  - destruct stick_cuts as [|cs stick_cuts']; [discriminate|].
    destruct (Py.ge rem cut).
    + intros [= <- <-]. simpl. rewrite <- app_assoc. simpl.
      symmetry. apply Permutation_middle.
    + destruct (Simple.place_in_stick sticks' stick_cuts' cut) as [[s' c']|] eqn:Hrec;
        [|discriminate].
      intros [= <- <-]. simpl. rewrite (IH _ _ _ _ Hrec).
      rewrite Permutation_middle. reflexivity.
Qed.

Lemma simple_pack_perm cuts stock_length : forall sticks stick_cuts,
  Permutation
    (List.concat (snd (Simple.pack_cuts cuts stock_length sticks stick_cuts)))
    (List.concat stick_cuts ++ cuts).
Proof.
  induction cuts as [|cut rest IH]; intros sticks stick_cuts; simpl.
  - rewrite app_nil_r. reflexivity.
  - destruct (Simple.place_in_stick sticks stick_cuts cut) as [[s c]|] eqn:Hplace.
    + rewrite IH, (simple_place_perm _ _ _ _ _ Hplace). simpl.
      apply Permutation_middle.
    + rewrite IH, concat_app. simpl. rewrite <- app_assoc. reflexivity.
Qed.

Lemma simple_linear_inv self material cuts p :
  Simple._optimize_linear_material self material cuts = Py.Value (Some p) ->
  exists stock rest,
    Simple.standard_stock_lengths self = stock :: rest
    /\ cuts <> []
    /\ Simple.MaterialPurchase.stock_length p = inject_Z stock
    /\ Simple.MaterialPurchase.cuts_per_stick p =
         snd (Simple.pack_cuts (Py.sorted_reverse cuts) (inject_Z stock) [] [])
    /\ Simple.MaterialPurchase.pieces_needed p =
         Py.len (fst (Simple.pack_cuts (Py.sorted_reverse cuts) (inject_Z stock) [] [])).
Proof.
  unfold Simple._optimize_linear_material.
  destruct cuts as [|c0 cs] eqn:Hcuts; [discriminate|]. rewrite <- Hcuts.
  destruct (Simple.standard_stock_lengths self) as [|stock rest]; [discriminate|].
  destruct (Simple.pack_cuts (Py.sorted_reverse cuts) (inject_Z stock) [] [])
    as [sticks stick_cuts] eqn:Hpack.
  intros [= <-]. exists stock, rest. simpl.
  split; [reflexivity|]. split; [subst; discriminate|].
  rewrite Hpack. split; [reflexivity|]. split; reflexivity.
Qed.

End SimplePacking.

Section SimplePlates.
Variables width length : Q.

Lemma best_plate_fit_spec sizes : forall best_fit best_waste,
  plate_search_ok width length (width * length) best_fit best_waste ->
  let result :=
    Simple.best_plate_fit sizes width length (width * length) best_fit best_waste in
  plate_search_ok width length (width * length) (fst result) (snd result)
  /\ (forall fit, fst result = Some fit -> best_fit = Some fit \/ In fit sizes)
  /\ (best_fit <> None -> fst result <> None)
  /\ (Exists (fun size => plate_fits width length size = true) sizes ->
      fst result <> None)
  /\ (Forall (fun size => plate_fits width length size = false) sizes ->
      result = (best_fit, best_waste)).
Proof.
  induction sizes as [|[sw sl] rest IH]; intros best_fit best_waste Hok; simpl.
  - repeat split; auto. intro Hex. inversion Hex.
  - change ((Qle_bool width (inject_Z sw) && Qle_bool length (inject_Z sl))
            || (Qle_bool width (inject_Z sl) && Qle_bool length (inject_Z sw)))
      with (plate_fits width length (sw, sl)).
    destruct (plate_fits width length (sw, sl)) eqn:Hfit.
    + destruct (match best_waste with
                | Some w => Py.lt (inject_Z (sw * sl) - width * length) w
                | None => true
                end) eqn:Hb.
      * assert (Hok' : plate_search_ok width length (width * length) (Some (sw, sl))
                         (Some (inject_Z (sw * sl) - width * length)))
          by (simpl; auto).
        destruct (IH _ _ Hok') as (H1 & H2 & H3 & H4 & H5).
        assert (Hsome : fst (Simple.best_plate_fit rest width length (width * length)
                               (Some (sw, sl))
                               (Some (inject_Z (sw * sl) - width * length))) <> None)
          by (apply H3; discriminate).
        split; [exact H1|]. split; [|split; [|split]].
        -- intros fit Hf. right. destruct (H2 fit Hf) as [[= <-]|Hin]; [left|right]; auto.
        -- intros _. exact Hsome.
        -- intros _. exact Hsome.
        -- intro Hall. inversion Hall as [|? ? Hh _]; subst. simpl in Hh. congruence.
      * destruct (IH _ _ Hok) as (H1 & H2 & H3 & H4 & H5).
        assert (Hbest : best_fit <> None).
        { destruct best_waste as [w|]; [|discriminate].
          destruct best_fit; [discriminate|contradiction]. }
        split; [exact H1|]. split; [|split; [|split]].
        -- intros fit Hf. destruct (H2 fit Hf); auto.
        -- exact H3.
        -- intros _. exact (H3 Hbest).
        -- intro Hall. inversion Hall as [|? ? Hh _]; subst. simpl in Hh. congruence.
    + destruct (IH _ _ Hok) as (H1 & H2 & H3 & H4 & H5).
      split; [exact H1|]. split; [|split; [|split]].
      * intros fit Hf. destruct (H2 fit Hf); auto.
      * exact H3.
      * intro Hex. inversion Hex as [? ? Hh|? ? Ht]; subst; [congruence|auto].
      * intro Hall. inversion Hall; subst. auto.
Qed.

End SimplePlates.

(** A plate that fits no catalog size is priced on a 96x240 sheet. *)
Lemma simple_plate_fallback self plate_data :
  Forall (fun size => plate_fits (Simple.PlateData.width plate_data)
                        (Simple.PlateData.length plate_data) size = false)
    (Simple.standard_plate_sizes self) ->
  exists p,
    Simple._optimize_plate_material self plate_data = Some p
    /\ Simple.MaterialPurchase.shape_key p = Simple.PlateData.material plate_data
    /\ Simple.MaterialPurchase.size_description p = "96x240 sheets"%string
    /\ Simple.MaterialPurchase.waste_percentage p =
         ((inject_Z (96 * 240)
           - Simple.PlateData.width plate_data * Simple.PlateData.length plate_data)
          / inject_Z (96 * 240)) * 100.
Proof.
  intro Hno. unfold Simple._optimize_plate_material.
  destruct (best_plate_fit_spec (Simple.PlateData.width plate_data)
              (Simple.PlateData.length plate_data)
              (Simple.standard_plate_sizes self) None None I)
    as (_ & _ & _ & _ & H5).
  rewrite (H5 Hno). eexists. split; [reflexivity|]. simpl. auto.
Qed.

Lemma simple_plate_waste_range self plate_data p :
  Forall (fun size : Z * Z => (0 < fst size)%Z /\ (0 < snd size)%Z)
    (Simple.standard_plate_sizes self) ->
  0 < Simple.PlateData.width plate_data ->
  0 < Simple.PlateData.length plate_data ->
  Exists (fun size => plate_fits (Simple.PlateData.width plate_data)
                        (Simple.PlateData.length plate_data) size = true)
    (Simple.standard_plate_sizes self) ->
  Simple._optimize_plate_material self plate_data = Some p ->
  0 <= Simple.MaterialPurchase.waste_percentage p <= 100.
Proof.
  intros Hsizes Hw Hl Hex. unfold Simple._optimize_plate_material.
  set (width := Simple.PlateData.width plate_data) in *.
  set (length := Simple.PlateData.length plate_data) in *.
  destruct (best_plate_fit_spec width length (Simple.standard_plate_sizes self) None None I)
    as (Hok & Hfrom & _ & Hsome & _).
  specialize (Hsome Hex).
  destruct (Simple.best_plate_fit (Simple.standard_plate_sizes self) width length
              (width * length) None None) as [[[sw sl]|] [waste|]];
    simpl in Hok, Hsome; try contradiction; try congruence.
  destruct Hok as [Hfit ->].
  destruct (Hfrom _ eq_refl) as [?|Hin]; [discriminate|].
  pose proof (proj1 (Forall_forall _ _) Hsizes _ Hin) as [Hsw Hsl]. simpl in Hsw, Hsl.
  intros [= <-]. simpl.
  rewrite inject_Z_mult.
  assert (Hsw' : 0 < inject_Z sw) by (rewrite <- (Zlt_Qlt 0); exact Hsw).
  assert (Hsl' : 0 < inject_Z sl) by (rewrite <- (Zlt_Qlt 0); exact Hsl).
  set (a := inject_Z sw) in *. set (b := inject_Z sl) in *.
  assert (Harea : width * length <= a * b).
  { unfold plate_fits in Hfit. simpl in Hfit. fold a b in Hfit.
    apply orb_true_iff in Hfit.
    destruct Hfit as [Hf|Hf]; apply andb_true_iff in Hf; destruct Hf as [H1 H2];
      apply Qle_bool_iff in H1; apply Qle_bool_iff in H2; nra. }
  assert (Hab : 0 < a * b) by nra.
  assert (Hwl : 0 < width * length) by nra.
  assert (0 <= (a * b - width * length) / (a * b)) by (apply Qle_shift_div_l; lra).
  assert ((a * b - width * length) / (a * b) <= 1) by (apply Qle_shift_div_r; lra).
  lra.
Qed.

(** ** Groups that are skipped *)

Section SheetNoFit.
Variable self : Clean.NestingService.

Lemma group_by_size_forall (P : Clean.MaterialSpec.t -> Prop) specs :
  Forall P specs ->
  Forall (fun g : Clean.SizeKey * list Clean.MaterialSpec.t =>
            snd g <> [] /\ Forall P (snd g))
    (Clean.group_by_size specs).
Proof.
  unfold Clean.group_by_size.
  set (Q := fun l : list Clean.MaterialSpec.t => l <> [] /\ Forall P l).
  assert (G : forall acc,
            Forall (fun g : Clean.SizeKey * list Clean.MaterialSpec.t => Q (snd g)) acc ->
            Forall P specs ->
            Forall (fun g : Clean.SizeKey * list Clean.MaterialSpec.t => Q (snd g))
              (fold_left (fun size_groups spec => Clean.add_to_size_group spec size_groups)
                 specs acc)).
  { induction specs as [|spec rest IH]; intros acc Hacc Hspecs; simpl; [exact Hacc|].
    inversion Hspecs as [|? ? Hspec Hrest]; subst.
    apply IH; [|exact Hrest].
    unfold Clean.add_to_size_group.
    destruct (Py.lookup Clean.size_key_eqb (Clean.size_key spec) acc) as [old|] eqn:Hl.
    - apply (store_values Clean.size_key_eqb Q); [|exact Hacc].
      destruct (lookup_value Clean.size_key_eqb Q _ _ _ Hacc Hl) as [_ Hold].
      split; [destruct old; discriminate|].
      apply Forall_app. split; [exact Hold|constructor; [exact Hspec|constructor]].
    - apply (store_values Clean.size_key_eqb Q); [|exact Hacc].
      split; [discriminate|constructor; [exact Hspec|constructor]]. }
  intro H. apply G; [constructor|exact H].
Qed.

(** When no piece of a shape key fits a catalog sheet, the shape key gets
    no purchase. *)
Lemma sheet_nesting_no_fit shape_key specs category :
  Forall (fun spec => no_sheet_fits self (Clean.MaterialSpec.width spec)
                        (Clean.MaterialSpec.length spec)) specs ->
  Clean._optimize_sheet_nesting self shape_key specs category = None.
Proof.
  intro Hno. unfold Clean._optimize_sheet_nesting.
  destruct specs as [|s0 rest0] eqn:Hspecs; [reflexivity|]. rewrite <- Hspecs in *.
  pose proof (group_by_size_forall _ _ Hno) as Hgroups.
  assert (Hfold : forall groups acc,
            Forall (fun g : Clean.SizeKey * list Clean.MaterialSpec.t =>
                      snd g <> [] /\
                      Forall (fun spec => no_sheet_fits self (Clean.MaterialSpec.width spec)
                                            (Clean.MaterialSpec.length spec)) (snd g)) groups ->
            fold_left (Clean.accumulate_sheet self category) groups acc = acc).
  { induction groups as [|g groups IH]; intros acc Hg; simpl; [reflexivity|].
    inversion Hg as [|? ? [Hne Hall] Hrest]; subst.
    unfold Clean.accumulate_sheet at 2.
    destruct (snd g) as [|piece others]; [congruence|].
    inversion Hall; subst.
    rewrite single_sheet_no_fit by assumption. apply IH. exact Hrest. }
  rewrite (Hfold _ _ Hgroups). reflexivity.
Qed.

End SheetNoFit.

Section Infeasible.
Variable self : Clean.NestingService.

(** A cut that, with its kerf, is longer than every stock length leaves
    the shape key without a purchase. *)
Lemma infeasible_cut_none shape_key cuts category :
  (exists cut, In cut cuts
     /\ Forall (fun L => L < cut + Clean.kerf_of self category)
          (Clean.standard_stock_lengths self)) ->
  Clean._optimize_linear_cuts self shape_key cuts category = None.
Proof.
  intros (cut & Hin & Hall).
  destruct (Clean._optimize_linear_cuts self shape_key cuts category) as [p|] eqn:Hp;
    [exfalso|reflexivity].
  apply optimize_linear_cuts_inv in Hp. destruct Hp as (_ & r & Hbest & _).
  apply best_stock_origin in Hbest. destruct Hbest as (L & HL & Hr).
  assert (Hfit : fits_stock (Clean.kerf_of self category) L cuts)
    by (apply bin_pack_sorted_feasible; eauto).
  pose proof (proj1 (Forall_forall _ _) Hfit _ Hin) as H1.
  pose proof (proj1 (Forall_forall _ _) Hall _ HL) as H2.
  simpl in H1, H2. lra.
Qed.

End Infeasible.

(** ** Runs of the services *)

Section RunFacts.

Lemma optimize_category_value category materials :
  exists purchases,
    Clean.optimize_category Clean.nesting_service category materials
    = Py.Value purchases.
Proof.
  destruct category; simpl; try (eexists; reflexivity).
  destruct (hardware_materials_total Clean.nesting_service
              default_thresholds_ascending default_discounts_cover materials)
    as (ps & Hps & _).
  eauto.
Qed.

(** A run of the constructed service is never aborted. *)
Lemma clean_run_value takeoff_entries project_id w :
  Clean.service w = Clean.nesting_service ->
  exists r w',
    Clean.optimize_project_materials takeoff_entries project_id w = (Py.Value r, w').
Proof.
  intro Hsvc. rewrite run_unfold. cbv zeta. rewrite Hsvc.
  edestruct (optimize_groups_total Clean.nesting_service (fun _ => True)
               (Clean.categorize_entries Clean.nesting_service takeoff_entries))
    as (ps & w' & Hrun & _).
  - intros c m _. destruct (optimize_category_value c m) as [ps Hps].
    exists ps. split; [exact Hps|]. apply Forall_forall. auto.
  - constructor.
  - rewrite Hrun. eauto.
Qed.

Lemma clean_run_waste_range takeoff_entries project_id w :
  Clean.service w = Clean.nesting_service ->
  Forall entry_nonneg takeoff_entries ->
  exists r w',
    Clean.optimize_project_materials takeoff_entries project_id w = (Py.Value r, w')
    /\ Forall waste_in_range (Clean.NestingResult.material_purchases r).
Proof.
  intros Hsvc Hentries. rewrite run_unfold. cbv zeta. rewrite Hsvc.
  pose proof (categorize_entries_ok Clean.nesting_service _ Hentries) as Hgroups.
  edestruct (optimize_groups_total Clean.nesting_service waste_in_range
               (Clean.categorize_entries Clean.nesting_service takeoff_entries))
    as (ps & w' & Hrun & Hall & _).
  - intros c m Hin. apply optimize_category_range.
    exact (proj1 (Forall_forall _ _) Hgroups _ Hin).
  - constructor.
  - rewrite Hrun. eexists _, _. split; [reflexivity|].
    rewrite summarize_purchases. exact Hall.
Qed.

Lemma clean_run_console takeoff_entries project_id w w' :
  Clean.service w = Clean.service w' ->
  fst (Clean.optimize_project_materials takeoff_entries project_id w)
  = fst (Clean.optimize_project_materials takeoff_entries project_id w')
  /\ Clean.service (snd (Clean.optimize_project_materials takeoff_entries project_id w))
     = Clean.service w.
Proof.
  intro Hsvc. rewrite !run_unfold. cbv zeta. rewrite <- Hsvc.
  set (groups := Clean.categorize_entries (Clean.service w) takeoff_entries).
  set (w1 := {| Clean.service := Clean.service w; Clean.console := _ |}).
  set (w1' := {| Clean.service := Clean.service w; Clean.console := _ ++ _ |}).
  destruct (optimize_groups_console (Clean.service w) groups [] w1 w1') as [Hfst Hs].
  destruct (optimize_groups_console (Clean.service w) groups [] w1' w1) as [_ Hs'].
  destruct (Clean.optimize_groups (Clean.service w) groups [] w1) as [o1 w2].
  destruct (Clean.optimize_groups (Clean.service w) groups [] w1') as [o2 w2'].
  simpl in Hfst, Hs, Hs'. subst o2.
  destruct o1; simpl; auto.
Qed.

Lemma simple_run_console takeoff_entries project_id w w' :
  Simple.service w = Simple.service w' ->
  fst (Simple.optimize_project_materials takeoff_entries project_id w)
  = fst (Simple.optimize_project_materials takeoff_entries project_id w')
  /\ Simple.service (snd (Simple.optimize_project_materials takeoff_entries project_id w))
     = Simple.service w.
Proof.
  intro Hsvc.
  unfold Simple.optimize_project_materials, Simple.bind, Simple.print,
    Simple.get_self, Simple.ret.
  simpl. rewrite <- Hsvc.
  destruct (Simple.linear_purchases_of (Simple.service w) _); simpl; auto.
Qed.

End RunFacts.

(** ** The properties of the specification *)











(** C5 (defect of the comprehensive service).  The specification puts the
    rule "prefix PL or substring DUCT gives sheet" first.  The comprehensive
    service runs its pattern table before that rule, and the table matches
    the structural letters W, S, C, L anywhere in the key: DUCT contains a
    C, so a duct is classified structural and is bought as sticks; a plate
    key that contains a linear word is classified linear. *)
Theorem duct_classified_structural :
  Clean._determine_material_category Clean.nesting_service "DUCT" = Clean.structural
  /\ Clean._determine_material_category Clean.nesting_service "DUCT 24X12"
     = Clean.structural
  /\ Clean._determine_material_category Clean.nesting_service "PL1/4 BAR"
     = Clean.linear
  /\ Py.contains "DUCT" (Py.upper "DUCT 24X12") = true
  /\ Py.startswith (Py.upper "PL1/4 BAR") "PL" = true
  /\ exists r p,
       fst (Clean.optimize_project_materials
              [clean_entry "DUCT 24X12" 2 48 24 0.05] "P1" clean_world) = Py.Value r
       /\ Clean.NestingResult.material_purchases r = [p]
       /\ Clean.MaterialPurchase.material_category p = Clean.structural
       /\ Clean.MaterialPurchase.size_description p = "10' sticks"%string.
Proof.
  repeat split; try reflexivity.
  eexists _, _. split; [vm_compute; reflexivity|].
  repeat split; reflexivity.
Qed.

(** C6, as stated, fails: a piece 32 wide and 24 long goes on a 48x96
    sheet four to a sheet, the count of the orientation as given, although
    the turned piece would go six to a sheet. *)
Lemma rotated_count_not_taken :
  exists r d,
    Clean._optimize_single_sheet_size Clean.nesting_service [sheet_spec 32 24 1]
      Clean.sheet = Some r
    /\ Clean.SheetResult.sheet_details r = [d]
    /\ Clean.SheetDetail.width d = 48 /\ Clean.SheetDetail.length d = 96
    /\ Clean.SheetDetail.pieces_per_sheet d = 4%Z
    /\ grid_count 48 96 32 24 = 4%Z
    /\ grid_count 48 96 24 32 = 6%Z.
Proof.
  eexists _, _. split; [vm_compute; reflexivity|].
  repeat split; reflexivity.
Qed.

(** C6, amended.  The number of pieces per sheet is the grid count of the
    piece as given, floor(sheetW/pieceW) * floor(sheetL/pieceL), whenever
    that count is not zero; the grid count of the piece turned by 90
    degrees is used only when the first is zero. *)
Theorem pieces_per_sheet_normal_first :
  forall self specs category r,
    Clean._optimize_single_sheet_size self specs category = Some r ->
    exists piece rest d,
      specs = piece :: rest
      /\ Clean.SheetResult.sheet_details r = [d]
      /\ Clean.SheetDetail.pieces_per_sheet d <> 0%Z
      /\ let normal :=
           grid_count (Clean.SheetDetail.width d) (Clean.SheetDetail.length d)
             (Clean.MaterialSpec.width piece) (Clean.MaterialSpec.length piece) in
         let rotated :=
           grid_count (Clean.SheetDetail.width d) (Clean.SheetDetail.length d)
             (Clean.MaterialSpec.length piece) (Clean.MaterialSpec.width piece) in
         Clean.SheetDetail.pieces_per_sheet d
         = (if (normal =? 0)%Z then rotated else normal).
Proof.
  intros self specs category r Hr.
  destruct (single_sheet_inv _ _ _ _ Hr)
    as (piece & rest & sw & sl & Hspecs & _ & _ & _ & Hrest).
  cbv zeta in Hrest. destruct Hrest as (Hpps & _ & _ & _ & Hd).
  eexists piece, rest, _. split; [exact Hspecs|]. split; [exact Hd|].
  simpl. split; [exact Hpps|reflexivity].
Qed.

Lemma pieces_per_sheet_normal_first_witness :
  exists r,
    Clean._optimize_single_sheet_size Clean.nesting_service [sheet_spec 32 24 1]
      Clean.sheet = Some r
    /\ exists piece rest d,
         [sheet_spec 32 24 1] = piece :: rest
         /\ Clean.SheetResult.sheet_details r = [d]
         /\ Clean.SheetDetail.pieces_per_sheet d <> 0%Z
         /\ let normal :=
              grid_count (Clean.SheetDetail.width d) (Clean.SheetDetail.length d)
                (Clean.MaterialSpec.width piece) (Clean.MaterialSpec.length piece) in
            let rotated :=
              grid_count (Clean.SheetDetail.width d) (Clean.SheetDetail.length d)
                (Clean.MaterialSpec.length piece) (Clean.MaterialSpec.width piece) in
            Clean.SheetDetail.pieces_per_sheet d
            = (if (normal =? 0)%Z then rotated else normal).
Proof.
  eexists. split; [reflexivity|].
  apply (pieces_per_sheet_normal_first Clean.nesting_service [sheet_spec 32 24 1]
           Clean.sheet).
  reflexivity.
Defined.

(** C7.  The hardware optimizer applies to the base unit cost the discount
    paired with the highest threshold that the total quantity meets, and
    no discount when it meets none: for ascending thresholds with a
    discount each, the total cost is the quantity times the base cost
    times one minus that discount.  For 120 units at a base cost of 1.00
    and the tiers 25, 50, 100, 250 at 2, 5, 10, 15 percent the discount is
    the one of 100, the unit cost 0.90 and the total 108.00. *)
Theorem hardware_highest_threshold_discount :
  (forall self shape_key specs,
     StronglySorted Z.le (Clean.hardware_thresholds self) ->
     List.length (Clean.hardware_discounts self)
     = List.length (Clean.hardware_thresholds self) ->
     specs <> [] ->
     exists p rate applied,
       Clean._optimize_hardware_batching self shape_key specs = Py.Value (Some p)
       /\ ((Forall (fun t => (Clean.total_quantity specs < t)%Z)
              (Clean.hardware_thresholds self)
            /\ rate = 0 /\ applied = false)
           \/ discount_of_highest_threshold (Clean.hardware_thresholds self)
                (Clean.hardware_discounts self) 0 (Clean.total_quantity specs)
                rate applied)
       /\ Clean.MaterialPurchase.total_cost p
          = inject_Z (Clean.total_quantity specs)
            * (Clean._estimate_hardware_cost shape_key * (1 - rate))
       /\ Clean.MaterialPurchase.bulk_discount_applied p = applied
       /\ Clean.MaterialPurchase.waste_percentage p = 0)
  /\ (Clean.hardware_thresholds Clean.nesting_service = [25; 50; 100; 250]%Z
      /\ Clean.hardware_discounts Clean.nesting_service = [0.02; 0.05; 0.10; 0.15]
      /\ Clean._estimate_hardware_cost "HEX NUT" == 1
      /\ Clean.bulk_discount [25; 50; 100; 250]%Z [0.02; 0.05; 0.10; 0.15] 0 120 0 false
         = Py.Value (0.10, true)
      /\ Clean._estimate_hardware_cost "HEX NUT" * (1 - 0.10) == 0.90
      /\ exists p,
           Clean._optimize_hardware_batching Clean.nesting_service "HEX NUT"
             [hardware_spec "HEX NUT" 120] = Py.Value (Some p)
           /\ Clean.MaterialPurchase.pieces_needed p = 120%Z
           /\ Clean.MaterialPurchase.total_cost p == 108
           /\ Clean.MaterialPurchase.bulk_discount_applied p = true).
Proof.
  split.
  - intros self shape_key specs Hsorted Hlen Hne.
    destruct (hardware_batching_spec self Hsorted Hlen shape_key specs Hne)
      as (p & rate & applied & Hrun & Hcase & Hcost & _ & Happ & Hw & _).
    exists p, rate, applied. auto.
  - repeat split; try reflexivity.
    eexists. split; [vm_compute; reflexivity|].
    repeat split; reflexivity.
Qed.

Lemma hardware_highest_threshold_discount_witness :
  exists p rate applied,
    Clean._optimize_hardware_batching Clean.nesting_service "HEX NUT"
      [hardware_spec "HEX NUT" 120] = Py.Value (Some p)
    /\ ((Forall (fun t => (Clean.total_quantity [hardware_spec "HEX NUT" 120] < t)%Z)
           (Clean.hardware_thresholds Clean.nesting_service)
         /\ rate = 0 /\ applied = false)
        \/ discount_of_highest_threshold (Clean.hardware_thresholds Clean.nesting_service)
             (Clean.hardware_discounts Clean.nesting_service) 0
             (Clean.total_quantity [hardware_spec "HEX NUT" 120]) rate applied)
    /\ Clean.MaterialPurchase.total_cost p
       = inject_Z (Clean.total_quantity [hardware_spec "HEX NUT" 120])
         * (Clean._estimate_hardware_cost "HEX NUT" * (1 - rate))
    /\ Clean.MaterialPurchase.bulk_discount_applied p = applied
    /\ Clean.MaterialPurchase.waste_percentage p = 0.
Proof.
  apply (proj1 hardware_highest_threshold_discount Clean.nesting_service).
  - cbv [Clean.hardware_thresholds]. simpl. repeat constructor; lia.
  - reflexivity.
  - discriminate.
Defined.

(** C8, as stated, fails.  In the comprehensive service a plate 200 by 500
    fits no catalog sheet; its shape key gets no purchase and nothing in
    the result mentions it.  In the simple service the same plate gets a
    purchase, priced on a 96x240 sheet. *)
Lemma no_fit_not_reported :
  (no_sheet_fits Clean.nesting_service 200 500
   /\ exists r,
        fst (Clean.optimize_project_materials
               [clean_entry "PL-BIG" 1 500 200 0.5; clean_entry "PL1/2" 10 36 24 0.5]
               "P1" clean_world) = Py.Value r
        /\ map Clean.MaterialPurchase.shape_key
             (Clean.NestingResult.material_purchases r) = ["PL1/2"%string]
        /\ mentions "PL-BIG" r = false
        /\ mentions "FIT" r = false)
  /\ (Forall (fun size => plate_fits 200 500 size = false)
        (Simple.standard_plate_sizes Simple.nesting_service)
      /\ exists r p,
           fst (Simple.optimize_project_materials
                  [Simple.Entry.mk "PL-BIG" 1 0 500 200] "P1" simple_world)
           = Py.Value r
           /\ Simple.NestingResult.material_purchases r = [p]
           /\ Simple.MaterialPurchase.shape_key p = "PL-BIG"%string
           /\ Simple.MaterialPurchase.size_description p = "96x240 sheets"%string).
Proof.
  split.
  - split; [repeat constructor|].
    eexists. split; [vm_compute; reflexivity|].
    repeat split; vm_compute; reflexivity.
  - split; [repeat constructor|].
    eexists _, _. split; [vm_compute; reflexivity|].
    repeat split; reflexivity.
Qed.

(** C8, amended.  A piece that fits no catalog sheet in either orientation
    yields no sheet result in the comprehensive service; a shape key all of
    whose pieces are such gets no purchase and no note, and the purchases
    of the sheet materials are those of the other shape keys.  The simple
    service prices such a plate on a 96x240 sheet. *)
Theorem no_fit_skipped :
  (forall self piece rest category,
     no_sheet_fits self (Clean.MaterialSpec.width piece)
       (Clean.MaterialSpec.length piece) ->
     Clean._optimize_single_sheet_size self (piece :: rest) category = None)
  /\ (forall self shape_key specs category,
        Forall (fun spec => no_sheet_fits self (Clean.MaterialSpec.width spec)
                              (Clean.MaterialSpec.length spec)) specs ->
        Clean._optimize_sheet_nesting self shape_key specs category = None)
  /\ (forall self before after shape_key specs,
        Forall (fun spec => no_sheet_fits self (Clean.MaterialSpec.width spec)
                              (Clean.MaterialSpec.length spec)) specs ->
        Clean._optimize_sheet_materials self (before ++ (shape_key, specs) :: after)
        = Clean._optimize_sheet_materials self (before ++ after))
  /\ (forall self plate_data,
        Forall (fun size => plate_fits (Simple.PlateData.width plate_data)
                              (Simple.PlateData.length plate_data) size = false)
          (Simple.standard_plate_sizes self) ->
        exists p,
          Simple._optimize_plate_material self plate_data = Some p
          /\ Simple.MaterialPurchase.shape_key p = Simple.PlateData.material plate_data
          /\ Simple.MaterialPurchase.size_description p = "96x240 sheets"%string).
Proof.
  split; [|split; [|split]].
  - intros. apply single_sheet_no_fit. assumption.
  - intros. apply sheet_nesting_no_fit. assumption.
  - intros self before after shape_key specs H.
    unfold Clean._optimize_sheet_materials.
    rewrite !collect_purchases_app. f_equal.
    unfold Clean.collect_purchases at 1. simpl.
    rewrite (sheet_nesting_no_fit self shape_key specs Clean.sheet H). reflexivity.
  - intros self plate_data H.
    destruct (simple_plate_fallback self plate_data H) as (p & Hp & Hk & Hd & _).
    eauto.
Qed.

Lemma no_fit_skipped_witness :
  Clean._optimize_sheet_nesting Clean.nesting_service "PL-BIG"
    [sheet_spec 200 500 1] Clean.sheet = None.
Proof.
  apply (proj1 (proj2 no_fit_skipped)).
  repeat constructor.
Defined.



(** C10.  Whenever the linear bin packing succeeds, the cuts recorded on
    the sticks are the input cuts, each exactly once: the concatenation of
    [cuts_per_stick] is a permutation of the input list.  This holds for
    the packing and for the purchase of the comprehensive service, and for
    the purchase of the simple service. *)
Theorem cuts_assigned_exactly_once :
  (forall cuts stock_length kerf r,
     Clean._bin_pack_linear cuts stock_length kerf = Some r ->
     Permutation (List.concat (Clean.PackResult.cuts_per_stick r)) cuts)
  /\ (forall self shape_key cuts category p,
        Clean._optimize_linear_cuts self shape_key cuts category = Some p ->
        Permutation (List.concat (Clean.MaterialPurchase.cuts_per_stick p)) cuts)
  /\ (forall self material cuts p,
        Simple._optimize_linear_material self material cuts = Py.Value (Some p) ->
        Permutation (List.concat (Simple.MaterialPurchase.cuts_per_stick p)) cuts).
Proof.
  split; [|split].
  - intros cuts stock_length kerf r Hr. eapply bin_pack_perm. exact Hr.
  - intros self shape_key cuts category p Hp.
    apply optimize_linear_cuts_inv in Hp.
    destruct Hp as (_ & r & Hbest & _ & _ & _ & -> & _).
    apply best_stock_origin in Hbest. destruct Hbest as (L & _ & HL).
    rewrite (bin_pack_perm _ _ _ _ HL). apply sorted_reverse_perm.
  - intros self material cuts p Hp.
    destruct (simple_linear_inv _ _ _ _ Hp) as (stock & rest & _ & _ & _ & -> & _).
    rewrite simple_pack_perm. simpl. apply sorted_reverse_perm.
Qed.

Lemma cuts_assigned_exactly_once_witness :
  Permutation (List.concat [[150; 150; 150; 150]; [150]]) [150; 150; 150; 150; 150].
Proof.
  exact (proj1 cuts_assigned_exactly_once [150; 150; 150; 150; 150] 720 0
           {| Clean.PackResult.sticks_needed := 2;
              Clean.PackResult.stock_length := 720;
              Clean.PackResult.efficiency := 75000 # 1440;
              Clean.PackResult.waste_percentage := 69000 # 1440;
              Clean.PackResult.total_waste := 690;
              Clean.PackResult.cuts_per_stick := [[150; 150; 150; 150]; [150]] |}
           eq_refl).
Defined.

(** * Further properties *)

(** ** The packing of the comprehensive service *)

Section PackingShape.
Variables stock_length kerf : Q.

Lemma place_in_stick_nonempty sticks : forall stick_cuts required cut s c,
  Forall (fun cs : list Q => cs <> []) stick_cuts ->
  Clean.place_in_stick sticks stick_cuts required cut = Some (s, c) ->
  Forall (fun cs : list Q => cs <> []) c /\ List.length c = List.length stick_cuts.
Proof.
  induction sticks as [|rem sticks' IH]; intros stick_cuts required cut s c Hne; simpl.
  - discriminate.
  - destruct stick_cuts as [|cs stick_cuts']; [discriminate|].
    inversion Hne as [|? ? Hcs Hrest]; subst.
    destruct (Py.ge rem required).
    + intros [= <- <-]. split; [|reflexivity].
      constructor; [destruct cs; discriminate|exact Hrest].
    + destruct (Clean.place_in_stick sticks' stick_cuts' required cut) as [[s' c']|] eqn:Hrec;
        [|discriminate].
      intros [= <- <-]. destruct (IH _ _ _ _ _ Hrest Hrec) as [H1 H2].
      split; [constructor; assumption|simpl; congruence].
Qed.

Lemma pack_cuts_nonempty cuts : forall sticks stick_cuts s c,
  Forall (fun cs : list Q => cs <> []) stick_cuts ->
  Clean.pack_cuts cuts stock_length kerf sticks stick_cuts = Some (s, c) ->
  Forall (fun cs : list Q => cs <> []) c
  /\ (List.length c <= List.length stick_cuts + List.length cuts)%nat
  /\ (cuts <> [] -> c <> []).
Proof.
  induction cuts as [|cut rest IH]; intros sticks stick_cuts s c Hne; simpl.
  - intros [= <- <-]. split; [exact Hne|]. split; [lia|congruence].
  - destruct (Clean.place_in_stick sticks stick_cuts (cut + kerf) cut) as [[s1 c1]|] eqn:Hplace.
    + destruct (place_in_stick_nonempty _ _ _ _ _ _ Hne Hplace) as [Hne1 Hlen1].
      intro Hpack. destruct (IH _ _ _ _ Hne1 Hpack) as (H1 & H2 & H3).
      split; [exact H1|]. split; [lia|]. intros _.
      destruct rest as [|c0 rest'].
      * simpl in Hpack. injection Hpack as <- <-.
        destruct stick_cuts as [|cs0 css0].
        -- destruct sticks; simpl in Hplace; discriminate.
        -- destruct c1; [simpl in Hlen1; discriminate|discriminate].
      * apply H3. discriminate.
    + destruct (Py.lt stock_length (cut + kerf)); [discriminate|].
      intro Hpack.
      assert (Hne1 : Forall (fun cs : list Q => cs <> []) (stick_cuts ++ [[cut]])).
      { apply Forall_app. split; [exact Hne|]. constructor; [discriminate|constructor]. }
      destruct (IH _ _ _ _ Hne1 Hpack) as (H1 & H2 & H3).
      split; [exact H1|]. rewrite length_app in H2. simpl in H2.
      split; [lia|]. intros _.
      destruct rest as [|c0 rest'].
      * simpl in Hpack. injection Hpack as <- <-. destruct stick_cuts; discriminate.
      * apply H3. discriminate.
Qed.

End PackingShape.



Section FirstFit.
Variables stock_length kerf : Q.

Lemma place_in_stick_none sticks : forall stick_cuts required cut,
  List.length sticks = List.length stick_cuts ->
  Clean.place_in_stick sticks stick_cuts required cut = None ->
  Forall (fun remaining_space => remaining_space < required) sticks.
Proof.
  induction sticks as [|rem sticks' IH]; intros stick_cuts required cut Hlen; simpl.
  - constructor.
  - destruct stick_cuts as [|cs stick_cuts']; [discriminate|].
    destruct (Py.ge rem required) eqn:Hge; [discriminate|].
    destruct (Clean.place_in_stick sticks' stick_cuts' required cut) as [[s c]|] eqn:Hrec;
      [discriminate|].
    intros _. constructor.
    + apply ge_false. exact Hge.
    + eapply IH; [|exact Hrec]. simpl in Hlen. lia.
Qed.

Lemma opener_blocked_le space space' cs :
  space' <= space -> opener_blocked kerf space cs -> opener_blocked kerf space' cs.
Proof. destruct cs; simpl; [auto|]. intros; lra. Qed.

Lemma opener_blocked_app space cs cut :
  cs <> [] -> opener_blocked kerf space cs -> opener_blocked kerf space (cs ++ [cut]).
Proof. destruct cs; simpl; [congruence|auto]. Qed.

Lemma place_in_stick_blocked sticks : forall stick_cuts required cut s c,
  0 <= required ->
  Forall (fun cs : list Q => cs <> []) stick_cuts ->
  openers_blocked kerf sticks stick_cuts ->
  Clean.place_in_stick sticks stick_cuts required cut = Some (s, c) ->
  openers_blocked kerf s c
  /\ forall space, Forall (opener_blocked kerf space) stick_cuts ->
                   Forall (opener_blocked kerf space) c.
Proof.
  induction sticks as [|rem sticks' IH]; intros stick_cuts required cut s c Hreq Hne Hb; simpl.
  - discriminate.
  - destruct stick_cuts as [|cs stick_cuts']; [discriminate|].
    inversion Hne as [|? ? Hcs Hrest]; subst.
    simpl in Hb. destruct Hb as [Hhd Htl].
    destruct (Py.ge rem required).
    + intros [= <- <-]. split.
      * simpl. split; [|exact Htl].
        eapply Forall_impl; [|exact Hhd]. intros a. apply opener_blocked_le. lra.
      * intros space Hsp. inversion Hsp; subst.
        constructor; [apply opener_blocked_app; assumption|assumption].
    + destruct (Clean.place_in_stick sticks' stick_cuts' required cut) as [[s' c']|] eqn:Hrec;
        [|discriminate].
      intros [= <- <-]. destruct (IH _ _ _ _ _ Hreq Hrest Htl Hrec) as [H1 H2].
      split.
      * simpl. split; [apply H2; exact Hhd|exact H1].
      * intros space Hsp. inversion Hsp; subst. constructor; [assumption|auto].
Qed.

Lemma openers_blocked_snoc sticks : forall stick_cuts space cut,
  List.length sticks = List.length stick_cuts ->
  openers_blocked kerf sticks stick_cuts ->
  Forall (fun remaining_space => remaining_space < cut + kerf) sticks ->
  openers_blocked kerf (sticks ++ [space]) (stick_cuts ++ [[cut]]).
Proof.
  induction sticks as [|rem sticks' IH]; intros stick_cuts space cut Hlen Hb Hall.
  - destruct stick_cuts; [|discriminate]. simpl. auto.
  - destruct stick_cuts as [|cs stick_cuts']; [discriminate|].
    simpl in Hb. destruct Hb as [Hhd Htl]. inversion Hall; subst.
    simpl. split.
    + apply Forall_app. split; [exact Hhd|]. constructor; [simpl; assumption|constructor].
    + apply IH; [simpl in Hlen; lia|assumption|assumption].
Qed.

Lemma pack_cuts_blocked cuts : forall sticks stick_cuts s c,
  0 <= kerf -> Forall (fun cut => 0 <= cut) cuts ->
  List.length sticks = List.length stick_cuts ->
  Forall (fun cs : list Q => cs <> []) stick_cuts ->
  openers_blocked kerf sticks stick_cuts ->
  Clean.pack_cuts cuts stock_length kerf sticks stick_cuts = Some (s, c) ->
  openers_blocked kerf s c.
Proof.
  induction cuts as [|cut rest IH]; intros sticks stick_cuts s c Hk Hcuts Hlen Hne Hb; simpl.
  - intros [= <- <-]. exact Hb.
  - inversion Hcuts as [|? ? Hcut Hrest]; subst.
    destruct (Clean.place_in_stick sticks stick_cuts (cut + kerf) cut) as [[s1 c1]|] eqn:Hplace.
    + assert (Hreq : 0 <= cut + kerf) by lra.
      destruct (place_in_stick_blocked _ _ _ _ _ _ Hreq Hne Hb Hplace) as [Hb1 _].
      destruct (place_in_stick_nonempty _ _ _ _ _ _ Hne Hplace) as [Hne1 Hlen1].
      assert (Hlen' : List.length s1 = List.length c1).
      { clear - Hplace Hlen. revert stick_cuts s1 c1 Hplace Hlen.
        induction sticks as [|rem sticks' IHs]; intros stick_cuts s1 c1; simpl; [discriminate|].
        destruct stick_cuts as [|cs stick_cuts']; [discriminate|].
        destruct (Py.ge rem (cut + kerf)).
        - intros [= <- <-] Hlen. simpl in *. lia.
        - destruct (Clean.place_in_stick sticks' stick_cuts' (cut + kerf) cut)
            as [[s' c']|] eqn:Hrec; [|discriminate].
          intros [= <- <-] Hlen. simpl in *.
          f_equal. eapply IHs; [exact Hrec|lia]. }
      apply IH; assumption.
    + destruct (Py.lt stock_length (cut + kerf)); [discriminate|].
      apply IH; try assumption.
      * rewrite !length_app. simpl. lia.
      * apply Forall_app. split; [exact Hne|]. constructor; [discriminate|constructor].
      * apply openers_blocked_snoc; [assumption|assumption|].
        eapply place_in_stick_none; eassumption.
Qed.

Lemma blocked_first_fit sticks stick_cuts :
  sticks_ok stock_length kerf sticks stick_cuts ->
  openers_blocked kerf sticks stick_cuts ->
  first_fit_ok stock_length kerf stick_cuts.
Proof.
  induction 1 as [|rem cs sticks' css [Hrem _] _ IH]; simpl; [auto|].
  intros [Hhd Htl]. split; [|auto].
  eapply Forall_impl; [|exact Hhd]. intros a. apply opener_blocked_le.
  unfold total_required. lra.
Qed.

End FirstFit.



(** ** The purchase of sticks *)

Section LinearPurchase.
Variable self : Clean.NestingService.

Lemma best_stock_positive sorted_cuts kerf stocks r :
  Clean.best_stock sorted_cuts kerf stocks None 0 = Some r ->
  0 < Clean.PackResult.efficiency r.
Proof.
  assert (G : forall acc e, Clean.best_stock sorted_cuts kerf stocks acc e = Some r ->
              acc = Some r \/ e < Clean.PackResult.efficiency r).
  { induction stocks as [|L rest IH]; intros acc e; simpl.
    - auto.
    - destruct (Clean._bin_pack_linear sorted_cuts L kerf) as [res|]; [|apply IH].
      destruct (Py.gt (Clean.PackResult.efficiency res) e) eqn:Hgt; [|apply IH].
      apply gt_true in Hgt. intro H.
      destruct (IH _ _ H) as [[= <-]|Hlt]; right; lra. }
  intro H. destruct (G _ _ H) as [?|?]; [discriminate|assumption].
Qed.

(** The packing behind a purchase, and the money of the purchase. *)
Lemma linear_purchase_packing shape_key cuts category p :
  Clean._optimize_linear_cuts self shape_key cuts category = Some p ->
  exists r L,
    Clean._bin_pack_linear (Py.sorted_reverse cuts) L (Clean.kerf_of self category)
    = Some r
    /\ 0 < Clean.PackResult.efficiency r
    /\ Clean.MaterialPurchase.waste_percentage p = Clean.PackResult.waste_percentage r
    /\ Clean.MaterialPurchase.utilization_percentage p = Clean.PackResult.efficiency r
    /\ Clean.MaterialPurchase.pieces_needed p = Clean.PackResult.sticks_needed r
    /\ Clean.MaterialPurchase.total_cost p
       = inject_Z (Clean.PackResult.sticks_needed r)
         * Clean._estimate_linear_cost shape_key L
    /\ Clean.MaterialPurchase.waste_cost p
       = (Clean.PackResult.total_waste r / L) * Clean._estimate_linear_cost shape_key L.
Proof.
  unfold Clean._optimize_linear_cuts.
  destruct cuts as [|c cs] eqn:Hc; [discriminate|]. rewrite <- Hc.
  destruct (Clean.best_stock (Py.sorted_reverse cuts) (Clean.kerf_of self category)
              (Clean.standard_stock_lengths self) None 0) as [r|] eqn:Hbest;
    [|discriminate].
  intros [= <-].
  pose proof (best_stock_positive _ _ _ _ Hbest) as Hpos.
  apply best_stock_origin in Hbest. destruct Hbest as (L & _ & HL).
  exists r, L. rewrite (bin_pack_stock _ _ _ _ HL). simpl.
  repeat split; auto.
Qed.

End LinearPurchase.





Section TooLong.
Variables stock_length kerf : Q.

Lemma place_in_stick_space sticks : forall stick_cuts required cut s c,
  0 <= required ->
  Forall (fun remaining_space => remaining_space <= stock_length) sticks ->
  Clean.place_in_stick sticks stick_cuts required cut = Some (s, c) ->
  Forall (fun remaining_space => remaining_space <= stock_length) s.
Proof.
  induction sticks as [|rem sticks' IH]; intros stick_cuts required cut s c Hreq Hall; simpl.
  - discriminate.
  - destruct stick_cuts as [|cs stick_cuts']; [discriminate|].
    inversion Hall; subst.
    destruct (Py.ge rem required).
    + intros [= <- <-]. constructor; [lra|assumption].
    + destruct (Clean.place_in_stick sticks' stick_cuts' required cut) as [[s' c']|] eqn:Hrec;
        [|discriminate].
      intros [= <- <-]. constructor; [assumption|]. eapply IH; eassumption.
Qed.

Lemma place_in_stick_too_long sticks : forall stick_cuts required cut,
  stock_length < required ->
  Forall (fun remaining_space => remaining_space <= stock_length) sticks ->
  Clean.place_in_stick sticks stick_cuts required cut = None.
Proof.
  induction sticks as [|rem sticks' IH]; intros stick_cuts required cut Hreq Hall; simpl.
  - reflexivity.
  - destruct stick_cuts as [|cs stick_cuts']; [reflexivity|].
    inversion Hall; subst.
    assert (Hge : Py.ge rem required = false) by (apply ge_false; lra).
    rewrite Hge, IH by assumption. reflexivity.
Qed.

Lemma pack_cuts_too_long cuts : forall sticks stick_cuts,
  0 <= kerf -> Forall (fun cut => 0 <= cut) cuts ->
  Forall (fun remaining_space => remaining_space <= stock_length) sticks ->
  Exists (fun cut => stock_length < cut + kerf) cuts ->
  Clean.pack_cuts cuts stock_length kerf sticks stick_cuts = None.
Proof.
  induction cuts as [|cut rest IH]; intros sticks stick_cuts Hk Hcuts Hall Hex.
  - inversion Hex.
  - inversion Hcuts as [|? ? Hcut Hrest]; subst. simpl.
    destruct (Qlt_le_dec stock_length (cut + kerf)) as [Hlong|Hfit].
    + rewrite place_in_stick_too_long by assumption.
      apply (lt_true stock_length (cut + kerf)) in Hlong. rewrite Hlong. reflexivity.
    + assert (Hex' : Exists (fun cut => stock_length < cut + kerf) rest)
        by (inversion Hex; subst; [lra|assumption]).
      destruct (Clean.place_in_stick sticks stick_cuts (cut + kerf) cut) as [[s c]|] eqn:Hplace.
      * apply IH; try assumption.
        eapply place_in_stick_space; [|exact Hall|exact Hplace]. lra.
      * apply (lt_false stock_length (cut + kerf)) in Hfit. rewrite Hfit.
        apply IH; try assumption.
        apply Forall_app. split; [exact Hall|]. constructor; [lra|constructor].
Qed.

End TooLong.



(** ** Sheets *)

Section SortHead.
Context {A : Type} (k : A -> Q).

(** The head of a list sorted by key is the first element of least key. *)
Lemma sort_key_head l h t :
  Py.sort_key k l = h :: t ->
  exists before after,
    l = before ++ h :: after
    /\ Forall (fun y => k h < k y) before
    /\ Forall (fun y => k h <= k y) after.
Proof.
  unfold Py.sort_key. revert h t.
  induction l as [|x rest IH]; intros h t; simpl; [discriminate|].
  destruct (Py.stable_sort (fun a b => Qle_bool (k a) (k b)) rest) as [|h' t'] eqn:Hs; simpl.
  - intros [= <- <-]. apply stable_sort_nil_inv in Hs. subst rest.
    exists [], []. repeat split; constructor.
  - destruct (IH _ _ eq_refl) as (before & after & Hrest & Hb & Ha).
    destruct (Qle_bool (k x) (k h')) eqn:Hle.
    + intros [= <- <-]. apply Qle_bool_iff in Hle.
      exists [], rest. split; [reflexivity|]. split; [constructor|].
      subst rest. apply Forall_app. split.
      * eapply Forall_impl; [|exact Hb]. simpl. intros; lra.
      * constructor; [exact Hle|]. eapply Forall_impl; [|exact Ha]. simpl. intros; lra.
    + intros [= <- <-].
      assert (Hlt : k h' < k x).
      { apply Qnot_le_lt. intro H. apply Qle_bool_iff in H. congruence. }
      exists (x :: before), after. subst rest. split; [reflexivity|].
      split; [constructor; assumption|assumption].
Qed.

End SortHead.

Lemma suitable_sizes_complete self pw pl sw sl :
  In (sw, sl) (Clean.standard_plate_sizes self) ->
  Clean.piece_fits pw pl sw sl = true ->
  In (sw * sl - pw * pl, (sw, sl)) (Clean.suitable_sizes self pw pl).
Proof.
  intros Hin Hfit. unfold Clean.suitable_sizes. apply in_flat_map.
  exists (sw, sl). split; [exact Hin|]. rewrite Hfit. left. reflexivity.
Qed.

Lemma suitable_sizes_waste self pw pl waste size :
  In (waste, size) (Clean.suitable_sizes self pw pl) ->
  waste = fst size * snd size - pw * pl.
Proof.
  unfold Clean.suitable_sizes. rewrite in_flat_map.
  intros ([sw sl] & Hin & Hx).
  destruct (Clean.piece_fits pw pl sw sl); [|destruct Hx].
  destruct Hx as [[= <- <-]|[]]. reflexivity.
Qed.




Section SimplePlateSearch.
Variables width length : Q.

(** The search keeps the first fitting size of least waste. *)
Lemma best_plate_fit_least sizes : forall best_fit best_waste,
  plate_search_ok width length (width * length) best_fit best_waste ->
  match Simple.best_plate_fit sizes width length (width * length) best_fit best_waste with
  | (Some fit, Some waste) =>
      (forall w, best_waste = Some w -> waste <= w)
      /\ Forall (fun size => plate_fits width length size = true ->
                             waste <= inject_Z (fst size * snd size) - width * length)
           sizes
  | (None, None) => best_fit = None
  | _ => False
  end.
Proof.
  induction sizes as [|[sw sl] rest IH]; intros best_fit best_waste Hok; simpl.
  - destruct best_fit as [fit|], best_waste as [w|]; simpl in Hok; try contradiction; auto.
    split; [|constructor]. intros w' [= <-]. lra.
  - change ((Qle_bool width (inject_Z sw) && Qle_bool length (inject_Z sl))
            || (Qle_bool width (inject_Z sl) && Qle_bool length (inject_Z sw)))
      with (plate_fits width length (sw, sl)).
    destruct (plate_fits width length (sw, sl)) eqn:Hfit.
    + destruct (match best_waste with
                | Some w => Py.lt (inject_Z (sw * sl) - width * length) w
                | None => true
                end) eqn:Hb.
      * assert (Hok' : plate_search_ok width length (width * length) (Some (sw, sl))
                         (Some (inject_Z (sw * sl) - width * length)))
          by (simpl; auto).
        specialize (IH _ _ Hok').
        destruct (Simple.best_plate_fit rest width length (width * length)
                    (Some (sw, sl)) (Some (inject_Z (sw * sl) - width * length)))
          as [[fit|] [waste|]]; try contradiction; [|discriminate].
        destruct IH as [Hle Hall]. specialize (Hle _ eq_refl).
        split.
        -- intros w ->. apply lt_true in Hb. lra.
        -- constructor; [intros _; exact Hle|exact Hall].
      * specialize (IH _ _ Hok).
        destruct (Simple.best_plate_fit rest width length (width * length)
                    best_fit best_waste) as [[fit|] [waste|]]; try contradiction.
        -- destruct IH as [Hle Hall]. split; [exact Hle|].
           constructor; [|exact Hall]. intros _.
           destruct best_waste as [w|]; [|discriminate].
           apply lt_false in Hb. specialize (Hle _ eq_refl). simpl. lra.
        -- subst best_fit. destruct best_waste; [destruct Hok|discriminate].
    + specialize (IH _ _ Hok).
      destruct (Simple.best_plate_fit rest width length (width * length)
                  best_fit best_waste) as [[fit|] [waste|]]; try contradiction; auto.
      destruct IH as [Hle Hall]. split; [exact Hle|].
      constructor; [intro; congruence|exact Hall].
Qed.

End SimplePlateSearch.



(** ** The packing of the simple service *)

Section SimpleSticks.
Variable stock_length : Q.

Lemma simple_place_ok sticks stick_cuts cut s c :
  sticks_ok stock_length 0 sticks stick_cuts ->
  Simple.place_in_stick sticks stick_cuts cut = Some (s, c) ->
  sticks_ok stock_length 0 s c.
Proof.
  intros Hok. revert s c.
  induction Hok as [|rem cs sticks' stick_cuts' [Hrem Hpos] Htl IH]; intros s c; simpl.
  - discriminate.
  - destruct (Py.ge rem cut) eqn:Hge.
    + intros [= <- <-]. apply ge_true in Hge.
      constructor; [|exact Htl]. split; [|lra].
      rewrite sum_app, sum_cons, sum_nil, Hrem. ring.
    + destruct (Simple.place_in_stick sticks' stick_cuts' cut) as [[s' c']|] eqn:Hrec;
        [|discriminate].
      intros [= <- <-]. constructor; [split; assumption|apply IH; reflexivity].
Qed.

Lemma simple_pack_ok cuts : forall sticks stick_cuts,
  Forall (fun cut => cut <= stock_length) cuts ->
  sticks_ok stock_length 0 sticks stick_cuts ->
  sticks_ok stock_length 0
    (fst (Simple.pack_cuts cuts stock_length sticks stick_cuts))
    (snd (Simple.pack_cuts cuts stock_length sticks stick_cuts)).
Proof.
  induction cuts as [|cut rest IH]; intros sticks stick_cuts Hcuts Hok; simpl.
  - exact Hok.
  - inversion Hcuts as [|? ? Hcut Hrest]; subst.
    destruct (Simple.place_in_stick sticks stick_cuts cut) as [[s c]|] eqn:Hplace.
    + apply IH; [exact Hrest|]. eapply simple_place_ok; eassumption.
    + apply IH; [exact Hrest|].
      apply Forall2_app; [exact Hok|].
      constructor; [|constructor]. split; [|lra].
      rewrite sum_cons, sum_nil. ring.
Qed.

End SimpleSticks.



(** ** The grouping of the entries *)

Section StringDict.
Context {V : Type}.

Lemma lookup_none k (d : list (string * V)) :
  Py.lookup String.eqb k d = None <-> ~ In k (map fst d).
Proof.
  induction d as [|[k' v] t IH]; simpl.
  - split; auto.
  - destruct (String.eqb k k') eqn:E.
    + apply String.eqb_eq in E. subst. split; [discriminate|]. intro H. exfalso. auto.
    + apply String.eqb_neq in E. rewrite IH. split.
      * intros H [H1|H1]; [congruence|auto].
      * intros H H1. apply H. right. exact H1.
Qed.

Lemma store_absent k v (d : list (string * V)) :
  Py.lookup String.eqb k d = None -> Py.store String.eqb k v d = d ++ [(k, v)].
Proof.
  induction d as [|[k' v'] t IH]; simpl; [reflexivity|].
  destruct (String.eqb k k'); [discriminate|]. intro H. rewrite IH by exact H. reflexivity.
Qed.

Lemma store_present k v (d : list (string * V)) old :
  Py.lookup String.eqb k d = Some old ->
  exists before after,
    d = before ++ (k, old) :: after
    /\ Py.store String.eqb k v d = before ++ (k, v) :: after.
Proof.
  induction d as [|[k' v'] t IH]; simpl; [discriminate|].
  destruct (String.eqb k k') eqn:E.
  - apply String.eqb_eq in E. subst. intros [= <-]. exists [], t. auto.
  - intro H. destruct (IH H) as (before & after & -> & ->).
    exists ((k', v') :: before), after. auto.
Qed.

Lemma store_keys k v (d : list (string * V)) old :
  Py.lookup String.eqb k d = Some old ->
  map fst (Py.store String.eqb k v d) = map fst d.
Proof.
  intro H. destruct (store_present k v d old H) as (before & after & -> & ->).
  rewrite !map_app. reflexivity.
Qed.

Lemma lookup_store k k' v (d : list (string * V)) :
  Py.lookup String.eqb k' (Py.store String.eqb k v d)
  = if String.eqb k' k then Some v else Py.lookup String.eqb k' d.
Proof.
  induction d as [|[k0 v0] t IH]; simpl.
  - reflexivity.
  - destruct (String.eqb k k0) eqn:E; simpl.
    + apply String.eqb_eq in E. subst k0.
      destruct (String.eqb k' k); reflexivity.
    + destruct (String.eqb k' k0) eqn:E'.
      * apply String.eqb_eq in E'. subst k0.
        rewrite String.eqb_sym in E. rewrite E. reflexivity.
      * exact IH.
Qed.

Lemma lookup_in k v (d : list (string * V)) :
  Py.lookup String.eqb k d = Some v -> In (k, v) d.
Proof.
  induction d as [|[k0 v0] t IH]; simpl; [discriminate|].
  destruct (String.eqb k k0) eqn:E.
  - apply String.eqb_eq in E. subst. intros [= <-]. auto.
  - auto.
Qed.

Lemma in_lookup k v (d : list (string * V)) :
  NoDup (map fst d) -> In (k, v) d -> Py.lookup String.eqb k d = Some v.
Proof.
  induction d as [|[k0 v0] t IH]; simpl; [intros _ []|].
  intros Hnd Hin. inversion Hnd as [|? ? Hnotin Hnd']; subst.
  destruct Hin as [[= -> ->]|Hin].
  - rewrite String.eqb_refl. reflexivity.
  - destruct (String.eqb k k0) eqn:E; [|auto].
    apply String.eqb_eq in E. subst. exfalso. apply Hnotin.
    apply in_map_iff. exists (k0, v). auto.
Qed.

Lemma store_nodup k v (d : list (string * V)) :
  NoDup (map fst d) -> NoDup (map fst (Py.store String.eqb k v d)).
Proof.
  intro Hnd. destruct (Py.lookup String.eqb k d) as [old|] eqn:Hl.
  - rewrite (store_keys _ _ _ _ Hl). exact Hnd.
  - rewrite (store_absent _ _ _ Hl), map_app. simpl.
    apply lookup_none in Hl.
    apply Permutation_NoDup with (l := k :: map fst d).
    + apply Permutation_cons_append.
    + constructor; assumption.
Qed.

End StringDict.

Section AppendSpec.

Lemma append_spec_specs shape_key spec materials :
  Permutation (specs_of_materials (Clean.append_spec shape_key spec materials))
    (spec :: specs_of_materials materials).
Proof.
  unfold Clean.append_spec, specs_of_materials.
  destruct (Py.lookup String.eqb shape_key materials) as [old|] eqn:Hl.
  - destruct (store_present shape_key (old ++ [spec]) materials old Hl)
      as (before & after & -> & ->).
    rewrite !flat_map_app. simpl. rewrite <- !app_assoc.
    apply Permutation_sym.
    change (spec :: flat_map snd before ++ old ++ flat_map snd after)
      with ((spec :: flat_map snd before) ++ old ++ flat_map snd after).
    rewrite (Permutation_app_comm (spec :: flat_map snd before)).
    rewrite (Permutation_app_comm (flat_map snd before)).
    rewrite <- !app_assoc. apply Permutation_app_head.
    simpl. rewrite (Permutation_app_comm (flat_map snd after)).
    simpl. apply perm_skip. apply Permutation_app_comm.
  - rewrite (store_absent _ _ _ Hl), flat_map_app. simpl.
    symmetry. apply Permutation_cons_append.
Qed.

Lemma category_eqb_eq a b : Clean.category_eqb a b = true <-> a = b.
Proof. destruct a, b; simpl; split; congruence. Qed.

Lemma update_group_absent category f groups :
  ~ In category (map fst groups) -> Clean.update_group category f groups = groups.
Proof.
  unfold Clean.update_group. induction groups as [|[c m] t IH]; simpl; [reflexivity|].
  intro H. destruct (Clean.category_eqb category c) eqn:E.
  - apply category_eqb_eq in E. subst. exfalso. auto.
  - rewrite IH; [reflexivity|]. intro Hin. apply H. right. exact Hin.
Qed.

Lemma update_group_keys category f groups :
  map fst (Clean.update_group category f groups) = map fst groups.
Proof.
  unfold Clean.update_group. rewrite map_map. apply map_ext.
  intros [c m]. simpl. destruct (Clean.category_eqb category c); reflexivity.
Qed.

Lemma update_group_specs category shape_key spec groups :
  NoDup (map fst groups) -> In category (map fst groups) ->
  Permutation
    (all_specs (Clean.update_group category (Clean.append_spec shape_key spec) groups))
    (spec :: all_specs groups).
Proof.
  induction groups as [|[c m] t IH]; simpl; [intros _ []|].
  intros Hnd Hin. inversion Hnd as [|? ? Hnotin Hnd']; subst.
  unfold all_specs. simpl.
  destruct (Clean.category_eqb category c) eqn:E.
  - apply category_eqb_eq in E. subst c.
    fold (Clean.update_group category (Clean.append_spec shape_key spec) t).
    rewrite update_group_absent by exact Hnotin. simpl.
    rewrite append_spec_specs. reflexivity.
  - destruct Hin as [Heq|Hin].
    + subst c. exfalso. assert (Clean.category_eqb category category = true)
        by (apply category_eqb_eq; reflexivity). congruence.
    + simpl. fold (Clean.update_group category (Clean.append_spec shape_key spec) t).
      fold (all_specs (Clean.update_group category (Clean.append_spec shape_key spec) t)).
      rewrite (IH Hnd' Hin). fold (all_specs t).
      symmetry. apply Permutation_middle.
Qed.

End AppendSpec.

Lemma all_categories_complete category : In category all_categories.
Proof. destruct category; simpl; auto 10. Qed.

Lemma all_categories_nodup : NoDup all_categories.
Proof. repeat constructor; simpl; intuition discriminate. Qed.

Section Grouped.
Variable self : Clean.NestingService.

Lemma categorize_entry_unfold entry groups :
  Clean._categorize_and_process_entry self entry groups
  = if entry_counts entry
    then Clean.update_group
           (Clean._determine_material_category self (normalized_key entry))
           (Clean.append_spec (normalized_key entry) (spec_of_entry self entry))
           groups
    else groups.
Proof.
  unfold Clean._categorize_and_process_entry, entry_counts, normalized_key, spec_of_entry.
  destruct (Py.strip (Py.upper (Clean.Entry.shape_key entry)) =? "")%string; [reflexivity|].
  simpl. rewrite Z.leb_antisym. destruct (0 <? Clean.Entry.qty entry)%Z; reflexivity.
Qed.

Lemma categorize_entries_fold takeoff_entries : forall groups,
  map fst groups = all_categories ->
  let groups' :=
    fold_left (fun material_groups entry =>
                 Clean._categorize_and_process_entry self entry material_groups)
              takeoff_entries groups in
  map fst groups' = all_categories
  /\ Permutation (all_specs groups')
       (all_specs groups
        ++ map (spec_of_entry self) (filter entry_counts takeoff_entries)).
Proof.
  induction takeoff_entries as [|e rest IH]; intros groups Hkeys; simpl.
  - split; [exact Hkeys|]. rewrite app_nil_r. reflexivity.
  - rewrite categorize_entry_unfold.
    destruct (entry_counts e) eqn:Hc.
    + destruct (IH (Clean.update_group
                      (Clean._determine_material_category self (normalized_key e))
                      (Clean.append_spec (normalized_key e) (spec_of_entry self e))
                      groups)) as [Hk Hp].
      * rewrite update_group_keys. exact Hkeys.
      * split; [exact Hk|]. cbv zeta in Hp. rewrite Hp.
        rewrite update_group_specs.
        -- simpl. apply Permutation_middle.
        -- rewrite Hkeys. apply all_categories_nodup.
        -- rewrite Hkeys. apply all_categories_complete.
    + apply IH. exact Hkeys.
Qed.

End Grouped.

Lemma grouping_keys self takeoff_entries :
  map fst (Clean.categorize_entries self takeoff_entries) = all_categories.
Proof.
  exact (proj1 (categorize_entries_fold self takeoff_entries Clean.empty_groups eq_refl)).
Qed.


Section GroupsWellFormed.
Variable self : Clean.NestingService.

Lemma append_spec_wf category shape_key spec materials :
  Clean._determine_material_category self shape_key = category ->
  Clean.MaterialSpec.shape_key spec = shape_key ->
  Clean.MaterialSpec.category spec = category ->
  (0 < Clean.MaterialSpec.quantity spec)%Z ->
  group_wf self (category, materials) ->
  group_wf self (category, Clean.append_spec shape_key spec materials).
Proof.
  intros Hcat Hkey Hc Hq [Hnd Hall]. simpl in Hnd, Hall.
  unfold group_wf, Clean.append_spec. simpl.
  destruct (Py.lookup String.eqb shape_key materials) as [old|] eqn:Hl.
  - rewrite (store_keys _ _ _ _ Hl). split; [exact Hnd|].
    destruct (store_present shape_key (old ++ [spec]) materials old Hl)
      as (before & after & -> & ->).
    apply Forall_app in Hall. destruct Hall as [Hb Ha].
    inversion Ha as [|? ? Hitem Ha']; subst.
    apply Forall_app. split; [exact Hb|]. constructor; [|exact Ha'].
    destruct Hitem as (_ & Hd & Hspecs). simpl in Hd, Hspecs.
    split; [|split]; simpl.
    + intro Hnil. apply app_eq_nil in Hnil. destruct Hnil as [_ Hnil]. discriminate.
    + exact Hd.
    + apply Forall_app. split; [exact Hspecs|]. constructor; [|constructor].
      split; [|split]; auto.
  - rewrite (store_absent _ _ _ Hl). split.
    + rewrite map_app. simpl. apply lookup_none in Hl.
      apply NoDup_app_remove_l with (l := []). simpl.
      apply Permutation_NoDup with (l := shape_key :: map fst materials).
      * apply Permutation_cons_append.
      * constructor; assumption.
    + apply Forall_app. split; [exact Hall|]. constructor; [|constructor].
      split; [|split]; simpl.
      * discriminate.
      * exact Hcat.
      * constructor; [|constructor]. split; [|split]; auto.
Qed.

Lemma update_group_wf category shape_key spec groups :
  Clean._determine_material_category self shape_key = category ->
  Clean.MaterialSpec.shape_key spec = shape_key ->
  Clean.MaterialSpec.category spec = category ->
  (0 < Clean.MaterialSpec.quantity spec)%Z ->
  Forall (group_wf self) groups ->
  Forall (group_wf self)
    (Clean.update_group category (Clean.append_spec shape_key spec) groups).
Proof.
  intros Hcat Hkey Hc Hq Hall. unfold Clean.update_group.
  induction Hall as [|[c m] t Hg Ht IH]; simpl; constructor; [|exact IH].
  destruct (Clean.category_eqb category c) eqn:E; [|exact Hg].
  apply category_eqb_eq in E. subst c. simpl.
  apply append_spec_wf; assumption.
Qed.

Lemma categorize_entries_wf takeoff_entries : forall groups,
  Forall (group_wf self) groups ->
  Forall (group_wf self)
    (fold_left (fun material_groups entry =>
                  Clean._categorize_and_process_entry self entry material_groups)
               takeoff_entries groups).
Proof.
  induction takeoff_entries as [|e rest IH]; intros groups Hall; simpl; [exact Hall|].
  apply IH. rewrite categorize_entry_unfold.
  destruct (entry_counts e) eqn:Hc; [|exact Hall].
  apply update_group_wf; try reflexivity; [|exact Hall].
  unfold entry_counts in Hc. apply andb_true_iff in Hc. destruct Hc as [_ Hq].
  apply Z.ltb_lt in Hq. exact Hq.
Qed.

End GroupsWellFormed.

(** X11.  After the grouping, whatever the entries and the tables of the
    service: the groups are the seven categories in their order; inside a
    category no shape key occurs twice and no key has an empty list; every
    spec stands under its own shape key, in the category that the
    classifier gives to that key, with a positive quantity. *)
Theorem grouping_is_well_formed :
  forall self takeoff_entries,
    groups_wf self (Clean.categorize_entries self takeoff_entries).
Proof.
  intros self takeoff_entries. split.
  - apply (grouping_keys self takeoff_entries).
  - apply categorize_entries_wf.
    repeat constructor; simpl; constructor.
Qed.

(** ** The purchases of a comprehensive run *)

Lemma forall2_in_r {A B} (R : A -> B -> Prop) l l' y :
  Forall2 R l l' -> In y l' -> exists x, In x l /\ R x y.
Proof.
  induction 1 as [|x y' l l' HR Hall IH]; simpl; [intros []|].
  intros [<-|Hin].
  - exists x. auto.
  - destruct (IH Hin) as (x' & Hx & HRx). exists x'. auto.
Qed.

Section PurchaseKeys.
Variable self : Clean.NestingService.

Lemma collect_purchases_keys category optimize materials :
  (forall shape_key specs p, optimize shape_key specs = Some p ->
     Clean.MaterialPurchase.shape_key p = shape_key
     /\ Clean.MaterialPurchase.material_category p = category) ->
  made_for category materials (Clean.collect_purchases optimize materials).
Proof.
  intro Hopt. unfold made_for, Clean.collect_purchases.
  induction materials as [|[k specs] rest [IHa IHn]]; simpl.
  - split; [constructor|]. intros _. constructor.
  - assert (Hrest : Forall (fun p =>
              Clean.MaterialPurchase.material_category p = category
              /\ (k = Clean.MaterialPurchase.shape_key p
                  \/ In (Clean.MaterialPurchase.shape_key p) (map fst rest)))
              (flat_map (fun item : string * list Clean.MaterialSpec.t =>
                 match optimize (fst item) (snd item) with
                 | Some purchase => [purchase]
                 | None => []
                 end) rest)).
    { eapply Forall_impl; [|exact IHa]. simpl. intros p [Hc Hin]. auto. }
    destruct (optimize k specs) as [p|] eqn:Hp; simpl.
    + destruct (Hopt _ _ _ Hp) as [Hk Hc]. split.
      * constructor; [|exact Hrest]. auto.
      * intro Hnd. inversion Hnd as [|? ? Hnotin Hnd']; subst.
        constructor; [|exact (IHn Hnd')].
        intro Hin. apply in_map_iff in Hin. destruct Hin as (q & Hq & Hinq).
        apply Hnotin.
        pose proof (proj1 (Forall_forall _ _) IHa q Hinq) as Hqa. simpl in Hqa.
        rewrite <- Hq. exact (proj2 Hqa).
    + split; [exact Hrest|]. intro Hnd. inversion Hnd; subst. auto.
Qed.

Lemma panel_nesting_key shape_key specs category p :
  Clean._optimize_panel_nesting self shape_key specs category = Some p ->
  Clean.MaterialPurchase.shape_key p = shape_key
  /\ Clean.MaterialPurchase.material_category p = category.
Proof.
  unfold Clean._optimize_panel_nesting. destruct specs; [discriminate|].
  intros [= <-]. auto.
Qed.

Lemma sheet_nesting_key shape_key specs category p :
  Clean._optimize_sheet_nesting self shape_key specs category = Some p ->
  Clean.MaterialPurchase.shape_key p = shape_key
  /\ Clean.MaterialPurchase.material_category p = category.
Proof.
  unfold Clean._optimize_sheet_nesting. destruct specs as [|s0 rest0] eqn:Hs; [discriminate|].
  rewrite <- Hs. cbv zeta.
  match goal with |- context [if ?c then _ else _] => destruct c end; [discriminate|].
  intros [= <-]. auto.
Qed.

Lemma hardware_batching_key shape_key specs p :
  Clean._optimize_hardware_batching self shape_key specs = Py.Value (Some p) ->
  Clean.MaterialPurchase.shape_key p = shape_key
  /\ Clean.MaterialPurchase.material_category p = Clean.hardware.
Proof.
  unfold Clean._optimize_hardware_batching. destruct specs as [|s0 rest0] eqn:Hs; [discriminate|].
  rewrite <- Hs. cbv zeta.
  destruct (Clean.bulk_discount _ _ _ _ _ _) as [[rate applied]|e]; [|discriminate].
  intros [= <-]. auto.
Qed.

Lemma hardware_materials_keys materials : forall purchases,
  Clean._optimize_hardware_materials self materials = Py.Value purchases ->
  made_for Clean.hardware materials purchases.
Proof.
  unfold made_for.
  induction materials as [|[k specs] rest IH]; simpl; intros purchases.
  - intros [= <-]. split; [constructor|]. intros _. constructor.
  - destruct (Clean._optimize_hardware_batching self k specs) as [purchase|e] eqn:Hb;
      [|discriminate].
    destruct (Clean._optimize_hardware_materials self rest) as [ps|e]; [|discriminate].
    destruct (IH ps eq_refl) as [IHa IHn].
    assert (Hrest : Forall (fun p =>
              Clean.MaterialPurchase.material_category p = Clean.hardware
              /\ (k = Clean.MaterialPurchase.shape_key p
                  \/ In (Clean.MaterialPurchase.shape_key p) (map fst rest))) ps).
    { eapply Forall_impl; [|exact IHa]. simpl. intros p [Hc Hin]. auto. }
    intros [= <-]. destruct purchase as [p|].
    + destruct (hardware_batching_key _ _ _ Hb) as [Hk Hc]. split.
      * constructor; [|exact Hrest]. auto.
      * intro Hnd. inversion Hnd as [|? ? Hnotin Hnd']; subst. simpl.
        constructor; [|exact (IHn Hnd')].
        intro Hin. apply in_map_iff in Hin. destruct Hin as (q & Hq & Hinq).
        apply Hnotin.
        pose proof (proj1 (Forall_forall _ _) IHa q Hinq) as Hqa. simpl in Hqa.
        rewrite <- Hq. exact (proj2 Hqa).
    + split; [exact Hrest|]. intro Hnd. inversion Hnd; subst. auto.
Qed.

Lemma optimize_category_keys category materials purchases :
  Clean.optimize_category self category materials = Py.Value purchases ->
  made_for category materials purchases.
Proof.
  destruct category; simpl.
  - intros [= <-]. apply collect_purchases_keys. intros k specs p Hp.
    apply optimize_linear_cuts_inv in Hp.
    destruct Hp as (_ & r & _ & Hk & _ & _ & _ & _ & _ & Hc). auto.
  - intros [= <-]. apply collect_purchases_keys. intros k specs p Hp.
    exact (sheet_nesting_key _ _ _ _ Hp).
  - intros [= <-]. apply collect_purchases_keys. intros k specs p Hp.
    exact (panel_nesting_key _ _ _ _ Hp).
  - intros [= <-]. apply collect_purchases_keys. intros k specs p Hp.
    destruct (Clean._optimize_panel_nesting self k specs Clean.frp) as [q|] eqn:Hq;
      [|discriminate].
    simpl in Hp. injection Hp as <-. simpl. exact (panel_nesting_key _ _ _ _ Hq).
  - apply hardware_materials_keys.
  - intros [= <-]. apply collect_purchases_keys. intros k specs p Hp.
    apply optimize_linear_cuts_inv in Hp.
    destruct Hp as (_ & r & _ & Hk & _ & _ & _ & _ & _ & Hc). auto.
  - intros [= <-]. unfold Clean._optimize_general_materials. split.
    + apply Forall_forall. intros p Hin. apply in_map_iff in Hin.
      destruct Hin as ([k specs] & <- & Hin). simpl. split; [reflexivity|].
      apply in_map_iff. exists (k, specs). auto.
    + intros Hnd. rewrite map_map. simpl. exact Hnd.
Qed.

Lemma optimize_category_empty category :
  Clean.optimize_category self category [] = Py.Value [].
Proof. destruct category; reflexivity. Qed.

(** The purchases of the run are those of the categories, one category
    after the other. *)
Lemma optimize_groups_concat material_groups : forall all_purchases w purchases w',
  Clean.optimize_groups self material_groups all_purchases w = (Py.Value purchases, w') ->
  exists per_category,
    Forall2 (fun (cg : Clean.Category * Clean.Materials) ps =>
               Clean.optimize_category self (fst cg) (snd cg) = Py.Value ps)
            material_groups per_category
    /\ purchases = all_purchases ++ List.concat per_category.
Proof.
  induction material_groups as [|[category materials] rest IH];
    intros acc w purchases w'; simpl.
  - unfold Clean.ret. intros [= <- _]. exists []. split; [constructor|].
    simpl. rewrite app_nil_r. reflexivity.
  - destruct materials as [|item items] eqn:Hmat.
    + intro Hrun. destruct (IH _ _ _ _ Hrun) as (pss & Hall & ->).
      exists ([] :: pss). split; [|reflexivity].
      constructor; [|exact Hall]. apply optimize_category_empty.
    + rewrite <- Hmat. unfold Clean.bind, Clean.print.
      destruct (Clean.optimize_category self category materials) as [ps|e] eqn:Hcat.
      * intro Hrun. destruct (IH _ _ _ _ Hrun) as (pss & Hall & ->).
        exists (ps :: pss). split.
        -- constructor; [|exact Hall]. exact Hcat.
        -- simpl. rewrite app_assoc. reflexivity.
      * unfold Clean.ret. discriminate.
Qed.

Lemma concat_structure material_groups per_category :
  Forall2 (fun (cg : Clean.Category * Clean.Materials) ps =>
             Forall (fun p => Clean.MaterialPurchase.material_category p = fst cg
                              /\ in_own_category self p) ps
             /\ NoDup (map Clean.MaterialPurchase.shape_key ps))
          material_groups per_category ->
  StronglySorted (fun a b => (category_rank a < category_rank b)%nat)
    (map fst material_groups) ->
  Forall (fun p => In (Clean.MaterialPurchase.material_category p)
                      (map fst material_groups)
                   /\ in_own_category self p)
    (List.concat per_category)
  /\ NoDup (map Clean.MaterialPurchase.shape_key (List.concat per_category))
  /\ StronglySorted (fun a b => (category_rank a <= category_rank b)%nat)
       (map Clean.MaterialPurchase.material_category (List.concat per_category)).
Proof.
  induction 1 as [|[c m] ps groups pss [Hps Hnd] Hall IH]; simpl; intro Hsorted.
  - repeat split; constructor.
  - apply StronglySorted_inv in Hsorted. destruct Hsorted as [Hsorted Hlt].
    destruct (IH Hsorted) as (IHa & IHn & IHs). simpl in Hps.
    assert (Hlater : Forall (fun q =>
               (category_rank c < category_rank (Clean.MaterialPurchase.material_category q))%nat)
               (List.concat pss)).
    { eapply Forall_impl; [|exact IHa]. simpl. intros q [Hin _].
      exact (proj1 (Forall_forall _ _) Hlt _ Hin). }
    split; [|split].
    + apply Forall_app. split.
      * eapply Forall_impl; [|exact Hps]. simpl. intros p [Hc Hown]. auto.
      * eapply Forall_impl; [|exact IHa]. simpl. intros p [Hin Hown]. auto.
    + rewrite map_app. apply NoDup_app; [exact Hnd|exact IHn|].
      intros k Hin1 Hin2.
      apply in_map_iff in Hin1. destruct Hin1 as (p & Hp & Hinp).
      apply in_map_iff in Hin2. destruct Hin2 as (q & Hq & Hinq).
      pose proof (proj1 (Forall_forall _ _) Hps p Hinp) as [Hpc Hpo].
      pose proof (proj1 (Forall_forall _ _) IHa q Hinq) as [_ Hqo].
      pose proof (proj1 (Forall_forall _ _) Hlater q Hinq) as Hrank. simpl in Hrank.
      unfold in_own_category in Hpo, Hqo. rewrite Hp in Hpo. rewrite Hq in Hqo.
      rewrite <- Hqo, Hpo, Hpc in Hrank. lia.
    + rewrite map_app. clear Hnd IH.
      induction Hps as [|p ps' [Hpc _] Hps' IHps]; simpl; [exact IHs|].
      constructor; [exact IHps|].
      apply Forall_app. split.
      * apply Forall_forall. intros c' Hin. apply in_map_iff in Hin.
        destruct Hin as (q & <- & Hinq).
        pose proof (proj1 (Forall_forall _ _) Hps' q Hinq) as [Hqc _].
        rewrite Hpc, Hqc. lia.
      * apply Forall_forall. intros c' Hin. apply in_map_iff in Hin.
        destruct Hin as (q & <- & Hinq).
        pose proof (proj1 (Forall_forall _ _) Hlater q Hinq) as Hrank. simpl in Hrank.
        rewrite Hpc. lia.
Qed.

Lemma made_structure (all : Clean.MaterialGroups) material_groups per_category :
  (forall cg, In cg material_groups -> In cg all) ->
  Forall (group_wf self) material_groups ->
  Forall2 (fun (cg : Clean.Category * Clean.Materials) ps =>
             Clean.optimize_category self (fst cg) (snd cg) = Py.Value ps)
          material_groups per_category ->
  Forall2 (fun (cg : Clean.Category * Clean.Materials) ps =>
             Forall (fun p =>
                       Clean.MaterialPurchase.material_category p = fst cg
                       /\ in_own_category self p
                       /\ exists spec, In spec (all_specs all)
                            /\ Clean.MaterialSpec.shape_key spec
                               = Clean.MaterialPurchase.shape_key p) ps
             /\ NoDup (map Clean.MaterialPurchase.shape_key ps))
          material_groups per_category.
Proof.
  intros Hsub Hwf Hall.
  induction Hall as [|[c m] ps gs' pss' Hcat Hall' IH]; [constructor|].
  inversion Hwf as [|? ? [Hnd Hitems] Hwf']; subst. simpl in Hnd, Hitems, Hcat.
  constructor.
  - destruct (optimize_category_keys _ _ _ Hcat) as [Hfa Hn].
    split; [|exact (Hn Hnd)].
    eapply Forall_impl; [|exact Hfa]. simpl. intros p [Hc Hin].
    apply in_map_iff in Hin. destruct Hin as ([k specs] & Hk & Hin). simpl in Hk.
    pose proof (proj1 (Forall_forall _ _) Hitems _ Hin) as (Hne & Hdet & Hspecs).
    simpl in Hne, Hdet, Hspecs.
    split; [exact Hc|]. split.
    + unfold in_own_category. rewrite <- Hk, Hdet, Hc. reflexivity.
    + destruct specs as [|spec specs']; [congruence|].
      pose proof (Forall_inv Hspecs) as [Hsk _]. simpl in Hsk.
      exists spec. split; [|rewrite Hsk; exact Hk].
      unfold all_specs. apply in_flat_map. exists (c, m). split.
      * apply Hsub. left. reflexivity.
      * simpl. unfold specs_of_materials. apply in_flat_map.
        exists (k, spec :: specs'). split; [exact Hin|].
        left. reflexivity.
  - apply IH; [|exact Hwf'].
    intros cg Hin. apply Hsub. right. exact Hin.
Qed.

(** What a run that returns has bought. *)
Lemma run_purchases_structure takeoff_entries : forall all_purchases w w',
  Clean.optimize_groups self (Clean.categorize_entries self takeoff_entries) [] w
  = (Py.Value all_purchases, w') ->
  Forall (fun p =>
            exists entry, In entry takeoff_entries
              /\ entry_counts entry = true
              /\ Clean.MaterialPurchase.shape_key p = normalized_key entry
              /\ Clean.MaterialPurchase.material_category p
                 = Clean._determine_material_category self (normalized_key entry))
    all_purchases
  /\ NoDup (map Clean.MaterialPurchase.shape_key all_purchases)
  /\ StronglySorted (fun a b => (category_rank a <= category_rank b)%nat)
       (map Clean.MaterialPurchase.material_category all_purchases).
Proof.
  intros ps w w' Hrun.
  destruct (optimize_groups_concat _ _ _ _ _ Hrun) as (pss & Hall & ->). simpl.
  pose proof (grouping_keys self takeoff_entries) as Hkeys.
  pose proof (categorize_entries_wf self takeoff_entries Clean.empty_groups) as Hwf.
  assert (Hwf0 : Forall (group_wf self) Clean.empty_groups)
    by (repeat constructor; simpl; constructor).
  specialize (Hwf Hwf0). clear Hwf0.
  pose proof (proj2 (categorize_entries_fold self takeoff_entries
                       Clean.empty_groups eq_refl)) as Hperm.
  cbv zeta in Hperm. fold (Clean.categorize_entries self takeoff_entries) in Hperm, Hwf.
  simpl in Hperm.
  set (groups := Clean.categorize_entries self takeoff_entries) in *.
  pose proof (made_structure groups groups pss (fun cg H => H) Hwf Hall) as Hmade.
  destruct (concat_structure groups pss) as (_ & Hn & Hs).
  - eapply Forall2_impl; [|exact Hmade]. simpl. intros cg ps [Hfa Hnd].
    split; [|exact Hnd].
    eapply Forall_impl; [|exact Hfa]. simpl. intros p (Hc & Hown & _). auto.
  - rewrite Hkeys. repeat constructor.
  - split; [|split; assumption].
    apply Forall_concat. apply Forall_forall. intros ps Hin.
    destruct (forall2_in_r _ _ _ _ Hmade Hin) as (cg & _ & Hfa & _).
    eapply Forall_impl; [|exact Hfa]. simpl.
    intros p (Hc & Hown & spec & Hspec & Hsk).
    apply (Permutation_in _ Hperm) in Hspec.
    apply in_map_iff in Hspec. destruct Hspec as (entry & <- & Hentry).
    apply filter_In in Hentry. destruct Hentry as [Hentry Hcounts].
    exists entry. simpl in Hsk. repeat split; auto.
    unfold in_own_category in Hown. rewrite <- Hown, <- Hsk. reflexivity.
Qed.

End PurchaseKeys.

Lemma categorize_entries_filter self takeoff_entries :
  Clean.categorize_entries self (filter entry_counts takeoff_entries)
  = Clean.categorize_entries self takeoff_entries.
Proof.
  unfold Clean.categorize_entries. generalize Clean.empty_groups.
  induction takeoff_entries as [|e rest IH]; intro groups; simpl; [reflexivity|].
  rewrite (categorize_entry_unfold self e groups).
  destruct (entry_counts e) eqn:Hc; simpl.
  - rewrite (categorize_entry_unfold self e groups), Hc. apply IH.
  - apply IH.
Qed.

Lemma run_value_inv takeoff_entries project_id w r w' :
  Clean.optimize_project_materials takeoff_entries project_id w = (Py.Value r, w') ->
  exists w1 all_purchases,
    Clean.optimize_groups (Clean.service w)
      (Clean.categorize_entries (Clean.service w) takeoff_entries) [] w1
    = (Py.Value all_purchases, w')
    /\ r = Clean.summarize all_purchases.
Proof.
  rewrite run_unfold. cbv zeta.
  match goal with
  | |- context [Clean.optimize_groups ?s ?g ?a ?w1] =>
      destruct (Clean.optimize_groups s g a w1) as [[ps|e] w2] eqn:Hg
  end; [|discriminate].
  intros [= <- <-]. eauto.
Qed.



(** X13.  The purchases of a comprehensive run come category by category,
    in the order of the service's groups: linear, sheet, grating, frp,
    hardware, structural, general; the order of the entries does not move
    a purchase before one of an earlier category. *)
Theorem purchases_in_category_order :
  forall takeoff_entries project_id w r w',
    Clean.optimize_project_materials takeoff_entries project_id w
    = (Py.Value r, w') ->
    StronglySorted (fun a b => (category_rank a <= category_rank b)%nat)
      (map Clean.MaterialPurchase.material_category
         (Clean.NestingResult.material_purchases r)).
Proof.
  intros takeoff_entries project_id w r w' Hrun.
  destruct (run_value_inv _ _ _ _ _ Hrun) as (w1 & ps & Hg & ->).
  rewrite summarize_purchases.
  exact (proj2 (proj2 (run_purchases_structure _ _ _ _ _ Hg))).
Qed.

Lemma purchases_in_category_order_witness :
  exists r w',
    Clean.optimize_project_materials
      [clean_entry "BOLT-5/8" 30 0 0 0; clean_entry "PL1/2" 10 36 24 0.5;
       clean_entry "PIPE-B" 2 100 0 0]
      "P1" clean_world = (Py.Value r, w')
    /\ StronglySorted (fun a b => (category_rank a <= category_rank b)%nat)
         (map Clean.MaterialPurchase.material_category
            (Clean.NestingResult.material_purchases r)).
Proof.
  eexists. eexists. split; [vm_compute; reflexivity|].
  eapply (purchases_in_category_order
           [clean_entry "BOLT-5/8" 30 0 0 0; clean_entry "PL1/2" 10 36 24 0.5;
            clean_entry "PIPE-B" 2 100 0 0]
           "P1" clean_world).
  vm_compute. reflexivity.
Defined.

(** X14.  Entries whose shape key is blank after trimming, or whose
    quantity is zero or negative, change nothing: the run on all the
    entries and the run on the others return the same result and print the
    same lines. *)
Theorem uncounted_entries_change_nothing :
  forall takeoff_entries project_id w,
    Clean.optimize_project_materials takeoff_entries project_id w
    = Clean.optimize_project_materials (filter entry_counts takeoff_entries)
        project_id w.
Proof.
  intros takeoff_entries project_id w.
  rewrite !run_unfold. cbv zeta. rewrite categorize_entries_filter. reflexivity.
Qed.

(** ** The totals of a comprehensive run *)

Lemma estimate_linear_cost_positive shape_key stock_length :
  0 < stock_length -> 0 < Clean._estimate_linear_cost shape_key stock_length.
Proof.
  intro HL. unfold Clean._estimate_linear_cost.
  destruct (Py.any_in ["PIPE"; "TUBE"]%string (Py.upper shape_key)).
  - assert (H : stock_length / 12 * (10 * 1.2) == stock_length) by field.
    rewrite H. exact HL.
  - destruct (Py.any_in ["BEAM"; "W"; "S"]%string (Py.upper shape_key)).
    + assert (H : stock_length / 12 * (10 * 1.5) == stock_length * (5 # 4)) by field.
      rewrite H. lra.
    + assert (H : stock_length / 12 * 10 == stock_length * (5 # 6)) by field.
      rewrite H. lra.
Qed.

Lemma estimate_hardware_cost_positive shape_key :
  0 < Clean._estimate_hardware_cost shape_key.
Proof.
  unfold Clean._estimate_hardware_cost.
  repeat match goal with |- context [if ?c then _ else _] => destruct c end;
    reflexivity.
Qed.

(** A purchase of sticks costs something, whatever the service. *)
Lemma linear_cost_positive self shape_key cuts category p :
  Clean._optimize_linear_cuts self shape_key cuts category = Some p ->
  0 < Clean.MaterialPurchase.total_cost p.
Proof.
  intro Hp.
  destruct (linear_purchase_packing self _ _ _ _ Hp)
    as (r & L & Hr & Hpos & _ & _ & _ & Hcost & _).
  rewrite Hcost.
  destruct (efficiency_positive _ _ _ _ Hr Hpos) as [Ha _].
  pose proof (bin_pack_sticks_nonneg _ _ _ _ Hr) as Hn.
  assert (Hn' : 0 <= inject_Z (Clean.PackResult.sticks_needed r)).
  { rewrite Zle_Qle in Hn. exact Hn. }
  set (n := inject_Z (Clean.PackResult.sticks_needed r)) in *.
  assert (HL : 0 < L) by nra.
  assert (Hn0 : 0 < n) by nra.
  pose proof (estimate_linear_cost_positive shape_key L HL).
  apply Qmult_lt_0_compat; assumption.
Qed.

Section SheetCost.
Variable self : Clean.NestingService.
Hypothesis plates_positive :
  Forall (fun size : Q * Q => 0 < fst size /\ 0 < snd size) (Clean.standard_plate_sizes self).

Lemma sheet_nesting_cost shape_key specs category p :
  Forall spec_ok specs ->
  Clean._optimize_sheet_nesting self shape_key specs category = Some p ->
  0 < Clean.MaterialPurchase.total_cost p.
Proof.
  intros Hok. unfold Clean._optimize_sheet_nesting.
  destruct specs as [|s0 rest0] eqn:Hspecs; [discriminate|]. rewrite <- Hspecs in *.
  pose proof (group_by_size_ok _ Hok) as Hgroups.
  set (init := {| Clean.acc_total_cost := 0; Clean.acc_total_pieces := 0;
                  Clean.acc_all_sheets := []; Clean.acc_weighted_waste := 0 |}).
  assert (Hinv : forall groups acc,
            Forall (fun g : Clean.SizeKey * list Clean.MaterialSpec.t =>
                      Forall spec_ok (snd g)) groups ->
            0 <= Clean.acc_total_cost acc ->
            0 <= Clean.acc_total_cost
                   (fold_left (Clean.accumulate_sheet self category) groups acc)).
  { induction groups as [|g groups IH]; intros acc Hg Hc; simpl; [auto|].
    inversion Hg as [|? ? Hgh Hgt]; subst.
    apply IH; [exact Hgt|]. unfold Clean.accumulate_sheet.
    destruct (Clean._optimize_single_sheet_size self (snd g) category) as [r|] eqn:Hr;
      simpl; [|assumption].
    destruct (single_sheet_bounds self plates_positive _ _ _ Hgh Hr) as [_ Hc0]. lra. }
  specialize (Hinv (Clean.group_by_size specs) init Hgroups).
  assert (Hc : 0 <= Clean.acc_total_cost
                 (fold_left (Clean.accumulate_sheet self category)
                    (Clean.group_by_size specs) init))
    by (apply Hinv; simpl; lra).
  cbv zeta.
  set (acc := fold_left (Clean.accumulate_sheet self category)
                (Clean.group_by_size specs) init) in *.
  destruct (Py.eq (Clean.acc_total_cost acc) 0) eqn:Hz; [discriminate|].
  intros [= <-]. simpl.
  apply Qeq_bool_neq in Hz.
  destruct (Qlt_le_dec 0 (Clean.acc_total_cost acc)); [assumption|exfalso; apply Hz; lra].
Qed.

End SheetCost.

Lemma panel_nesting_cost self shape_key specs category p :
  Forall spec_ok specs ->
  Clean._optimize_panel_nesting self shape_key specs category = Some p ->
  0 <= Clean.MaterialPurchase.total_cost p.
Proof.
  intros Hok. unfold Clean._optimize_panel_nesting.
  destruct specs as [|s0 rest0] eqn:Hspecs; [discriminate|]. rewrite <- Hspecs in *.
  intros [= <-]. simpl.
  pose proof (total_quantity_nonneg _ Hok) as Hq. rewrite Zle_Qle in Hq.
  apply Qmult_le_0_compat; [exact Hq|].
  unfold Clean._estimate_panel_cost. destruct category; discriminate.
Qed.

Lemma hardware_materials_cost materials : forall purchases,
  materials_ok materials ->
  Clean._optimize_hardware_materials Clean.nesting_service materials
  = Py.Value purchases ->
  Forall (fun p => 0 <= Clean.MaterialPurchase.total_cost p) purchases.
Proof.
  induction materials as [|[k specs] rest IH]; simpl; intros purchases Hok.
  - intros [= <-]. constructor.
  - inversion Hok as [|? ? Hspecs Hrest]; subst. simpl in Hspecs.
    destruct (Clean._optimize_hardware_batching Clean.nesting_service k specs)
      as [purchase|e] eqn:Hb; [|discriminate].
    destruct (Clean._optimize_hardware_materials Clean.nesting_service rest)
      as [ps|e]; [|discriminate].
    specialize (IH ps Hrest eq_refl).
    intros [= <-]. destruct purchase as [p|]; [|exact IH].
    constructor; [|exact IH].
    destruct specs as [|s0 specs'] eqn:Hs; [discriminate|]. rewrite <- Hs in *.
    destruct (hardware_batching_spec Clean.nesting_service
                default_thresholds_ascending default_discounts_cover k specs)
      as (p' & rate & applied & Hrun & Hrate & Hcost & _); [rewrite Hs; discriminate|].
    rewrite Hrun in Hb. injection Hb as <-. rewrite Hcost.
    pose proof (total_quantity_nonneg _ Hspecs) as Hq. rewrite Zle_Qle in Hq.
    pose proof (estimate_hardware_cost_positive k) as Hbase.
    assert (Hr : rate <= 1).
    { destruct Hrate as [(_ & -> & _)|(i & t & _ & _ & Hnth & _)]; [lra|].
      apply nth_error_In in Hnth. cbv [Clean.hardware_discounts] in Hnth.
      simpl in Hnth.
      destruct Hnth as [<-|[<-|[<-|[<-|[]]]]]; lra. }
    apply Qmult_le_0_compat; [exact Hq|].
    apply Qmult_le_0_compat; lra.
Qed.

Lemma optimize_category_cost category materials purchases :
  materials_ok materials ->
  Clean.optimize_category Clean.nesting_service category materials
  = Py.Value purchases ->
  Forall (fun p => 0 <= Clean.MaterialPurchase.total_cost p) purchases.
Proof.
  intro Hm. destruct category; simpl.
  - intros [= <-]. apply collect_purchases_forall. intros k specs p Hin Hp.
    apply Qlt_le_weak. exact (linear_cost_positive _ _ _ _ _ Hp).
  - intros [= <-]. apply collect_purchases_forall. intros k specs p Hin Hp.
    apply Qlt_le_weak.
    eapply sheet_nesting_cost; [exact default_plates_positive| |exact Hp].
    exact (proj1 (Forall_forall _ _) Hm _ Hin).
  - intros [= <-]. apply collect_purchases_forall. intros k specs p Hin Hp.
    eapply panel_nesting_cost; [|exact Hp].
    exact (proj1 (Forall_forall _ _) Hm _ Hin).
  - intros [= <-]. apply collect_purchases_forall. intros k specs p Hin Hp.
    destruct (Clean._optimize_panel_nesting Clean.nesting_service k specs Clean.frp)
      as [q|] eqn:Hq; [|discriminate].
    injection Hp as <-. simpl.
    eapply panel_nesting_cost; [|exact Hq].
    exact (proj1 (Forall_forall _ _) Hm _ Hin).
  - apply hardware_materials_cost. exact Hm.
  - intros [= <-]. apply collect_purchases_forall. intros k specs p Hin Hp.
    apply Qlt_le_weak. exact (linear_cost_positive _ _ _ _ _ Hp).
  - intros [= <-]. unfold Clean._optimize_general_materials.
    apply Forall_map. apply Forall_forall. intros [k specs] Hin. simpl.
    pose proof (total_quantity_nonneg _ (proj1 (Forall_forall _ _) Hm _ Hin)) as Hq.
    simpl in Hq. rewrite Zle_Qle in Hq.
    apply Qmult_le_0_compat; [exact Hq|lra].
Qed.

(** The cost-weighted mean of percentages in range is in range. *)
Lemma weighted_waste_range (purchases : list Clean.MaterialPurchase.t) :
  Forall (fun p => waste_in_range p /\ 0 <= Clean.MaterialPurchase.total_cost p)
    purchases ->
  0 <= Py.sum (map Clean.MaterialPurchase.total_cost purchases)
  /\ 0 <= Py.sum (map (fun p => Clean.MaterialPurchase.waste_percentage p
                                * Clean.MaterialPurchase.total_cost p) purchases)
     <= 100 * Py.sum (map Clean.MaterialPurchase.total_cost purchases).
Proof.
  induction 1 as [|p ps [[Hw0 Hw1] Hc] _ IH]; simpl.
  - rewrite !sum_nil. lra.
  - rewrite !sum_cons.
    assert (0 <= Clean.MaterialPurchase.waste_percentage p
                 * Clean.MaterialPurchase.total_cost p)
      by (apply Qmult_le_0_compat; assumption).
    assert (Clean.MaterialPurchase.waste_percentage p
            * Clean.MaterialPurchase.total_cost p
            <= 100 * Clean.MaterialPurchase.total_cost p)
      by (apply Qmult_le_compat_r; assumption).
    lra.
Qed.

Lemma summarize_fields purchases :
  purchases <> [] ->
  let total := Py.sum (map Clean.MaterialPurchase.total_cost purchases) in
  Clean.NestingResult.total_cost (Clean.summarize purchases) = total
  /\ Clean.NestingResult.total_waste_percentage (Clean.summarize purchases)
     = (if Py.gt total 0
        then Py.sum (map (fun p => Clean.MaterialPurchase.waste_percentage p
                                   * Clean.MaterialPurchase.total_cost p)
                       purchases) / total
        else 0)
  /\ Clean.NestingResult.cost_savings (Clean.summarize purchases)
     = total / 0.85 - total.
Proof.
  destruct purchases; [congruence|]. intros _. repeat split; reflexivity.
Qed.

Lemma summarize_totals purchases :
  Forall (fun p => waste_in_range p /\ 0 <= Clean.MaterialPurchase.total_cost p)
    purchases ->
  let r := Clean.summarize purchases in
  Clean.NestingResult.total_cost r
  == Py.sum (map Clean.MaterialPurchase.total_cost purchases)
  /\ 0 <= Clean.NestingResult.total_cost r
  /\ 0 <= Clean.NestingResult.total_waste_percentage r <= 100
  /\ Clean.NestingResult.cost_savings r * 17 == Clean.NestingResult.total_cost r * 3.
Proof.
  intro Hall. destruct (weighted_waste_range _ Hall) as (Hc & Hw0 & Hw1).
  destruct purchases as [|p ps] eqn:Hps.
  - simpl. rewrite sum_nil. repeat split; try lra; reflexivity.
  - rewrite <- Hps in *. cbv zeta.
    destruct (summarize_fields purchases) as (-> & -> & ->);
      [rewrite Hps; discriminate|].
    set (total := Py.sum (map Clean.MaterialPurchase.total_cost purchases)) in *.
    set (weighted := Py.sum (map (fun p0 => Clean.MaterialPurchase.waste_percentage p0
                               * Clean.MaterialPurchase.total_cost p0) purchases)) in *.
    split; [reflexivity|]. split; [exact Hc|]. split.
    + destruct (Py.gt total 0) eqn:Hgt.
      * apply gt_true in Hgt. split.
        -- apply Qle_shift_div_l; lra.
        -- apply Qle_shift_div_r; lra.
      * lra.
    + field.
Qed.



(** ** The bulk discount on tables of any shape *)

Section AnyTables.
Variables (discounts : list Q) (total_qty : Z).

Lemma bulk_discount_general thresholds : forall i rate0 applied0,
  match Clean.bulk_discount thresholds discounts i total_qty rate0 applied0 with
  | Py.Raise e =>
      e = "list index out of range"%string
      /\ exists k t, nth_error thresholds k = Some t /\ (t <= total_qty)%Z
                     /\ (List.length discounts <= i + k)%nat
  | Py.Value (rate, applied) =>
      (Forall (fun t => (total_qty < t)%Z) thresholds
       /\ rate = rate0 /\ applied = applied0)
      \/ (exists k t,
            nth_error thresholds k = Some t /\ (t <= total_qty)%Z
            /\ (forall k' t', (k < k')%nat -> nth_error thresholds k' = Some t' ->
                  (total_qty < t')%Z)
            /\ nth_error discounts (i + k) = Some rate
            /\ applied = true)
  end.
Proof.
  induction thresholds as [|t0 rest IH]; intros i rate0 applied0; simpl.
  - left. auto.
  - destruct (total_qty >=? t0)%Z eqn:Hge.
    + apply Z.geb_le in Hge.
      destruct (nth_error discounts i) as [d|] eqn:Hd.
      * specialize (IH (S i) d true).
        destruct (Clean.bulk_discount rest discounts (S i) total_qty d true)
          as [[rate applied]|e].
        -- right. destruct IH as [(Hnone & -> & ->)|(k & t & Hk & Ht & Hlast & Hr & Ha)].
           ++ exists 0%nat, t0. rewrite Nat.add_0_r. simpl.
              repeat split; auto.
              intros k' t' Hlt Hk'. destruct k' as [|k']; [lia|]. simpl in Hk'.
              apply nth_error_In in Hk'.
              exact (proj1 (Forall_forall _ _) Hnone _ Hk').
           ++ exists (S k), t. rewrite Nat.add_succ_r. simpl.
              repeat split; auto.
              intros k' t' Hlt Hk'. destruct k' as [|k']; [lia|]. simpl in Hk'.
              apply (Hlast k'); [lia|exact Hk'].
        -- destruct IH as (He & k & t & Hk & Ht & Hlen).
           split; [exact He|]. exists (S k), t. simpl. repeat split; auto. lia.
      * split; [reflexivity|]. exists 0%nat, t0. simpl.
        apply nth_error_None in Hd. repeat split; auto. lia.
    + assert (Hlt : (total_qty < t0)%Z).
      { destruct (Z.geb_spec total_qty t0); [discriminate|lia]. }
      specialize (IH (S i) rate0 applied0).
      destruct (Clean.bulk_discount rest discounts (S i) total_qty rate0 applied0)
        as [[rate applied]|e].
      * destruct IH as [(Hnone & -> & ->)|(k & t & Hk & Ht & Hlast & Hr & Ha)].
        -- left. repeat split; auto.
        -- right. exists (S k), t. rewrite Nat.add_succ_r. simpl.
           repeat split; auto.
           intros k' t' Hlt' Hk'. destruct k' as [|k']; [lia|]. simpl in Hk'.
           apply (Hlast k'); [lia|exact Hk'].
      * destruct IH as (He & k & t & Hk & Ht & Hlen).
        split; [exact He|]. exists (S k), t. simpl. repeat split; auto. lia.
Qed.

End AnyTables.

(** X16.  The bulk discount on any tables of thresholds and discounts.  A
    batch of hardware is never dropped.  The batching fails, with the
    message of an index out of range, only when the quantity meets a
    threshold that has no discount at its place in the list of discounts.
    Otherwise the purchase bears the discount that stands at the place of
    the last threshold met, in list order, or no discount when no
    threshold is met. *)
Theorem hardware_discount_of_last_threshold_met :
  forall self shape_key specs,
    specs <> [] ->
    let total_qty := Clean.total_quantity specs in
    let thresholds := Clean.hardware_thresholds self in
    let discounts := Clean.hardware_discounts self in
    match Clean._optimize_hardware_batching self shape_key specs with
    | Py.Raise e =>
        e = "list index out of range"%string
        /\ exists k t, nth_error thresholds k = Some t /\ (t <= total_qty)%Z
                       /\ (List.length discounts <= k)%nat
    | Py.Value None => False
    | Py.Value (Some p) =>
        Clean.MaterialPurchase.pieces_needed p = total_qty
        /\ ((Forall (fun t => (total_qty < t)%Z) thresholds
             /\ Clean.MaterialPurchase.bulk_discount_applied p = false
             /\ Clean.MaterialPurchase.total_cost p
                == inject_Z total_qty * Clean._estimate_hardware_cost shape_key)
            \/ (exists k t rate,
                  nth_error thresholds k = Some t /\ (t <= total_qty)%Z
                  /\ (forall k' t', (k < k')%nat ->
                        nth_error thresholds k' = Some t' -> (total_qty < t')%Z)
                  /\ nth_error discounts k = Some rate
                  /\ Clean.MaterialPurchase.bulk_discount_applied p = true
                  /\ Clean.MaterialPurchase.total_cost p
                     == inject_Z total_qty
                        * (Clean._estimate_hardware_cost shape_key * (1 - rate))))
    end.
Proof.
  intros self shape_key specs Hne. cbv zeta.
  unfold Clean._optimize_hardware_batching.
  destruct specs as [|s0 rest] eqn:Hs; [congruence|]. rewrite <- Hs in *. cbv zeta.
  pose proof (bulk_discount_general (Clean.hardware_discounts self)
                (Clean.total_quantity specs) (Clean.hardware_thresholds self)
                0%nat 0 false) as H.
  destruct (Clean.bulk_discount (Clean.hardware_thresholds self)
              (Clean.hardware_discounts self) 0 (Clean.total_quantity specs) 0 false)
    as [[rate applied]|e].
  - simpl. split; [reflexivity|].
    destruct H as [(Hnone & -> & ->)|(k & t & Hk & Ht & Hlast & Hr & ->)].
    + left. repeat split; auto; ring.
    + right. exists k, t, rate. simpl in Hr. repeat split; auto; reflexivity.
  - exact H.
Qed.

Lemma hardware_discount_of_last_threshold_met_witness :
  exists p,
    Clean._optimize_hardware_batching Clean.nesting_service "BOLT-5/8"
      [hardware_spec "BOLT-5/8" 40; hardware_spec "BOLT-5/8" 20]
    = Py.Value (Some p)
    /\ Clean.MaterialPurchase.pieces_needed p = 60%Z
    /\ Clean.MaterialPurchase.bulk_discount_applied p = true
    /\ Clean.MaterialPurchase.total_cost p == 60 * (2.5 * (1 - 0.05)).
Proof.
  pose proof (hardware_discount_of_last_threshold_met Clean.nesting_service "BOLT-5/8"
                [hardware_spec "BOLT-5/8" 40; hardware_spec "BOLT-5/8" 20]) as H.
  cbv zeta in H.
  assert (Hne : [hardware_spec "BOLT-5/8" 40; hardware_spec "BOLT-5/8" 20] <> [])
    by discriminate.
  specialize (H Hne).
  destruct (Clean._optimize_hardware_batching Clean.nesting_service "BOLT-5/8"
              [hardware_spec "BOLT-5/8" 40; hardware_spec "BOLT-5/8" 20])
    as [[p|]|e].
  - exists p. split; [reflexivity|].
    destruct H as [Hn [(Hnone & _)|(k & t & rate & Hk & Ht & Hlast & Hr & Ha & Hc)]].
    + exfalso. vm_compute in Hnone. inversion Hnone as [|? ? Hlt _]. discriminate Hlt.
    + split; [exact Hn|]. split; [exact Ha|]. rewrite Hc.
      change (Clean.total_quantity
                [hardware_spec "BOLT-5/8" 40; hardware_spec "BOLT-5/8" 20])
        with 60%Z in *.
      change (Clean.hardware_thresholds Clean.nesting_service)
        with [25; 50; 100; 250]%Z in *.
      change (Clean.hardware_discounts Clean.nesting_service)
        with [0.02; 0.05; 0.10; 0.15] in *.
      destruct k as [|[|k]].
      * exfalso. specialize (Hlast 1%nat 50%Z). simpl in Hlast.
        assert (60 < 50)%Z by (apply Hlast; [lia|reflexivity]). lia.
      * simpl in Hr. injection Hr as <-. reflexivity.
      * exfalso. simpl in Hk.
        destruct k as [|[|k]]; simpl in Hk.
        -- injection Hk as <-. lia.
        -- injection Hk as <-. lia.
        -- destruct k; discriminate.
  - destruct H.
  - exfalso. destruct H as (_ & k & t & Hk & _ & Hlen).
    assert (Hk' : nth_error (Clean.hardware_thresholds Clean.nesting_service) k <> None)
      by congruence.
    apply nth_error_Some in Hk'. clear Hk. revert Hk' Hlen.
    change (Clean.hardware_thresholds Clean.nesting_service)
      with [25; 50; 100; 250]%Z.
    change (Clean.hardware_discounts Clean.nesting_service)
      with [0.02; 0.05; 0.10; 0.15].
    simpl. lia.
Defined.

(** ** The special cases of the classifier *)

Section Substrings.

Lemma prefix_app p q s : String.prefix (p ++ q) s = true -> String.prefix p s = true.
Proof.
  revert s. induction p as [|c p IH]; intros s.
  - destruct s; reflexivity.
  - destruct s as [|c' s]; simpl; [discriminate|].
    destruct (Ascii.ascii_dec c c'); [apply IH|discriminate].
Qed.

Lemma contains_unfold p s :
  Py.contains p s
  = String.prefix p s
    || match s with
       | EmptyString => false
       | String _ t => Py.contains p t
       end.
Proof. destruct s; reflexivity. Qed.

Lemma prefix_contains p s : String.prefix p s = true -> Py.contains p s = true.
Proof. intro H. rewrite contains_unfold, H. reflexivity. Qed.

Lemma contains_drop_first c q s :
  Py.contains (String c q) s = true -> Py.contains q s = true.
Proof.
  induction s as [|c' s IH];
    rewrite (contains_unfold (String c q)), (contains_unfold q).
  - simpl. discriminate.
  - intro H. apply orb_true_iff in H. destruct H as [H|H].
    + simpl in H. destruct (Ascii.ascii_dec c c'); [|discriminate].
      apply orb_true_iff. right. apply prefix_contains. exact H.
    + apply orb_true_iff. right. apply IH. exact H.
Qed.

Lemma contains_take_prefix p q s :
  Py.contains (p ++ q) s = true -> Py.contains p s = true.
Proof.
  induction s as [|c' s IH];
    rewrite (contains_unfold (p ++ q)), (contains_unfold p).
  - rewrite !orb_false_r. apply prefix_app.
  - intro H. apply orb_true_iff in H. apply orb_true_iff. destruct H as [H|H].
    + left. exact (prefix_app _ _ _ H).
    + right. apply IH. exact H.
Qed.

(** A string that contains [a ++ p ++ b] contains [p]. *)
Lemma contains_infix a p b s :
  Py.contains (a ++ p ++ b) s = true -> Py.contains p s = true.
Proof.
  induction a as [|c a IH]; simpl.
  - apply contains_take_prefix.
  - intro H. apply IH. exact (contains_drop_first _ _ _ H).
Qed.

End Substrings.

Lemma first_pattern_none table shape_upper :
  Clean.first_pattern_category table shape_upper = None ->
  forall category patterns pattern,
    In (category, patterns) table -> In pattern patterns ->
    Py.contains pattern shape_upper = false.
Proof.
  induction table as [|[c ps] rest IH]; simpl; [intros _ ? ? ? []|].
  destruct (Py.any_in ps shape_upper) eqn:Hany; [discriminate|].
  intros Hrest category patterns pattern [Heq|Hin] Hp.
  - injection Heq as <- <-. unfold Py.any_in in Hany.
    destruct (Py.contains pattern shape_upper) eqn:Hc; [|reflexivity].
    assert (existsb (fun p => Py.contains p shape_upper) ps = true)
      by (apply existsb_exists; eauto).
    congruence.
  - eapply IH; eassumption.
Qed.

Local Open Scope string_scope.

(** X17.  For the constructed service the pattern table decides every
    shape key but one kind.  A key that matches no pattern of the table is
    linear when it contains an inch mark and general otherwise; the special
    cases for plate prefixes, ducts, grating codes, moulded FRP,
    assemblies, clips, anchors and the structural prefixes never decide,
    because each of them contains a pattern of the table. *)
Theorem classifier_special_cases_never_decide :
  forall shape_key,
    Clean._determine_material_category Clean.nesting_service shape_key
    = match Clean.first_pattern_category
              (Clean.material_categories Clean.nesting_service)
              (Py.upper shape_key) with
      | Some category => category
      | None =>
          if Py.contains Clean.inch_mark (Py.upper shape_key)
          then Clean.linear else Clean.general
      end.
Proof.
  intro shape_key. unfold Clean._determine_material_category. cbv zeta.
  destruct (Clean.first_pattern_category
              (Clean.material_categories Clean.nesting_service)
              (Py.upper shape_key)) as [category|] eqn:Htable; [reflexivity|].
  pose proof (first_pattern_none _ _ Htable) as Hnone.
  set (s := Py.upper shape_key) in *.
  assert (Hno : forall category pattern a b,
            In (category, (pattern :: nil)%list) 
               (flat_map (fun cp : Clean.Category * list string =>
                            map (fun p => (fst cp, (p :: nil)%list)) (snd cp))
                         (Clean.material_categories Clean.nesting_service)) ->
            Py.contains (a ++ pattern ++ b) s = false).
  { intros category pattern a b Hin.
    destruct (Py.contains (a ++ pattern ++ b) s) eqn:Hc; [|reflexivity].
    apply contains_infix in Hc.
    apply in_flat_map in Hin. destruct Hin as ([c ps] & Hin & Hp).
    apply in_map_iff in Hp. destruct Hp as (p' & Heq & Hp'). simpl in Heq.
    injection Heq as <- <-.
    rewrite (Hnone c ps p' Hin Hp') in Hc. discriminate. }
  assert (HPL : Py.contains "PL" s = false)
    by (apply (Hno Clean.sheet "PL" "" ""); simpl; auto 30).
  assert (HC : forall a b, Py.contains (a ++ "C" ++ b) s = false)
    by (intros; apply (Hno Clean.structural "C"); simpl; auto 40).
  assert (HW : forall a b, Py.contains (a ++ "W" ++ b) s = false)
    by (intros; apply (Hno Clean.structural "W"); simpl; auto 40).
  assert (HS : forall a b, Py.contains (a ++ "S" ++ b) s = false)
    by (intros; apply (Hno Clean.structural "S"); simpl; auto 40).
  assert (HL : forall a b, Py.contains (a ++ "L" ++ b) s = false)
    by (intros; apply (Hno Clean.structural "L"); simpl; auto 40).
  assert (HHP : Py.contains "HP" s = false)
    by (apply (Hno Clean.structural "HP" "" ""); simpl; auto 40).
  assert (HFRP : forall b, Py.contains ("FRP" ++ b) s = false)
    by (intros; apply (Hno Clean.frp "FRP" ""); simpl; auto 40).
  assert (HCLIP : Py.contains "CLIP" s = false)
    by (apply (Hno Clean.hardware "CLIP" "" ""); simpl; auto 40).
  assert (HANCHOR : Py.contains "ANCHOR" s = false)
    by (apply (Hno Clean.hardware "ANCHOR" "" ""); simpl; auto 40).
  assert (HPIPE : Py.contains "PIPE" s = false)
    by (apply (Hno Clean.linear "PIPE" "" ""); simpl; auto 40).
  assert (HTUBE : Py.contains "TUBE" s = false)
    by (apply (Hno Clean.linear "TUBE" "" ""); simpl; auto 40).
  assert (Hstart : forall p, Py.contains p s = false -> Py.startswith s p = false).
  { intros p Hp. unfold Py.startswith.
    destruct (String.prefix p s) eqn:E; [|reflexivity].
    apply prefix_contains in E. congruence. }
  rewrite (Hstart "PL" HPL).
  rewrite (HC "DU" "T" : Py.contains "DUCT" s = false).
  unfold Py.any_in, Py.startswith_any. simpl existsb.
  rewrite (HW "19" "4" : Py.contains "19W4" s = false).
  rewrite (HW "15" "4" : Py.contains "15W4" s = false).
  rewrite (HW "11" "4" : Py.contains "11W4" s = false).
  rewrite (HFRP "-M-" : Py.contains "FRP-M-" s = false).
  rewrite (HS "A" "SEMBLY" : Py.contains "ASSEMBLY" s = false).
  rewrite HCLIP, HANCHOR.
  rewrite (Hstart "W" (HW "" "")), (Hstart "S" (HS "" "")),
    (Hstart "C" (HC "" "")), (Hstart "L" (HL "" "")),
    (Hstart "WT" (HW "" "T")), (Hstart "MC" (HC "M" "")), (Hstart "HP" HHP).
  rewrite HPIPE, HTUBE. simpl.
  rewrite orb_false_r. reflexivity.
Qed.

Local Close Scope string_scope.

(** ** The advice of the endpoints *)

Section ShapeCounts.

Lemma count_shape_counted shape_counts seen purchase :
  counted shape_counts seen ->
  counted (Api.count_shape shape_counts purchase) (seen ++ [purchase]).
Proof.
  intros [Hnd Hl]. unfold Api.count_shape. split.
  - destruct (Py.lookup String.eqb (Simple.MaterialPurchase.shape_key purchase)
                shape_counts); apply store_nodup; exact Hnd.
  - intro shape. unfold shape_occurrences. rewrite map_app, count_occ_app. simpl.
    fold (shape_occurrences seen shape).
    pose proof (Hl (Simple.MaterialPurchase.shape_key purchase)) as Hown.
    destruct (string_dec (Simple.MaterialPurchase.shape_key purchase) shape) as [<-|Hne].
    + rewrite Nat.add_1_r.
      destruct (shape_occurrences seen (Simple.MaterialPurchase.shape_key purchase))
        as [|n]; rewrite Hown, lookup_store, String.eqb_refl; f_equal; lia.
    + rewrite Nat.add_0_r.
      assert (E : String.eqb shape (Simple.MaterialPurchase.shape_key purchase) = false)
        by (apply String.eqb_neq; congruence).
      destruct (Py.lookup String.eqb (Simple.MaterialPurchase.shape_key purchase)
                  shape_counts); rewrite lookup_store, E; apply Hl.
Qed.

Lemma shape_counts_counted purchases : forall shape_counts seen,
  counted shape_counts seen ->
  counted (fold_left Api.count_shape purchases shape_counts) (seen ++ purchases).
Proof.
  induction purchases as [|p rest IH]; intros shape_counts seen Hc; simpl.
  - rewrite app_nil_r. exact Hc.
  - replace (seen ++ p :: rest) with ((seen ++ [p]) ++ rest)
      by (rewrite <- app_assoc; reflexivity).
    apply IH. apply count_shape_counted. exact Hc.
Qed.

(** No shape asks for bulk purchasing exactly when no shape key occurs more
    than three times. *)
Lemma no_bulk_message purchases :
  filter (fun item : string * Z => (3 <? snd item)%Z)
    (fold_left Api.count_shape purchases []) = []
  <-> forall shape, (shape_occurrences purchases shape <= 3)%nat.
Proof.
  destruct (shape_counts_counted purchases [] []) as [Hnd Hl].
  { split; [constructor|]. intro shape. reflexivity. }
  simpl in Hl.
  set (shape_counts := fold_left Api.count_shape purchases []) in *.
  split.
  - intros Hnone shape.
    destruct (shape_occurrences purchases shape) as [|n] eqn:Hocc; [lia|].
    specialize (Hl shape). rewrite Hocc in Hl. apply lookup_in in Hl.
    destruct (3 <? Z.of_nat (S n))%Z eqn:Hgt.
    + exfalso.
      assert (Hin : In (shape, Z.of_nat (S n))
                      (filter (fun item : string * Z => (3 <? snd item)%Z) shape_counts))
        by (apply filter_In; split; [exact Hl|exact Hgt]).
      rewrite Hnone in Hin. exact Hin.
    + apply Z.ltb_ge in Hgt. lia.
  - intro Hall.
    destruct (filter (fun item : string * Z => (3 <? snd item)%Z) shape_counts)
      as [|[k v] rest] eqn:Hf; [reflexivity|].
    exfalso.
    assert (Hin : In (k, v) (filter (fun item : string * Z => (3 <? snd item)%Z)
                               shape_counts))
      by (rewrite Hf; left; reflexivity).
    apply filter_In in Hin. destruct Hin as [Hin Hgt]. simpl in Hgt.
    apply Z.ltb_lt in Hgt.
    apply (in_lookup _ _ _ Hnd) in Hin. rewrite Hl in Hin.
    specialize (Hall k).
    destruct (shape_occurrences purchases k) as [|n]; [discriminate|].
    injection Hin as <-. lia.
Qed.

End ShapeCounts.

Lemma no_high_waste_message (purchases : list Simple.MaterialPurchase.t) :
  filter (fun p => Py.gt (Simple.MaterialPurchase.waste_percentage p) 40) purchases = []
  <-> Forall (fun p => Simple.MaterialPurchase.waste_percentage p <= 40) purchases.
Proof.
  induction purchases as [|p rest IH]; simpl.
  - split; [constructor|reflexivity].
  - destruct (Py.gt (Simple.MaterialPurchase.waste_percentage p) 40) eqn:Hgt.
    + apply gt_true in Hgt. split; [discriminate|].
      intro H. inversion H; subst. lra.
    + apply gt_false in Hgt. rewrite IH. split.
      * intro H. constructor; assumption.
      * intro H. inversion H; assumption.
Qed.

(** The body of [_generate_recommendations], test by test. *)
Lemma generate_recommendations_unfold optimization_result :
  let total_waste := Simple.NestingResult.total_waste_percentage optimization_result in
  let purchases := Simple.NestingResult.material_purchases optimization_result in
  let recommendations :=
    (if Py.gt total_waste 25
     then ["Consider alternative material sizes to reduce waste above 25%"%string]
     else [])
    ++ (if Py.lt total_waste 10
        then ["Excellent material utilization - consider using this as a standard approach"%string]
        else [])
    ++ map Api.bulk_message
         (filter (fun item : string * Z => (3 <? snd item)%Z)
            (fold_left Api.count_shape purchases []))
    ++ map Api.high_waste_message
         (filter (fun p => Py.gt (Simple.MaterialPurchase.waste_percentage p) 40)
            purchases) in
  Api._generate_recommendations optimization_result
  = match recommendations with
    | [] => [Api.default_recommendation]
    | _ => recommendations
    end.
Proof.
  unfold Api._generate_recommendations. cbv zeta.
  destruct (Py.gt (Simple.NestingResult.total_waste_percentage optimization_result) 25),
    (Py.lt (Simple.NestingResult.total_waste_percentage optimization_result) 10);
    simpl; rewrite <- ?app_assoc; reflexivity.
Qed.



(** The body of [_generate_alternatives] with its tests resolved. *)
Lemma generate_alternatives_unfold entry current_purchase :
  let waste_percentage := Simple.MaterialPurchase.waste_percentage current_purchase in
  Api._generate_alternatives entry current_purchase
  = (if Py.gt waste_percentage 30
     then ["Consider custom length to reduce waste"%string;
           "Combine with similar cuts from other entries"%string]
     else if Py.lt waste_percentage 5
     then ["Excellent efficiency - consider as standard size"%string]
     else [])
    ++ [material_suggestion entry].
Proof.
  cbv zeta. unfold Api._generate_alternatives, material_suggestion. cbv zeta.
  set (w := Simple.MaterialPurchase.waste_percentage current_purchase).
  set (s := Py.upper (Simple.Entry.shape_key entry)).
  assert (Hplate : Py.contains "PL"%string s || Py.contains "PLATE"%string s
                   = Py.contains "PL"%string s).
  { destruct (Py.contains "PL"%string s) eqn:Hpl; [reflexivity|]. simpl.
    destruct (Py.contains "PLATE"%string s) eqn:Hplate; [|reflexivity].
    apply (contains_take_prefix "PL"%string "ATE"%string) in Hplate. congruence. }
  rewrite Hplate.
  destruct (Py.gt w 30) eqn:Hgt.
  - apply gt_true in Hgt.
    destruct (Py.lt w 5) eqn:Hlt; [apply lt_true in Hlt; lra|].
    destruct (Py.contains "PL"%string s); reflexivity.
  - destruct (Py.lt w 5); destruct (Py.contains "PL"%string s); reflexivity.
Qed.

(** X19.  The alternatives for a purchase are never cut short and never
    empty: the limit of three suggestions drops nothing, the suggestion
    that depends on the material is always the last one, the test for
    [PLATE] adds nothing to the test for [PL], and the advice for high
    waste and the praise for low waste never come together. *)
Theorem alternatives_never_truncated :
  forall entry current_purchase,
    let waste_percentage := Simple.MaterialPurchase.waste_percentage current_purchase in
    Api._generate_alternatives entry current_purchase
    = (if Py.gt waste_percentage 30
       then ["Consider custom length to reduce waste"%string;
             "Combine with similar cuts from other entries"%string]
       else if Py.lt waste_percentage 5
       then ["Excellent efficiency - consider as standard size"%string]
       else [])
      ++ [material_suggestion entry]
    /\ Api._generate_alternatives entry current_purchase <> []
    /\ (List.length (Api._generate_alternatives entry current_purchase) <= 3)%nat.
Proof.
  intros entry current_purchase. cbv zeta.
  rewrite generate_alternatives_unfold. cbv zeta.
  split; [reflexivity|].
  destruct (Py.gt (Simple.MaterialPurchase.waste_percentage current_purchase) 30);
    [|destruct (Py.lt (Simple.MaterialPurchase.waste_percentage current_purchase) 5)];
    simpl; split; try discriminate; lia.
Qed.



(** ** From the entries to the purchases *)

Section GroupLookup.
Variable self : Clean.NestingService.

Lemma lookup_append_spec shape_key spec materials k :
  Py.get (Py.lookup String.eqb k (Clean.append_spec shape_key spec materials)) []
  = Py.get (Py.lookup String.eqb k materials) []
    ++ (if String.eqb k shape_key then [spec] else []).
Proof.
  unfold Clean.append_spec.
  destruct (Py.lookup String.eqb shape_key materials) as [old|] eqn:Hl;
    rewrite lookup_store; destruct (String.eqb k shape_key) eqn:E;
    try (rewrite app_nil_r; reflexivity);
    apply String.eqb_eq in E; subst k; rewrite Hl; reflexivity.
Qed.

Lemma category_eqb_refl c : Clean.category_eqb c c = true.
Proof. apply category_eqb_eq. reflexivity. Qed.

Lemma category_eqb_sym a b : Clean.category_eqb a b = Clean.category_eqb b a.
Proof. destruct a, b; reflexivity. Qed.

Lemma lookup_update_group category f groups c :
  Py.lookup Clean.category_eqb c (Clean.update_group category f groups)
  = if Clean.category_eqb c category
    then option_map f (Py.lookup Clean.category_eqb c groups)
    else Py.lookup Clean.category_eqb c groups.
Proof.
  unfold Clean.update_group.
  induction groups as [|[c1 m1] rest IH]; simpl.
  - destruct (Clean.category_eqb c category); reflexivity.
  - destruct (Clean.category_eqb category c1) eqn:E1; simpl;
      destruct (Clean.category_eqb c c1) eqn:E2.
    + apply category_eqb_eq in E1. apply category_eqb_eq in E2. subst.
      rewrite category_eqb_refl. reflexivity.
    + exact IH.
    + apply category_eqb_eq in E2. subst c1.
      rewrite category_eqb_sym, E1. reflexivity.
    + exact IH.
Qed.

Lemma lookup_category (groups : Clean.MaterialGroups) c :
  In c (map fst groups) -> Py.lookup Clean.category_eqb c groups <> None.
Proof.
  induction groups as [|[c1 m1] rest IH]; simpl; [intros []|].
  intros [<-|Hin].
  - rewrite category_eqb_refl. discriminate.
  - destruct (Clean.category_eqb c c1); [discriminate|auto].
Qed.

Lemma group_specs_update category shape_key spec groups c k :
  In category (map fst groups) ->
  group_specs (Clean.update_group category (Clean.append_spec shape_key spec) groups) c k
  = group_specs groups c k
    ++ (if Clean.category_eqb c category && String.eqb k shape_key then [spec] else []).
Proof.
  intro Hin. unfold group_specs. rewrite lookup_update_group.
  destruct (Clean.category_eqb c category) eqn:E; simpl.
  - apply category_eqb_eq in E. subst c.
    destruct (Py.lookup Clean.category_eqb category groups) as [m|] eqn:Hl.
    + simpl. apply lookup_append_spec.
    + exfalso. exact (lookup_category _ _ Hin Hl).
  - rewrite app_nil_r. reflexivity.
Qed.

(** What stands in the groups under a key: the specs of the entries with
    that key, in the order of the entries, in the category of the key. *)
Lemma group_specs_fold takeoff_entries : forall groups c k,
  map fst groups = all_categories ->
  group_specs
    (fold_left (fun material_groups entry =>
                  Clean._categorize_and_process_entry self entry material_groups)
               takeoff_entries groups) c k
  = group_specs groups c k
    ++ (if Clean.category_eqb c (Clean._determine_material_category self k)
        then map (spec_of_entry self) (entries_for k takeoff_entries)
        else []).
Proof.
  induction takeoff_entries as [|e rest IH]; intros groups c k Hkeys; simpl.
  - destruct (Clean.category_eqb c _); rewrite app_nil_r; reflexivity.
  - rewrite categorize_entry_unfold.
    destruct (entry_counts e) eqn:Hc; simpl.
    + rewrite IH by (rewrite update_group_keys; exact Hkeys).
      rewrite group_specs_update
        by (rewrite Hkeys; apply all_categories_complete).
      rewrite <- app_assoc. f_equal.
      destruct (String.eqb (normalized_key e) k) eqn:Ek.
      * apply String.eqb_eq in Ek. subst k. rewrite String.eqb_refl, andb_true_r.
        destruct (Clean.category_eqb c
                    (Clean._determine_material_category self (normalized_key e)));
          reflexivity.
      * rewrite String.eqb_sym, Ek, andb_false_r. reflexivity.
    + apply IH. exact Hkeys.
Qed.

Lemma lookup_in_category (groups : Clean.MaterialGroups) c m :
  NoDup (map fst groups) -> In (c, m) groups ->
  Py.lookup Clean.category_eqb c groups = Some m.
Proof.
  induction groups as [|[c1 m1] rest IH]; simpl; [intros _ []|].
  intros Hnd Hin. inversion Hnd as [|? ? Hnotin Hnd']; subst.
  destruct Hin as [[= -> ->]|Hin].
  - rewrite category_eqb_refl. reflexivity.
  - destruct (Clean.category_eqb c c1) eqn:E; [|auto].
    apply category_eqb_eq in E. subst. exfalso. apply Hnotin.
    apply in_map_iff. exists (c1, m). auto.
Qed.

(** The list that the grouping keeps under a key. *)
Lemma grouped_specs takeoff_entries c m k specs :
  In (c, m) (Clean.categorize_entries self takeoff_entries) ->
  In (k, specs) m ->
  specs = map (spec_of_entry self) (entries_for k takeoff_entries)
  /\ c = Clean._determine_material_category self k.
Proof.
  intros Hc Hk.
  pose proof (grouping_keys self takeoff_entries) as Hkeys.
  pose proof (categorize_entries_wf self takeoff_entries Clean.empty_groups) as Hwf.
  assert (Hwf0 : Forall (group_wf self) Clean.empty_groups)
    by (repeat constructor; simpl; constructor).
  specialize (Hwf Hwf0). fold (Clean.categorize_entries self takeoff_entries) in Hwf.
  pose proof (proj1 (Forall_forall _ _) Hwf _ Hc) as [Hnd Hitems].
  simpl in Hnd, Hitems.
  pose proof (proj1 (Forall_forall _ _) Hitems _ Hk) as (Hne & Hdet & _).
  simpl in Hne, Hdet.
  pose proof (group_specs_fold takeoff_entries Clean.empty_groups c k eq_refl) as Hfold.
  fold (Clean.categorize_entries self takeoff_entries) in Hfold.
  unfold group_specs at 1 in Hfold.
  rewrite (lookup_in_category _ _ _ (eq_ind_r (@NoDup _) all_categories_nodup Hkeys) Hc)
    in Hfold.
  simpl in Hfold. rewrite (in_lookup _ _ _ Hnd Hk) in Hfold. simpl in Hfold.
  rewrite Hdet, category_eqb_refl in Hfold.
  assert (Hempty : group_specs Clean.empty_groups c k = []) by (destruct c; reflexivity).
  rewrite Hempty in Hfold. simpl in Hfold. auto.
Qed.

Lemma cuts_of_entries es :
  Clean.cuts_of_specs (map (spec_of_entry self) es) = entry_cuts es.
Proof.
  unfold Clean.cuts_of_specs, entry_cuts. rewrite flat_map_concat_map, map_map.
  rewrite <- flat_map_concat_map. reflexivity.
Qed.

Lemma quantity_of_entries es :
  Clean.total_quantity (map (spec_of_entry self) es) = entry_quantity es.
Proof.
  unfold Clean.total_quantity, entry_quantity. rewrite map_map. reflexivity.
Qed.

End GroupLookup.

Section PurchaseOrigin.
Variable self : Clean.NestingService.

Lemma collect_purchases_in optimize materials p :
  In p (Clean.collect_purchases optimize materials) ->
  exists k specs, In (k, specs) materials /\ optimize k specs = Some p.
Proof.
  unfold Clean.collect_purchases. intro Hin. apply in_flat_map in Hin.
  destruct Hin as ([k specs] & Hin & Hp). simpl in Hp.
  destruct (optimize k specs) as [q|] eqn:Hq; [|destruct Hp].
  destruct Hp as [<-|[]]. eauto.
Qed.

Lemma hardware_materials_in materials : forall purchases p,
  Clean._optimize_hardware_materials self materials = Py.Value purchases ->
  In p purchases ->
  exists k specs, In (k, specs) materials
    /\ Clean._optimize_hardware_batching self k specs = Py.Value (Some p).
Proof.
  induction materials as [|[k specs] rest IH]; simpl; intros purchases p.
  - intros [= <-] [].
  - destruct (Clean._optimize_hardware_batching self k specs) as [purchase|e] eqn:Hb;
      [|discriminate].
    destruct (Clean._optimize_hardware_materials self rest) as [ps|e]; [|discriminate].
    intros [= <-] Hin.
    assert (Hrest : In p ps -> exists k0 specs0,
              (((k, specs) = (k0, specs0)) \/ In (k0, specs0) rest)
              /\ Clean._optimize_hardware_batching self k0 specs0 = Py.Value (Some p)).
    { intro Hps. destruct (IH ps p eq_refl Hps) as (k0 & specs0 & Hin0 & Hb0). eauto. }
    destruct purchase as [q|]; [|auto].
    destruct Hin as [<-|Hin]; [|auto].
    exists k, specs. auto.
Qed.

Lemma linear_purchase_cuts shape_key cuts category p :
  Clean._optimize_linear_cuts self shape_key cuts category = Some p ->
  Permutation (List.concat (Clean.MaterialPurchase.cuts_per_stick p)) cuts.
Proof.
  intro Hp. apply optimize_linear_cuts_inv in Hp.
  destruct Hp as (_ & r & Hbest & _ & _ & _ & -> & _).
  apply best_stock_origin in Hbest. destruct Hbest as (L & _ & HL).
  rewrite (bin_pack_perm _ _ _ _ HL). apply sorted_reverse_perm.
Qed.

(** A purchase of a run and the group it was made for. *)
Lemma run_purchase_group takeoff_entries all_purchases w w' p :
  Clean.optimize_groups self (Clean.categorize_entries self takeoff_entries) [] w
  = (Py.Value all_purchases, w') ->
  In p all_purchases ->
  exists materials purchases,
    In (Clean.MaterialPurchase.material_category p, materials)
       (Clean.categorize_entries self takeoff_entries)
    /\ Clean.optimize_category self (Clean.MaterialPurchase.material_category p)
         materials = Py.Value purchases
    /\ In p purchases.
Proof.
  intros Hrun Hin.
  destruct (optimize_groups_concat _ _ _ _ _ _ Hrun) as (pss & Hall & ->).
  simpl in Hin. apply in_concat in Hin. destruct Hin as (ps & Hps & Hp).
  destruct (forall2_in_r _ _ _ _ Hall Hps) as ([c m] & Hcm & Hcat). simpl in Hcat.
  destruct (optimize_category_keys _ _ _ _ Hcat) as [Hfa _].
  pose proof (proj1 (Forall_forall _ _) Hfa p Hp) as [Hc _]. simpl in Hc. subst c.
  exists m, ps. auto.
Qed.

End PurchaseOrigin.





(** ** When a shape gets sticks *)

Lemma pack_efficiency_positive cuts stock_length kerf r :
  0 < kerf -> cuts <> [] -> Forall (fun cut_length => 0 <= cut_length) cuts ->
  Clean._bin_pack_linear cuts stock_length kerf = Some r ->
  0 < Clean.PackResult.efficiency r.
Proof.
  intros Hk Hne Hcuts Hr.
  pose proof (bin_pack_capacity _ _ _ _ Hr) as Hcap.
  destruct (bin_pack_efficiency _ _ _ _ Hr) as [Heff _]. cbv zeta in Heff.
  assert (Hreq : 0 < total_required kerf cuts).
  { unfold total_required. pose proof (sum_nonneg _ Hcuts) as Hsum.
    assert (Hlen : 1 <= inject_Z (Py.len cuts)).
    { unfold Py.len. destruct cuts as [|c cs]; [congruence|].
      rewrite <- (Zle_Qle 1). simpl List.length. lia. }
    assert (kerf <= inject_Z (Py.len cuts) * kerf) by nra.
    lra. }
  set (available := inject_Z (Clean.PackResult.sticks_needed r) * stock_length) in *.
  assert (Hav : 0 < available) by lra.
  destruct (Py.gt available 0) eqn:Hgt.
  - rewrite Heff. apply Qmult_lt_0_compat; [|lra].
    apply Qlt_shift_div_l; lra.
  - apply gt_false in Hgt. lra.
Qed.

Lemma best_stock_some sorted_cuts kerf stocks : forall acc e,
  acc <> None
  \/ (exists L r, In L stocks
        /\ Clean._bin_pack_linear sorted_cuts L kerf = Some r
        /\ e < Clean.PackResult.efficiency r) ->
  Clean.best_stock sorted_cuts kerf stocks acc e <> None.
Proof.
  induction stocks as [|L0 rest IH]; intros acc e H; simpl.
  - destruct H as [H|(L & r & [] & _)]. exact H.
  - destruct (Clean._bin_pack_linear sorted_cuts L0 kerf) as [res|] eqn:Hres.
    + destruct (Py.gt (Clean.PackResult.efficiency res) e) eqn:Hgt.
      * apply IH. left. discriminate.
      * apply gt_false in Hgt. apply IH.
        destruct H as [H|(L & r & [<-|Hin] & Hr & He)]; [left; exact H| |right; eauto].
        exfalso. rewrite Hres in Hr. injection Hr as <-. lra.
    + apply IH.
      destruct H as [H|(L & r & [<-|Hin] & Hr & He)]; [left; exact H| |right; eauto].
      congruence.
Qed.



(** ** From the entries to the purchases of the simple service *)

Section SimpleGrouping.

Lemma store_keys_forall {V} (P : string -> Prop) (k : string) (v : V)
    (d : list (string * V)) :
  P k -> Forall (fun item => P (fst item)) d ->
  Forall (fun item => P (fst item)) (Py.store String.eqb k v d).
Proof.
  intros Hk. induction 1 as [|[k0 v0] t Hh Ht IH]; simpl.
  - constructor; [exact Hk|constructor].
  - destruct (String.eqb k k0); constructor; auto.
Qed.

Lemma process_entry_unfold entry groups :
  Simple.process_entry entry groups
  = if negb (String.eqb (simple_key entry) "") && (0 <? Simple.Entry.qty entry)%Z
    then if is_plate_key (simple_key entry)
         then (fst groups, Simple._process_plate_entry entry (snd groups))
         else (Simple._process_linear_entry entry (fst groups), snd groups)
    else groups.
Proof.
  unfold Simple.process_entry, simple_key, is_plate_key.
  destruct (Py.strip (Py.upper (Simple.Entry.shape_key entry)) =? "")%string;
    [reflexivity|].
  simpl. rewrite Z.leb_antisym.
  destruct (0 <? Simple.Entry.qty entry)%Z; reflexivity.
Qed.

Lemma process_linear_unfold entry linear_materials :
  (0 <? Simple.Entry.qty entry)%Z = true ->
  Simple._process_linear_entry entry linear_materials
  = if Py.eq (Simple.Entry.length_ft entry) 0 && Py.eq (Simple.Entry.length_in entry) 0
    then linear_materials
    else Py.store String.eqb (simple_key entry)
           (simple_cuts_of linear_materials (simple_key entry)
            ++ repeat (Simple.Entry.length_ft entry * 12 + Simple.Entry.length_in entry)
                 (Z.to_nat (Simple.Entry.qty entry)))
           linear_materials.
Proof.
  intro Hq. unfold Simple._process_linear_entry. cbv zeta.
  rewrite Z.leb_antisym, Hq. simpl. reflexivity.
Qed.

Lemma process_plate_material entry plate_materials :
  is_plate_key (simple_key entry) = true ->
  Forall (fun item : Simple.PlateKey * Simple.PlateData.t =>
            is_plate_key (Simple.PlateData.material (snd item)) = true)
    plate_materials ->
  Forall (fun item : Simple.PlateKey * Simple.PlateData.t =>
            is_plate_key (Simple.PlateData.material (snd item)) = true)
    (Simple._process_plate_entry entry plate_materials).
Proof.
  intros Hplate Hall. unfold Simple._process_plate_entry. cbv zeta.
  destruct ((Simple.Entry.qty entry <=? 0)%Z || Py.eq (Simple.Entry.width_in entry) 0);
    [exact Hall|].
  destruct (Py.eq _ 0); [exact Hall|].
  destruct (Py.lookup Simple.plate_key_eqb _ plate_materials) as [data|] eqn:Hl.
  - apply (store_values _
             (fun data => is_plate_key (Simple.PlateData.material data) = true));
      [|exact Hall]. simpl.
    exact (lookup_value _
             (fun data => is_plate_key (Simple.PlateData.material data) = true)
             _ _ _ Hall Hl).
  - apply (store_values _
             (fun data => is_plate_key (Simple.PlateData.material data) = true));
      [|exact Hall]. exact Hplate.
Qed.

(** One step of the first loop of the simple run. *)
Lemma process_entry_step entry groups k :
  simple_groups_wf groups ->
  simple_groups_wf (Simple.process_entry entry groups)
  /\ simple_cuts_of (fst (Simple.process_entry entry groups)) k
     = simple_cuts_of (fst groups) k
       ++ simple_entry_cuts (simple_entries_for k [entry]).
Proof.
  intros (Hnd & Hlin & Hpl). rewrite process_entry_unfold.
  unfold simple_entries_for, simple_linear_counts. simpl filter.
  destruct (negb (String.eqb (simple_key entry) "")) eqn:Hkey; simpl;
    [|split; [repeat split; assumption|rewrite app_nil_r; reflexivity]].
  destruct (0 <? Simple.Entry.qty entry)%Z eqn:Hq; simpl;
    [|split; [repeat split; assumption|rewrite app_nil_r; reflexivity]].
  destruct (is_plate_key (simple_key entry)) eqn:Hplate; simpl.
  - split; [|rewrite app_nil_r; reflexivity].
    repeat split; try assumption. apply process_plate_material; assumption.
  - rewrite (process_linear_unfold _ _ Hq).
    destruct (Py.eq (Simple.Entry.length_ft entry) 0
              && Py.eq (Simple.Entry.length_in entry) 0); simpl.
    + split; [repeat split; assumption|rewrite app_nil_r; reflexivity].
    + split.
      * repeat split; simpl; try assumption.
        -- apply store_nodup. exact Hnd.
        -- apply (store_keys_forall (fun key => is_plate_key key = false));
             assumption.
      * unfold simple_cuts_of at 1. rewrite lookup_store.
        destruct (String.eqb k (simple_key entry)) eqn:Ek.
        -- apply String.eqb_eq in Ek. subst k. rewrite String.eqb_refl. simpl.
           rewrite app_nil_r. reflexivity.
        -- rewrite String.eqb_sym, Ek. simpl. rewrite app_nil_r. reflexivity.
Qed.

Lemma process_entries_fold takeoff_entries : forall groups k,
  simple_groups_wf groups ->
  let groups' := fold_left (fun g entry => Simple.process_entry entry g)
                   takeoff_entries groups in
  simple_groups_wf groups'
  /\ simple_cuts_of (fst groups') k
     = simple_cuts_of (fst groups) k
       ++ simple_entry_cuts (simple_entries_for k takeoff_entries).
Proof.
  induction takeoff_entries as [|e rest IH]; intros groups k Hwf; simpl.
  - split; [exact Hwf|]. rewrite app_nil_r. reflexivity.
  - destruct (process_entry_step e groups k Hwf) as [Hwf1 Hcuts1].
    destruct (IH (Simple.process_entry e groups) k Hwf1) as [Hwf2 Hcuts2].
    split; [exact Hwf2|]. cbv zeta in Hcuts2. rewrite Hcuts2, Hcuts1.
    rewrite <- app_assoc. f_equal.
    unfold simple_entries_for, simple_entry_cuts. simpl filter.
    destruct (simple_linear_counts e && String.eqb (simple_key e) k); simpl;
      [|reflexivity].
    rewrite app_nil_r. reflexivity.
Qed.

End SimpleGrouping.

Section SimplePurchases.
Variable self : Simple.NestingService.

Lemma simple_linear_purchases_in linear_materials : forall purchases p,
  Simple.linear_purchases_of self linear_materials = Py.Value purchases ->
  In p purchases ->
  exists k cuts, In (k, cuts) linear_materials
    /\ Simple._optimize_linear_material self k cuts = Py.Value (Some p).
Proof.
  induction linear_materials as [|[k cuts] rest IH]; simpl; intros purchases p.
  - intros [= <-] [].
  - destruct (Simple._optimize_linear_material self k cuts) as [purchase|e] eqn:Hb;
      [|discriminate].
    destruct (Simple.linear_purchases_of self rest) as [ps|e]; [|discriminate].
    intros [= <-] Hin.
    assert (Hrest : In p ps -> exists k0 cuts0,
              (((k, cuts) = (k0, cuts0)) \/ In (k0, cuts0) rest)
              /\ Simple._optimize_linear_material self k0 cuts0 = Py.Value (Some p)).
    { intro Hps. destruct (IH ps p eq_refl Hps) as (k0 & cuts0 & Hin0 & Hb0). eauto. }
    destruct purchase as [q|]; [|auto].
    destruct Hin as [<-|Hin]; [|auto].
    exists k, cuts. auto.
Qed.

Lemma simple_linear_key material cuts p :
  Simple._optimize_linear_material self material cuts = Py.Value (Some p) ->
  Simple.MaterialPurchase.shape_key p = material
  /\ Permutation (List.concat (Simple.MaterialPurchase.cuts_per_stick p)) cuts.
Proof.
  intro Hp. split.
  - unfold Simple._optimize_linear_material in Hp.
    destruct cuts as [|c0 cs] eqn:Hcuts; [discriminate|]. rewrite <- Hcuts in Hp.
    destruct (Simple.standard_stock_lengths self) as [|stock rest]; [discriminate|].
    destruct (Simple.pack_cuts (Py.sorted_reverse cuts) (inject_Z stock) [] [])
      as [sticks stick_cuts].
    injection Hp as <-. reflexivity.
  - destruct (simple_linear_inv _ _ _ _ Hp) as (stock & rest & _ & _ & _ & -> & _).
    rewrite simple_pack_perm. simpl. apply sorted_reverse_perm.
Qed.

Lemma simple_plate_purchases_in plate_materials p :
  In p (Simple.plate_purchases_of self plate_materials) ->
  exists key data, In (key, data) plate_materials
    /\ Simple.MaterialPurchase.shape_key p = Simple.PlateData.material data
    /\ Simple.MaterialPurchase.pieces_needed p = Simple.PlateData.qty data.
Proof.
  unfold Simple.plate_purchases_of. intro Hin. apply in_flat_map in Hin.
  destruct Hin as ([key data] & Hin & Hp). simpl in Hp.
  unfold Simple._optimize_plate_material in Hp. cbv zeta in Hp.
  destruct (match Simple.best_plate_fit _ _ _ _ None None with
            | (Some fit, Some waste) => (fit, waste)
            | _ => ((96, 240)%Z, _)
            end) as [best_fit best_waste].
  destruct Hp as [<-|[]]. exists key, data. auto.
Qed.

Lemma aggregate_purchases linear_purchases plate_purchases :
  Simple.NestingResult.material_purchases
    (Simple.aggregate linear_purchases plate_purchases)
  = linear_purchases ++ plate_purchases.
Proof.
  unfold Simple.aggregate.
  destruct (linear_purchases ++ plate_purchases); reflexivity.
Qed.

End SimplePurchases.

Lemma simple_run_value_inv takeoff_entries project_id w r w' :
  Simple.optimize_project_materials takeoff_entries project_id w = (Py.Value r, w') ->
  let groups := fold_left (fun g entry => Simple.process_entry entry g)
                  takeoff_entries ([], []) in
  exists linear_purchases,
    Simple.linear_purchases_of (Simple.service w) (fst groups)
    = Py.Value linear_purchases
    /\ r = Simple.aggregate linear_purchases
             (Simple.plate_purchases_of (Simple.service w) (snd groups)).
Proof.
  unfold Simple.optimize_project_materials, Simple.bind, Simple.print,
    Simple.get_self, Simple.ret. simpl.
  destruct (Simple.linear_purchases_of (Simple.service w) _) as [lps|e];
    [|discriminate].
  intros [= <- _]. eauto.
Qed.



